(** * gattycord: the social media monitor of [main.py]

    A shallow embedding of [SocialMonitor] (cache store, notifier, HTTP
    fetcher with retry, the YouTube and Instagram checkers and the run
    orchestrator) together with the properties of its specification.

    Python values that come from JSON (API replies, the cache file, the
    webhook payload) are values of [jval]; a Python [str] is a [string] whose
    elements stand for its characters.  Effects are explicit: every method is
    a function from a state (the cache held by the monitor and the history of
    effects so far, newest first) to a result or a raised exception and a new
    state.  The outside world (network, YouTube client, file system,
    environment variables) is a record of oracles that answer a request from
    the history so far. *)

From Stdlib Require Import String Ascii List ZArith Bool Lia.
Import ListNotations.
Local Open Scope string_scope.
Local Open Scope Z_scope.

Set Warnings "-register-all".

(** ** JSON values and the Python operations the program applies to them *)

(** A JSON value.  Numbers are integers; a dict is the list of its entries
    in insertion order, each key once. *)
Inductive jval : Type :=
| JNull
| JBool (b : bool)
| JNum (n : Z)
| JStr (s : string)
| JList (l : list jval)
| JObj (d : list (string * jval)).

(** Exception classes that the program raises or distinguishes.  All of them
    derive from [Exception], the class that the program's handlers catch;
    [HTTPError], [ConnectionError] and [Timeout]
    derive from [requests.RequestException], which [RequestException] itself
    stands for when no subclass applies. *)
Inductive exn_kind : Type :=
| KeyError | IndexError | TypeError | AttributeError | ValueError
| JSONDecodeError | FileNotFoundError | OSError | ImportError
| HTTPError | ConnectionError | Timeout | RequestException
| RetryError | OtherException.

Record exn : Type := Exn { kind : exn_kind; msg : string }.

Definition res (A : Type) : Type := (exn + A)%type.

Definition type_name (k : exn_kind) : string :=
  match k with
  | KeyError => "KeyError" | IndexError => "IndexError"
  | TypeError => "TypeError" | AttributeError => "AttributeError"
  | ValueError => "ValueError" | JSONDecodeError => "JSONDecodeError"
  | FileNotFoundError => "FileNotFoundError" | OSError => "OSError"
  | ImportError => "ImportError" | HTTPError => "HTTPError"
  | ConnectionError => "ConnectionError" | Timeout => "Timeout"
  | RequestException => "RequestException" | RetryError => "RetryError"
  | OtherException => "Exception"
  end.

(** [isinstance(e, requests.RequestException)] *)
Definition is_request_exception (e : exn) : bool :=
  match kind e with
  | HTTPError | ConnectionError | Timeout | RequestException => true
  | _ => false
  end.

(** Lookup in a dict, kept in insertion order. *)
Fixpoint assoc (k : string) (d : list (string * jval)) : option jval :=
  match d with
  | [] => None
  | (k', v) :: d' => if String.eqb k k' then Some v else assoc k d'
  end.

(** [d[k] = v] on a dict: replaces the value in place, or appends. *)
Fixpoint assoc_set (k : string) (v : jval) (d : list (string * jval))
  : list (string * jval) :=
  match d with
  | [] => [(k, v)]
  | (k', v') :: d' =>
      if String.eqb k k' then (k', v) :: d' else (k', v') :: assoc_set k v d'
  end.

(** Truth value of a Python object. *)
Definition py_truthy (v : jval) : bool :=
  match v with
  | JNull => false
  | JBool b => b
  | JNum n => negb (n =? 0)
  | JStr s => negb (String.eqb s "")
  | JList l => match l with [] => false | _ => true end
  | JObj d => match d with [] => false | _ => true end
  end.

(** [v.get(k, dflt)]: only a dict has the method. *)
Definition py_get (v : jval) (k : string) (dflt : jval) : res jval :=
  match v with
  | JObj d => inr (match assoc k d with Some x => x | None => dflt end)
  | _ => inl (Exn AttributeError "object has no attribute 'get'")
  end.

(** [v[k]] with a string key. *)
Definition py_item (v : jval) (k : string) : res jval :=
  match v with
  | JObj d => match assoc k d with
              | Some x => inr x
              | None => inl (Exn KeyError k)
              end
  | _ => inl (Exn TypeError "indices must be integers or object is not subscriptable")
  end.

(** [v[0]] *)
Definition py_first (v : jval) : res jval :=
  match v with
  | JList (x :: _) => inr x
  | JList [] => inl (Exn IndexError "list index out of range")
  | JStr (String c _) => inr (JStr (String c ""))
  | JStr EmptyString => inl (Exn IndexError "string index out of range")
  | JObj _ => inl (Exn KeyError "0")
  | _ => inl (Exn TypeError "object is not subscriptable")
  end.

(** [s[:n]] on a [str] *)
Fixpoint str_take (n : nat) (s : string) : string :=
  match n, s with
  | S n', String c s' => String c (str_take n' s')
  | _, _ => ""
  end.

(** [v[:n]] *)
Definition py_slice (n : nat) (v : jval) : res jval :=
  match v with
  | JStr s => inr (JStr (str_take n s))
  | JList l => inr (JList (firstn n l))
  | _ => inl (Exn TypeError "object is not subscriptable")
  end.

(** [len(v)] *)
Definition py_len (v : jval) : res Z :=
  match v with
  | JStr s => inr (Z.of_nat (String.length s))
  | JList l => inr (Z.of_nat (List.length l))
  | JObj d => inr (Z.of_nat (List.length d))
  | _ => inl (Exn TypeError "object has no len()")
  end.

(** [v + s] for a [str] literal [s] *)
Definition py_add_str (v : jval) (s : string) : res jval :=
  match v with
  | JStr a => inr (JStr (a ++ s))
  | _ => inl (Exn TypeError "unsupported operand type(s) for +")
  end.

(** [a == b] on JSON values.  [True == 1] and [False == 0] as in Python;
    two lists are equal when they are equal element by element; two dicts
    are equal when they have as many entries and every entry of the first
    has an equal value under its key in the second, whatever the order of
    the entries (a dict holds each key once). *)
Fixpoint py_eq (a b : jval) {struct a} : bool :=
  match a, b with
  | JNull, JNull => true
  | JBool x, JBool y => Bool.eqb x y
  | JBool x, JNum n => n =? (if x then 1 else 0)
  | JNum n, JBool x => n =? (if x then 1 else 0)
  | JNum x, JNum y => x =? y
  | JStr x, JStr y => String.eqb x y
  | JList x, JList y =>
      (fix go (x y : list jval) {struct x} : bool :=
         match x, y with
         | [], [] => true
         | a :: x', b :: y' => py_eq a b && go x' y'
         | _, _ => false
         end) x y
  | JObj x, JObj y =>
      Nat.eqb (List.length x) (List.length y)
      && forallb
           (fun '(k, a) =>
              existsb (fun '(k', b) => String.eqb k k' && py_eq a b) y)
           x
  | _, _ => false
  end.

(** [k in v] for a string [k] *)
Fixpoint str_contains (needle hay : string) : bool :=
  if String.prefix needle hay then true
  else match hay with
       | EmptyString => false
       | String _ hay' => str_contains needle hay'
       end.

Definition py_in (k : string) (v : jval) : res bool :=
  match v with
  | JObj d => inr (match assoc k d with Some _ => true | None => false end)
  | JStr s => inr (str_contains k s)
  | JList l => inr (existsb (py_eq (JStr k)) l)
  | _ => inl (Exn TypeError "argument is not iterable")
  end.

(** [str.lower()] and [str.title()] on ASCII letters *)
Definition is_upper (c : ascii) : bool :=
  let n := nat_of_ascii c in (65 <=? n)%nat && (n <=? 90)%nat.
Definition is_lower (c : ascii) : bool :=
  let n := nat_of_ascii c in (97 <=? n)%nat && (n <=? 122)%nat.
Definition to_lower (c : ascii) : ascii :=
  if is_upper c then ascii_of_nat (nat_of_ascii c + 32) else c.
Definition to_upper (c : ascii) : ascii :=
  if is_lower c then ascii_of_nat (nat_of_ascii c - 32) else c.

Fixpoint py_lower (s : string) : string :=
  match s with
  | EmptyString => EmptyString
  | String c s' => String (to_lower c) (py_lower s')
  end.

Fixpoint title_from (in_word : bool) (s : string) : string :=
  match s with
  | EmptyString => EmptyString
  | String c s' =>
      let letter := is_upper c || is_lower c in
      String (if in_word then to_lower c else to_upper c) (title_from letter s')
  end.
Definition py_title (s : string) : string := title_from false s.

Definition nl : string := String (ascii_of_nat 10) EmptyString.
Definition dquote : string := String (ascii_of_nat 34) EmptyString.

(** [sep.join(lines)] *)
Fixpoint py_join (sep : string) (lines : list string) : string :=
  match lines with
  | [] => ""
  | [l] => l
  | l :: rest => l ++ sep ++ py_join sep rest
  end.

(** Truth value of an optional string ([None] and [''] are false). *)
Definition opt_truthy (o : option string) : bool :=
  match o with
  | Some s => negb (String.eqb s "")
  | None => false
  end.

(** ** Library functions taken as given

    Pure functions of the libraries the program calls ([json],
    [BeautifulSoup] and [re] with the program's patterns, [str()] of a value
    that is not a string, [int()], number and date formatting).  Every
    property below holds for any behaviour of these. *)
Record pylib : Type := {
  (** [json.loads(s)]; [None] stands for [JSONDecodeError] *)
  json_loads : string -> option jval;
  (** [str(v)] for a value that is not a [str] *)
  py_repr : jval -> string;
  (** [int(v)] *)
  py_int : jval -> res Z;
  (** [f"{n:,}"] *)
  format_thousands : Z -> string;
  (** [datetime.fromtimestamp(v).strftime('%Y-%m-%d %H:%M')] *)
  strftime : jval -> res string;
  (** [[s.string for s in soup.find_all('script')]] *)
  soup_scripts : string -> list (option string);
  (** group 1 of [re.search(r'window\._sharedData = ({.*?});', s)] *)
  re_shared_data : string -> option string;
  (** [href] of every [a] whose [href] matches [/p/[A-Za-z0-9_-]+/] *)
  soup_post_links : string -> list string;
  (** group 1 of [re.search(r'/p/([A-Za-z0-9_-]+)/', href)] *)
  re_shortcode : string -> option string;
  (** [href] of every [a] whose [href] matches [/media/\d+] *)
  soup_media_links : string -> list string;
  (** group 1 of [re.search(r'/media/(\d+)', href)] *)
  re_media_id : string -> option string;
  (** [src] of the first [img] whose [src] matches [https://.*\.jpg] *)
  soup_first_jpg : string -> option string
}.

(** [f"{v}"] *)
Definition py_str (L : pylib) (v : jval) : string :=
  match v with
  | JStr s => s
  | _ => py_repr L v
  end.

(** ** Effects: events, the outside world, the state *)

Record response : Type := { status_code : Z; text : string }.

Definition headers : Type := list (string * string).

Inductive level : Type := INFO | WARNING | ERROR.

(** One effect of the program, with the answer it got. *)
Inductive event : Type :=
| EvLog (l : level) (m : string)
| EvSleep                                  (* [time.sleep(random.uniform(3, 7))] *)
| EvBackoff                                (* wait between two attempts *)
| EvGet (url : string) (h : headers) (timeout : Z) (out : res response)
| EvPost (url : string) (payload : jval) (timeout : Z) (out : res response)
| EvYoutubeBuild (key : string) (out : option exn)
| EvYoutubeSearch (channel : string) (out : res jval)
| EvYoutubeVideos (id : jval) (out : res jval)
| EvRead (file : string) (out : res string)
| EvWrite (file : string) (content : jval) (out : option exn).

(** The environment variables and the answers of the outside world, each
    answer a function of the history so far (newest event first). *)
Record world : Type := {
  DISCORD_WEBHOOK_URL : option string;
  DISCORD_LOG_WEBHOOK_URL : option string;
  DISCORD_USER_ID : option string;
  YOUTUBE_API_KEY : option string;
  GITHUB_ACTIONS : option string;
  import_googleapiclient : option exn;
  requests_get : list event -> string -> headers -> Z -> res response;
  requests_post : list event -> string -> jval -> Z -> res response;
  youtube_build : list event -> string -> option exn;
  youtube_search : list event -> string -> res jval;
  youtube_videos : list event -> jval -> res jval;
  open_read : list event -> string -> res string;
  open_write : list event -> string -> jval -> option exn
}.

(** The monitor: [self.cache] and the history of effects. *)
Record state : Type := { cache : jval; trace : list event }.

Definition M (A : Type) : Type := state -> res A * state.

Definition ret {A} (a : A) : M A := fun s => (inr a, s).
Definition raise {A} (e : exn) : M A := fun s => (inl e, s).
Definition bind {A B} (m : M A) (f : A -> M B) : M B :=
  fun s => match m s with
           | (inr a, s') => f a s'
           | (inl e, s') => (inl e, s')
           end.
(** [try: m except Exception as e: h e] *)
Definition try_catch {A} (m : M A) (h : exn -> M A) : M A :=
  fun s => match m s with
           | (inl e, s') => h e s'
           | (inr a, s') => (inr a, s')
           end.
Definition lift {A} (r : res A) : M A := fun s => (r, s).
Definition emit (ev : event) : M unit :=
  fun s => (inr tt, {| cache := cache s; trace := ev :: trace s |}).
Definition log (l : level) (m : string) : M unit := emit (EvLog l m).

Declare Scope monad_scope.
Delimit Scope monad_scope with monad.
Notation "x <- m ;; k" := (bind m (fun x => k))
  (at level 100, m at next level, right associativity) : monad_scope.
Notation "m ;; k" := (bind m (fun _ => k))
  (at level 100, right associativity) : monad_scope.
Local Open Scope monad_scope.

(** Sequencing of pure computations that may raise. *)
Definition rbind {A B} (r : res A) (f : A -> res B) : res B :=
  match r with
  | inl e => inl e
  | inr a => f a
  end.
Notation "'let?' x := r 'in' k" := (rbind r (fun x => k))
  (at level 10, x name, r at level 100, k at level 200).

Definition run_result {A} (m : M A) (s : state) : res A := fst (m s).
Definition run_state {A} (m : M A) (s : state) : state := snd (m s).

(** ** The program *)

Definition CACHE_FILE : string := "cache.json".

Section SocialMonitor.

Variable W : world.
Variable L : pylib.

(** [self.cache.get(k)] *)
Definition cache_get (k : string) : M jval :=
  fun s => (py_get (cache s) k JNull, s).

(** [self.cache[k] = v] *)
Definition cache_set (k : string) (v : jval) : M unit :=
  fun s => match cache s with
           | JObj d => (inr tt, {| cache := JObj (assoc_set k v d);
                                   trace := trace s |})
           | _ => (inl (Exn TypeError "object does not support item assignment"), s)
           end.

(** [response.raise_for_status()] *)
Definition raise_for_status (r : response) : M unit :=
  if (400 <=? status_code r) && (status_code r <? 600)
  then raise (Exn HTTPError "HTTP error status")
  else ret tt.

(** [response.json()] *)
Definition response_json (r : response) : M jval :=
  match json_loads L (text r) with
  | Some v => ret v
  | None => raise (Exn JSONDecodeError "invalid JSON")
  end.

Definition load_cache : M jval :=
  try_catch
    (fun s =>
       let out := open_read W (trace s) CACHE_FILE in
       (emit (EvRead CACHE_FILE out);;
        f <- lift out;;
        match json_loads L f with
        | Some v => ret v
        | None => raise (Exn JSONDecodeError "invalid JSON")
        end) s)
    (fun e =>
       match kind e with
       | FileNotFoundError => ret (JObj [])
       | _ => raise e
       end).

Definition save_cache : M unit :=
  fun s =>
    let out := open_write W (trace s) CACHE_FILE (cache s) in
    (emit (EvWrite CACHE_FILE (cache s) out);;
     match out with
     | Some e => raise e
     | None => ret tt
     end) s.

(** [requests.post(webhook_url, json=payload, timeout=30)] *)
Definition requests_post_call (url : string) (payload : jval) (timeout : Z)
  : M response :=
  fun s =>
    let out := requests_post W (trace s) url payload timeout in
    (emit (EvPost url payload timeout out);; lift out) s.

(** Lines 57-61: the payload of a webhook message. *)
Definition webhook_payload (content : string) (embed : option jval)
    (mention_on_error : bool) : jval :=
  let content :=
    if mention_on_error && opt_truthy (DISCORD_USER_ID W)
    then "<@" ++ match DISCORD_USER_ID W with Some u => u | None => "" end
         ++ "> " ++ content
    else content in
  JObj (("content", JStr content)
        :: match embed with
           | Some e => if py_truthy e then [("embeds", JList [e])] else []
           | None => []
           end).

Definition send_discord_webhook (content : string) (embed : option jval)
    (log_channel mention_on_error : bool) : M bool :=
  let webhook_url :=
    if log_channel then DISCORD_LOG_WEBHOOK_URL W else DISCORD_WEBHOOK_URL W in
  if opt_truthy webhook_url then
    let url := match webhook_url with Some u => u | None => "" end in
    let payload := webhook_payload content embed mention_on_error in
    log INFO ("sending discord webhook to: " ++ url);;
    log INFO ("payload: " ++ py_repr L payload);;
    try_catch
      (response <- requests_post_call url payload 30;;
       raise_for_status response;;
       log INFO "discord message sent successfully!";;
       ret true)
      (fun e =>
         log ERROR ("failed to send discord webhook: " ++ msg e);;
         ret false)
  else
    log ERROR "discord webhook url not configured";;
    ret false.

(** The body of [_make_request]: one attempt. *)
Definition request_attempt (url : string) (h : headers) (timeout : Z)
  : M response :=
  fun s =>
    let out := requests_get W (trace s) url h timeout in
    (emit (EvGet url h timeout out);;
     response <- lift out;;
     raise_for_status response;;
     ret response) s.

(** [@retry(stop=stop_after_attempt(3), wait=wait_exponential(...),
    retry=retry_if_exception_type((requests.RequestException,
    requests.Timeout)))]: [retrying n body] makes an attempt with [n] more
    allowed after it.  An exception of the listed classes is retried until
    the attempts are used up, then [RetryError] is raised; any other
    exception is raised at once. *)
Fixpoint retrying {A} (n : nat) (body : M A) : M A :=
  try_catch body
    (fun e =>
       if is_request_exception e then
         match n with
         | O => raise (Exn RetryError "RetryError")
         | S n' => emit EvBackoff;; retrying n' body
         end
       else raise e).

Definition _make_request (url : string) (h : headers) (timeout : Z)
  : M response :=
  retrying 2 (request_attempt url h timeout).

(** *** The YouTube checker *)

Definition youtube_cache_key : string := "youtube_last_video".

(** Line 145: [description[:200] + "..." if len(description) > 200 else
    description] *)
Definition youtube_description (description : jval) : res jval :=
  let? n := py_len description in
  if n >? 200 then
    let? head := py_slice 200 description in
    py_add_str head "..."
  else inr description.

Definition youtube_url (video_id : jval) : string :=
  "https://youtu.be/" ++ py_str L video_id.

(** Lines 133-149: the card and the announcement of a video. *)
Definition youtube_card (video_id video : jval) : res (jval * jval * string) :=
  let? snippet := py_item video "snippet" in
  let? title := py_item snippet "title" in
  let? snippet := py_item video "snippet" in
  let? description := py_item snippet "description" in
  let? snippet := py_item video "snippet" in
  let? thumbnails := py_item snippet "thumbnails" in
  let? high := py_item thumbnails "high" in
  let? thumbnail := py_item high "url" in
  let video_url := youtube_url video_id in
  let? statistics := py_get video "statistics" (JObj []) in
  let? view_count := py_get statistics "viewCount" (JStr "0") in
  let? shown := youtube_description description in
  let? views := py_int L view_count in
  let embed :=
    JObj [("title", title);
          ("url", JStr video_url);
          ("color", JNum 16711680);
          ("image", JObj [("url", thumbnail)]);
          ("description", shown);
          ("fields", JList [JObj [("name", JStr "Views");
                                  ("value", JStr (format_thousands L views));
                                  ("inline", JBool true)]])] in
  let content :=
    "new video on youtube! " ++ nl ++ dquote ++ py_str L title ++ dquote
    ++ nl ++ video_url in
  inr (title, embed, content).

Definition youtube_search_call (channel_id : string) : M jval :=
  fun s =>
    let out := youtube_search W (trace s) channel_id in
    (emit (EvYoutubeSearch channel_id out);; lift out) s.

Definition youtube_videos_call (video_id : jval) : M jval :=
  fun s =>
    let out := youtube_videos W (trace s) video_id in
    (emit (EvYoutubeVideos video_id out);; lift out) s.

Definition youtube_build_call (api_key : string) : M unit :=
  fun s =>
    let out := youtube_build W (trace s) api_key in
    (emit (EvYoutubeBuild api_key out);;
     match out with
     | Some e => raise e
     | None => ret tt
     end) s.

(** Lines 118-123: the newest video is the cached one. *)
Definition youtube_nothing_new (latest_video video_id : jval) : M bool :=
  snippet <- lift (py_item latest_video "snippet");;
  published <- lift (py_item snippet "publishedAt");;
  video_date <- lift (py_slice 10 published);;
  snippet <- lift (py_item latest_video "snippet");;
  title <- lift (py_item snippet "title");;
  log INFO ("nothing new on youtube. latest video: " ++ py_str L title
            ++ " (" ++ py_str L video_id ++ ")");;
  log INFO ("published: " ++ py_str L video_date);;
  snippet <- lift (py_item latest_video "snippet");;
  description <- lift (py_item snippet "description");;
  short <- lift (py_slice 150 description);;
  log INFO ("description: " ++ py_str L short ++ "...");;
  ret false.

(** Lines 125-154 and 160: a video that is not the cached one. *)
Definition youtube_announce (video_id : jval) : M bool :=
  video_details <- youtube_videos_call video_id;;
  items <- lift (py_get video_details "items" JNull);;
  if negb (py_truthy items) then ret false
  else
    items <- lift (py_item video_details "items");;
    video <- lift (py_first items);;
    card <- lift (youtube_card video_id video);;
    let '(title, embed, content) := card in
    sent <- send_discord_webhook content (Some embed) false false;;
    if sent then
      cache_set youtube_cache_key video_id;;
      log INFO ("posted new youtube video: " ++ py_str L title);;
      ret true
    else ret false.

Definition _check_youtube_impl : M bool :=
  match import_googleapiclient W with
  | Some e => raise e
  | None =>
      let api_key := YOUTUBE_API_KEY W in
      if negb (opt_truthy api_key) then
        log ERROR "youtube api key not configured";;
        ret false
      else
        let key := match api_key with Some k => k | None => "" end in
        youtube_build_call key;;
        try_catch
          (let channel_id := "UCs_d8-5LTWCRtsuWsfscBWg" in
           log INFO ("using channel id: " ++ channel_id);;
           search_response <- youtube_search_call channel_id;;
           items <- lift (py_get search_response "items" JNull);;
           if negb (py_truthy items) then
             log INFO "no youtube videos found";;
             ret false
           else
             items <- lift (py_item search_response "items");;
             latest_video <- lift (py_first items);;
             id <- lift (py_item latest_video "id");;
             video_id <- lift (py_item id "videoId");;
             cached <- cache_get youtube_cache_key;;
             if py_eq cached video_id then
               youtube_nothing_new latest_video video_id
             else
               youtube_announce video_id)
          (fun e =>
             log ERROR ("youtube api error: " ++ msg e);;
             ret false)
  end.

Definition check_youtube : M bool :=
  log INFO "checking youtube for new content...";;
  try_catch _check_youtube_impl
    (fun e =>
       log ERROR ("youtube check failed: " ++ msg e);;
       ret false).

(** *** The Instagram checker *)

Definition instagram_cache_key : string := "instagram_last_post".

Definition instagram_url (post_id : string) : string :=
  "https://www.instagram.com/p/" ++ post_id ++ "/".

Definition instagram_author : jval :=
  JObj [("name", JStr "gatlin");
        ("url", JStr "https://www.instagram.com/gatlin/")].

Definition instagram_color : jval := JNum 14315734.

(** Lines 325 and 352: ["reel" if is_video else "post"] *)
Definition instagram_post_type (is_video : jval) : string :=
  if py_truthy is_video then "reel" else "post".

(** Line 359: [(caption[:300] + "...") if len(caption) > 300 else
    (caption or "New Instagram post")] *)
Definition instagram_description (caption : jval) : res jval :=
  let? n := py_len caption in
  if n >? 300 then
    let? head := py_slice 300 caption in
    py_add_str head "..."
  else inr (if py_truthy caption then caption else JStr "New Instagram post").

(** Lines 347-350: the caption of a post, [''] when it has none. *)
Definition instagram_caption (post_data : jval) : res jval :=
  let? has := py_in "edge_media_to_caption" post_data in
  if has then
    let? edge := py_get post_data "edge_media_to_caption" (JObj []) in
    let? captions := py_get edge "edges" (JList []) in
    if py_truthy captions then
      let? first := py_first captions in
      let? node := py_get first "node" (JObj []) in
      py_get node "text" (JStr "")
    else inr (JStr "")
  else inr (JStr "").

(** Lines 342-369: the card and the announcement of a post. *)
Definition instagram_card (post_id post_data : jval)
  : res (string * jval * string) :=
  let? is_video := py_get post_data "is_video" (JBool false) in
  let? image_url := py_get post_data "display_url" JNull in
  let? likes := py_get post_data "edge_media_preview_like" (JObj []) in
  let? like_count := py_get likes "count" (JNum 0) in
  let? caption := instagram_caption post_data in
  let post_type := instagram_post_type is_video in
  let post_url := instagram_url (py_str L post_id) in
  let? shown := instagram_description caption in
  let embed :=
    [("title", JStr ("Instagram " ++ py_title post_type));
     ("url", JStr post_url);
     ("color", instagram_color);
     ("description", shown);
     ("author", instagram_author)] in
  let embed :=
    if py_truthy image_url
    then assoc_set "image" (JObj [("url", image_url)]) embed
    else embed in
  let content := "new " ++ post_type ++ " on instagram!" ++ nl ++ post_url in
  inr (post_type, JObj embed, content).

(** Lines 325-340: the newest post is the cached one. *)
Definition instagram_nothing_new (post_id post_data : jval) : M bool :=
  is_video <- lift (py_get post_data "is_video" (JBool false));;
  let post_type := instagram_post_type is_video in
  taken <- lift (py_get post_data "taken_at_timestamp" JNull);;
  post_date <-
    (if py_truthy taken then
       stamp <- lift (py_item post_data "taken_at_timestamp");;
       lift (strftime L stamp)
     else ret "Unknown date");;
  log INFO ("No new Instagram content - latest " ++ post_type ++ ": "
            ++ py_str L post_id ++ " (" ++ post_date ++ ")");;
  has <- lift (py_in "edge_media_to_caption" post_data);;
  (if has then
     edge <- lift (py_get post_data "edge_media_to_caption" (JObj []));;
     captions <- lift (py_get edge "edges" (JList []));;
     if py_truthy captions then
       first <- lift (py_first captions);;
       node <- lift (py_get first "node" (JObj []));;
       text <- lift (py_get node "text" (JStr ""));;
       caption <- lift (py_slice 150 text);;
       n <- lift (py_len caption);;
       log INFO ("Caption: " ++ py_str L caption
                 ++ (if n =? 150 then "..." else ""))
     else ret tt
   else
     alt <- lift (py_get post_data "accessibility_caption" JNull);;
     if py_truthy alt then
       alt <- lift (py_get post_data "accessibility_caption" JNull);;
       short <- lift (py_slice 150 alt);;
       log INFO ("Alt text: " ++ py_str L short)
     else ret tt);;
  ret false.

Definition _process_instagram_post (post_data : jval) : M bool :=
  try_catch
    (post_id <- lift (py_get post_data "shortcode" (JStr ""));;
     if negb (py_truthy post_id) then
       log WARNING "Could not extract Instagram post ID";;
       ret false
     else
       cached <- cache_get instagram_cache_key;;
       if py_eq cached post_id then
         instagram_nothing_new post_id post_data
       else
         card <- lift (instagram_card post_id post_data);;
         let '(post_type, embed, content) := card in
         sent <- send_discord_webhook content (Some embed) false false;;
         if sent then
           cache_set instagram_cache_key post_id;;
           log INFO ("posted new instagram " ++ post_type ++ ": "
                     ++ py_str L post_id);;
           ret true
         else ret false)
    (fun e =>
       log ERROR ("instagram post processing error: " ++ type_name (kind e)
                  ++ ": " ++ msg e);;
       ret false).

Definition _process_instagram_json (data : jval) : M (option bool) :=
  try_catch
    (d <- lift (py_get data "data" (JObj []));;
     user_data <- lift (py_get d "user" (JObj []));;
     if negb (py_truthy user_data) then ret None
     else
       media <- lift (py_get user_data "edge_owner_to_timeline_media" (JObj []));;
       posts <- lift (py_get media "edges" (JList []));;
       if negb (py_truthy posts) then
         log INFO "No Instagram posts found in JSON data";;
         ret None
       else
         first <- lift (py_first posts);;
         latest_post <- lift (py_item first "node");;
         r <- _process_instagram_post latest_post;;
         ret (Some r))
    (fun e =>
       log ERROR ("Instagram JSON processing error: " ++ msg e);;
       ret None).

(** Lines 295-298: the posts of the [window._sharedData] object; [Some r]
    when the function returns [r], [None] when the loop goes on. *)
Definition shared_data_posts (json_text : string) : M (option bool) :=
  shared_data <- lift (match json_loads L json_text with
                       | Some v => inr v
                       | None => inl (Exn JSONDecodeError "invalid JSON")
                       end);;
  entry <- lift (py_get shared_data "entry_data" (JObj []));;
  pages <- lift (py_get entry "ProfilePage" (JList [JObj []]));;
  page <- lift (py_first pages);;
  graphql <- lift (py_get page "graphql" (JObj []));;
  user <- lift (py_get graphql "user" (JObj []));;
  media <- lift (py_get user "edge_owner_to_timeline_media" (JObj []));;
  posts <- lift (py_get media "edges" (JList []));;
  if py_truthy posts then
    first <- lift (py_first posts);;
    node <- lift (py_item first "node");;
    r <- _process_instagram_post node;;
    ret (Some r)
  else ret None.

(** Lines 290-300: the loop over the script tags. *)
Fixpoint scan_scripts (scripts : list (option string)) : M (option bool) :=
  match scripts with
  | [] => ret None
  | script :: rest =>
      match script with
      | Some str =>
          if negb (String.eqb str "")
             && str_contains "edge_owner_to_timeline_media" str then
            match re_shared_data L str with
            | Some json_text =>
                r <- try_catch (shared_data_posts json_text)
                       (fun e =>
                          match kind e with
                          | JSONDecodeError | KeyError | IndexError => ret None
                          | _ => raise e
                          end);;
                match r with
                | Some b => ret (Some b)
                | None => scan_scripts rest
                end
            | None => scan_scripts rest
            end
          else scan_scripts rest
      | None => scan_scripts rest
      end
  end.

Definition _process_instagram_html (html : string) : M (option bool) :=
  try_catch
    (r <- scan_scripts (soup_scripts L html);;
     match r with
     | Some b => ret (Some b)
     | None =>
         match soup_post_links L html with
         | href :: _ =>
             match re_shortcode L href with
             | Some post_id =>
                 r <- _process_instagram_post (JObj [("shortcode", JStr post_id)]);;
                 ret (Some r)
             | None => ret None
             end
         | [] => ret None
         end
     end)
    (fun e =>
       log ERROR ("Instagram HTML processing error: " ++ msg e);;
       ret None).

Definition web_headers : headers :=
  [("User-Agent", "Mozilla/5.0 (iPhone; CPU iPhone OS 15_0 like Mac OS X) AppleWebKit/605.1.15 (KHTML, like Gecko) Version/15.0 Mobile/15E148 Safari/604.1");
   ("Accept", "*/*");
   ("Accept-Language", "en-US,en;q=0.9");
   ("Accept-Encoding", "gzip, deflate, br");
   ("Connection", "keep-alive");
   ("X-Requested-With", "XMLHttpRequest")].

Definition json_api_url : string :=
  "https://www.instagram.com/api/v1/users/web_profile_info/?username=gatlin".
Definition profile_url : string := "https://www.instagram.com/gatlin/".
Definition mirror_url : string := "https://www.picuki.com/profile/gatlin".

(** Lines 195-198: the body of the inner [try]; [Some r] when the method
    returns [r], [None] when it goes on to the profile page. *)
Definition instagram_json_api_body : M (option (option bool)) :=
  response <- _make_request json_api_url
                (web_headers ++ [("X-IG-App-ID", "936619743392459")])%list 15;;
  if status_code response =? 200 then
    data <- response_json response;;
    r <- _process_instagram_json data;;
    ret (Some r)
  else ret None.

(** Lines 194-200: the JSON endpoint. *)
Definition instagram_json_api : M (option (option bool)) :=
  try_catch instagram_json_api_body
    (fun e =>
       log WARNING ("instagram json api failed: " ++ msg e);;
       ret None).

(** Lines 202-206: the profile page. *)
Definition instagram_profile_page : M (option bool) :=
  response <- _make_request profile_url web_headers 15;;
  _process_instagram_html (text response).

Definition _check_instagram_web : M (option bool) :=
  try_catch
    (emit EvSleep;;
     returned <- instagram_json_api;;
     match returned with
     | Some r => ret r
     | None => instagram_profile_page
     end)
    (fun e =>
       log ERROR ("instagram web scraping error: " ++ type_name (kind e)
                  ++ ": " ++ msg e);;
       ret None).

Definition rss_headers : headers :=
  [("User-Agent", "Mozilla/5.0 (Windows NT 10.0; Win64; x64) AppleWebKit/537.36 (KHTML, like Gecko) Chrome/120.0.0.0 Safari/537.36")].

(** Lines 239-253: the card and the announcement of the mirror's post. *)
Definition rss_card (post_id : string) (image_url : option string)
  : jval * string :=
  let embed :=
    [("title", JStr "Instagram Post");
     ("url", JStr (instagram_url post_id));
     ("color", instagram_color);
     ("description", JStr "New Instagram post from gatlin");
     ("author", instagram_author)] in
  let embed :=
    if opt_truthy image_url
    then assoc_set "image"
           (JObj [("url", JStr match image_url with Some u => u | None => "" end)])
           embed
    else embed in
  let content := "new post on instagram!" ++ nl ++ instagram_url post_id in
  (JObj embed, content).

Definition _check_instagram_rss : M (option bool) :=
  try_catch
    (response <- _make_request mirror_url rss_headers 15;;
     match soup_media_links L (text response) with
     | href :: _ =>
         match re_media_id L href with
         | Some post_id =>
             cached <- cache_get instagram_cache_key;;
             if py_eq cached (JStr post_id) then
               log INFO ("nothing new on instagram. latest post: " ++ post_id);;
               ret (Some false)
             else
               let image_url := soup_first_jpg L (text response) in
               let '(embed, content) := rss_card post_id image_url in
               sent <- send_discord_webhook content (Some embed) false false;;
               if sent then
                 cache_set instagram_cache_key (JStr post_id);;
                 log INFO ("posted new instagram post: " ++ post_id);;
                 ret (Some true)
               else ret None
         | None => ret None
         end
     | [] => ret None
     end)
    (fun e =>
       log ERROR ("Instagram RSS method error: " ++ msg e);;
       ret None).

(** Lines 166-176: the loop over the methods. *)
Fixpoint try_methods (methods : list (string * M (option bool))) : M bool :=
  match methods with
  | [] =>
      log ERROR "all instagram scraping methods failed";;
      ret false
  | (name, method) :: rest =>
      result <- try_catch method
                  (fun e =>
                     log WARNING ("instagram method " ++ name ++ " failed: "
                                  ++ msg e);;
                     ret None);;
      match result with
      | Some b => ret b
      | None => try_methods rest
      end
  end.

Definition check_instagram : M bool :=
  log INFO "checking instagram for new content...";;
  try_methods [("_check_instagram_web", _check_instagram_web);
               ("_check_instagram_rss", _check_instagram_rss)].

(** *** The run orchestrator *)

Definition status_of (result : bool) : string :=
  if result then "✓ success" else "- no new content".

(** Lines 393-401: the loop over the platforms, with the [results] and
    [errors] dicts built so far. *)
Fixpoint run_platforms (platforms : list (string * M bool))
    (results errors : list (string * string))
  : M (list (string * string) * list (string * string)) :=
  match platforms with
  | [] => ret (results, errors)
  | (platform_name, check_func) :: rest =>
      step <- try_catch
                (result <- check_func;;
                 ret ((results ++ [(platform_name, status_of result)])%list,
                      errors))
                (fun e =>
                   log ERROR ("failed to check " ++ platform_name ++ ": "
                              ++ msg e);;
                   send_discord_webhook
                     ("error in " ++ platform_name ++ ": " ++ msg e)
                     None true true;;
                   ret ((results ++ [(platform_name, "✗ failed")])%list,
                        (errors ++ [(platform_name, msg e)])%list));;
      run_platforms rest (fst step) (snd step)
  end.

(** Lines 406-407 *)
Fixpoint log_results (results : list (string * string)) : M unit :=
  match results with
  | [] => ret tt
  | (platform, status) :: rest =>
      log INFO ("  " ++ platform ++ ": " ++ status);;
      log_results rest
  end.

(** Lines 410-423 *)
Definition run_summary (results errors : list (string * string)) : string :=
  let is_github :=
    match GITHUB_ACTIONS W with
    | Some v => String.eqb v "true"
    | None => false
    end in
  let run_type :=
    if is_github then "automatic (github actions)" else "manual (local)" in
  let entry (pe : string * string) :=
    "> " ++ py_lower (fst pe) ++ ": " ++ snd pe in
  let header :=
    ["**gattycord monitor run summary**"; "run type: " ++ run_type; "";
     "results:"] in
  let error_lines :=
    match errors with
    | [] => []
    | _ => app [""; "errors:"] (map entry errors)
    end in
  let mention :=
    if opt_truthy (DISCORD_USER_ID W)
    then ["<@" ++ match DISCORD_USER_ID W with Some u => u | None => "" end
          ++ ">"]
    else [] in
  let summary_lines :=
    app header (app (map entry results) (app error_lines mention)) in
  py_join nl summary_lines.

Definition platforms : list (string * M bool) :=
  [("YouTube", check_youtube); ("Instagram", check_instagram)].

Definition run_all_checks : M unit :=
  log INFO "starting social media monitoring...";;
  outcome <- run_platforms platforms [] [];;
  let '(results, errors) := outcome in
  log INFO "";;
  log INFO "social media monitoring completed";;
  log INFO "results summary:";;
  log_results results;;
  save_cache;;
  send_discord_webhook (run_summary results errors) None true false;;
  ret tt.

(** [SocialMonitor.__init__] *)
Definition init : M unit :=
  loaded <- load_cache;;
  fun s => (inr tt, {| cache := loaded; trace := trace s |}).

(** [monitor = SocialMonitor(); monitor.run_all_checks()] *)
Definition main : M unit :=
  init;;
  run_all_checks.

End SocialMonitor.

(** The state a process starts in: no monitor yet, nothing done. *)
Definition boot : state := {| cache := JNull; trace := [] |}.

(** * Reasoning about runs

    A [policy] says how far a piece of the program may move the state: how
    the cache may change and which events may not happen.  [keeps P m] holds
    when every run of [m] stays within [P], whatever it returns or raises. *)

Record policy : Type := {
  cache_rel : jval -> jval -> Prop;
  allowed : event -> Prop;
  cache_rel_refl : forall c, cache_rel c c;
  cache_rel_trans :
    forall a b c, cache_rel a b -> cache_rel b c -> cache_rel a c;
  log_ok : forall l m, allowed (EvLog l m);
  sleep_ok : allowed EvSleep;
  backoff_ok : allowed EvBackoff
}.

Definition within (P : policy) (s s' : state) : Prop :=
  cache_rel P (cache s) (cache s')
  /\ exists evs, trace s' = (evs ++ trace s)%list /\ Forall (allowed P) evs.

Definition keeps {A} (P : policy) (m : M A) : Prop :=
  forall s, within P s (snd (m s)).

Definition allows_get (P : policy) (url : string) : Prop :=
  forall h t out, allowed P (EvGet url h t out).
Definition allows_payload (P : policy) (payload : jval) : Prop :=
  forall url t out, allowed P (EvPost url payload t out).
Definition allows_post (P : policy) : Prop :=
  forall payload, allows_payload P payload.
Definition allows_youtube (P : policy) : Prop :=
  (forall k out, allowed P (EvYoutubeBuild k out))
  /\ (forall c out, allowed P (EvYoutubeSearch c out))
  /\ (forall i out, allowed P (EvYoutubeVideos i out)).
Definition allows_set (P : policy) (k : string) : Prop :=
  forall d v, cache_rel P (JObj d) (JObj (assoc_set k v d)).

(** [P] allows the POST of every card that the program can build. *)
Definition allows_youtube_cards (W : world) (L : pylib) (P : policy) : Prop :=
  forall video_id video title embed content,
    youtube_card L video_id video = inr (title, embed, content) ->
    allows_payload P (webhook_payload W content (Some embed) false).
Definition allows_instagram_cards (W : world) (L : pylib) (P : policy) : Prop :=
  forall post_id post_data post_type embed content,
    instagram_card L post_id post_data = inr (post_type, embed, content) ->
    allows_payload P (webhook_payload W content (Some embed) false).
Definition allows_rss_cards (W : world) (P : policy) : Prop :=
  forall post_id image_url embed content,
    rss_card post_id image_url = (embed, content) ->
    allows_payload P (webhook_payload W content (Some embed) false).

(** [self.cache[k]] seen as a map: the value under [k], if any. *)
Definition cache_lookup (k : string) (c : jval) : option jval :=
  match c with
  | JObj d => assoc k d
  | _ => None
  end.

(** Events by kind. *)
Definition is_post (ev : event) : bool :=
  match ev with
  | EvPost _ _ _ _ => true
  | _ => false
  end.

Definition is_network (ev : event) : bool :=
  match ev with
  | EvGet _ _ _ _ | EvPost _ _ _ _ | EvYoutubeBuild _ _
  | EvYoutubeSearch _ _ | EvYoutubeVideos _ _ => true
  | _ => false
  end.

Definition is_get_of (url : string) (ev : event) : bool :=
  match ev with
  | EvGet u _ _ _ => String.eqb u url
  | _ => false
  end.

Definition is_write (ev : event) : bool :=
  match ev with
  | EvWrite _ _ _ => true
  | _ => false
  end.

(** The status of an answer lets [raise_for_status] pass. *)
Definition status_ok (r : response) : bool :=
  negb ((400 <=? status_code r) && (status_code r <? 600)).

(** A webhook POST that the notifier reports as sent. *)
Definition notified (ev : event) : bool :=
  match ev with
  | EvPost _ _ _ (inr r) => status_ok r
  | _ => false
  end.

(** The cache is untouched and no webhook POST is made. *)
Definition no_post : policy :=
  {| cache_rel := eq; allowed := fun ev => is_post ev = false;
     cache_rel_refl := @eq_refl jval; cache_rel_trans := @eq_trans jval;
     log_ok := fun _ _ => eq_refl; sleep_ok := eq_refl;
     backoff_ok := eq_refl |}.

(** The cache is untouched and no notification is reported as sent. *)
Definition no_notification : policy :=
  {| cache_rel := eq; allowed := fun ev => notified ev = false;
     cache_rel_refl := @eq_refl jval; cache_rel_trans := @eq_trans jval;
     log_ok := fun _ _ => eq_refl; sleep_ok := eq_refl;
     backoff_ok := eq_refl |}.


(** No GET of [url]; the cache may change. *)
Definition no_get (url : string) : policy :=
  {| cache_rel := fun _ _ => True;
     allowed := fun ev => is_get_of url ev = false;
     cache_rel_refl := fun _ => I; cache_rel_trans := fun _ _ _ _ _ => I;
     log_ok := fun _ _ => eq_refl; sleep_ok := eq_refl;
     backoff_ok := eq_refl |}.

(** No write of a file; the cache may change. *)
Definition no_write : policy :=
  {| cache_rel := fun _ _ => True;
     allowed := fun ev => is_write ev = false;
     cache_rel_refl := fun _ => I; cache_rel_trans := fun _ _ _ _ _ => I;
     log_ok := fun _ _ => eq_refl; sleep_ok := eq_refl;
     backoff_ok := eq_refl |}.

(** Only the entries under the keys [ks] of the cache may change: a cache
    that is not a dict stays as it is, and a dict keeps every other entry. *)
Definition frame_rel (ks : list string) (c c' : jval) : Prop :=
  (c' = c \/ exists d d', c = JObj d /\ c' = JObj d')
  /\ forall k', ~ In k' ks -> cache_lookup k' c' = cache_lookup k' c.

Definition frame (ks : list string) : policy.
Proof.
  refine {| cache_rel := frame_rel ks; allowed := fun _ => True |};
    try (intros; exact I).
  - intros c. split; [left; reflexivity | reflexivity].
  - intros a b c [S1 L1] [S2 L2]. split.
    + destruct S1 as [-> | [d [d' [-> ->]]]]; [assumption|].
      destruct S2 as [-> | [e [e' [E ->]]]]; right; eauto.
    + intros k' Hk. rewrite L2, L1 by assumption. reflexivity.
Defined.

(** [m] always returns: no exception leaves it. *)
Definition total {A} (m : M A) : Prop :=
  forall s, exists a, fst (m s) = inr a.

(** The file writes in a history. *)
Definition writes (evs : list event) : list event := filter is_write evs.

(** What a checker that only uses the entry under [k] can see of the cache:
    whether it is a dict, and the value under [k]. *)
Definition entry_view (k : string) (c : jval) : option (option jval) :=
  match c with
  | JObj d => Some (assoc k d)
  | _ => None
  end.

(** Two states with the same history and the same view of the entry [k]. *)
Definition alike (k : string) (s1 s2 : state) : Prop :=
  trace s1 = trace s2 /\ entry_view k (cache s1) = entry_view k (cache s2).

(** [m] reads nothing of the cache but the entry [k]: from alike states it
    returns the same, does the same, and leaves alike states. *)
Definition blind {A} (k : string) (m : M A) : Prop :=
  forall s1 s2, alike k s1 s2 ->
    fst (m s1) = fst (m s2) /\ alike k (snd (m s1)) (snd (m s2)).

(** ** What a run does to a cache entry *)

(** The payload carries a card whose link is [url]. *)
Definition announces (url : string) (payload : jval) : Prop :=
  exists content embed,
    payload = JObj [("content", JStr content); ("embeds", JList [embed])]
    /\ py_item embed "url" = inr (JStr url).

(** From [s] to [s']: the cache is as it was and no notification was
    reported as sent. *)
Definition unchanged_run (s s' : state) : Prop :=
  cache s' = cache s
  /\ exists evs,
       trace s' = (evs ++ trace s)%list
       /\ Forall (fun ev => notified ev = false) evs.

(** The value the cache holds under [k] ([None] of Python as [JNull]). *)
Definition cached_value (k : string) (d : list (string * jval)) : jval :=
  match assoc k d with
  | Some v => v
  | None => JNull
  end.

(** From [s] to [s']: one notification was sent, to the primary webhook, for
    an item [id] that differs from the cached one, and the entry [k] of the
    cache was then set to [id]. *)
Definition announced_run (W : world) (k : string) (url_of : jval -> string)
    (s s' : state) : Prop :=
  exists d id hook payload r before after,
    cache s = JObj d
    /\ py_eq (cached_value k d) id = false
    /\ cache s' = JObj (assoc_set k id d)
    /\ trace s'
       = (after ++ EvPost hook payload 30 (inr r) :: before ++ trace s)%list
    /\ status_ok r = true
    /\ DISCORD_WEBHOOK_URL W = Some hook
    /\ announces (url_of id) payload
    /\ Forall (fun ev => notified ev = false) before
    /\ Forall (fun ev => notified ev = false) after.

(** Every run of [m] from a cache that satisfies [pre] either leaves the
    entry alone without a notification, or announces an item, sets the entry
    to it and returns [yes]. *)
Definition update_rule {A} (W : world) (k : string) (url_of : jval -> string)
    (yes : A) (pre : jval -> Prop) (m : M A) : Prop :=
  forall s, pre (cache s) ->
    unchanged_run s (snd (m s))
    \/ (announced_run W k url_of s (snd (m s)) /\ fst (m s) = inr yes).

(** The cache is a dict that holds [v] under [k]. *)
Definition cached_is (k : string) (v : jval) (c : jval) : Prop :=
  exists d, c = JObj d /\ cached_value k d = v.

Definition any_cache (_ : jval) : Prop := True.

(** The link of the post with identifier [id]. *)
Definition instagram_url_of (L : pylib) (id : jval) : string :=
  instagram_url (py_str L id).

(** [m] returns [v] whenever it returns. *)
Definition yields {A} (v : A) (m : M A) : Prop :=
  forall s a, fst (m s) = inr a -> a = v.

(** Lines 114-115: the newest video of a search reply and its identifier. *)
Definition newest_video (search_response : jval) : res (jval * jval) :=
  let? items := py_item search_response "items" in
  let? latest_video := py_first items in
  let? id := py_item latest_video "id" in
  let? video_id := py_item id "videoId" in
  inr (latest_video, video_id).


(** The state in which the first method of [check_instagram] starts. *)
Definition instagram_started (s : state) : state :=
  {| cache := cache s;
     trace := EvLog INFO "checking instagram for new content..." :: trace s |}.



(** A run from [s] to [s'] that returned [r]: it returned [False], left the
    cache as it was and made no webhook POST. *)
Definition silent_false (r : res bool) (s s' : state) : Prop :=
  r = inr false
  /\ cache s' = cache s
  /\ exists evs,
       trace s' = (evs ++ trace s)%list
       /\ Forall (fun ev => is_post ev = false) evs.




(** ** Which cards are posted *)





(** ** Statements about the fetcher *)

Definition is_get (ev : event) : bool :=
  match ev with
  | EvGet _ _ _ _ => true
  | _ => false
  end.

(** Number of GET requests in a history. *)
Definition gets (evs : list event) : nat := List.length (filter is_get evs).

(** The answer to an attempt makes [_make_request] try again: an exception
    of the listed classes from [requests.get], or the [HTTPError] that
    [raise_for_status] raises for a 4xx or 5xx status. *)
Definition retryable (out : res response) : bool :=
  match out with
  | inl e => is_request_exception e
  | inr r => negb (status_ok r)
  end.

(** What one attempt returns or raises for an answer. *)
Definition attempt_result (out : res response) : res response :=
  match out with
  | inl e => inl e
  | inr r => if status_ok r then inr r
             else inl (Exn HTTPError "HTTP error status")
  end.

(** The state after an attempt, and after the wait that follows it. *)
Definition after_attempt (W : world) (url : string) (h : headers) (t : Z)
    (s : state) : state :=
  {| cache := cache s;
     trace := EvGet url h t (requests_get W (trace s) url h t) :: trace s |}.

Definition backed_off (s : state) : state :=
  {| cache := cache s; trace := EvBackoff :: trace s |}.

(** ** Concrete libraries and worlds *)

Definition quoted (s : string) : string := dquote ++ s ++ dquote.

(** The text of a cache file with an entry of the video checker and an
    entry that belongs to no checker:
    [{"theme": "dark", "youtube_last_video": "abc123"}]. *)
Definition seen_cache_text : string :=
  "{" ++ quoted "theme" ++ ": " ++ quoted "dark" ++ ", "
  ++ quoted "youtube_last_video" ++ ": " ++ quoted "abc123" ++ "}".

Definition seen_cache : jval :=
  JObj [("theme", JStr "dark"); ("youtube_last_video", JStr "abc123")].

(** A library that knows a handful of inputs. *)
Definition demo_lib : pylib :=
  {| json_loads := fun s =>
       if String.eqb s "{}" then Some (JObj [])
       else if String.eqb s seen_cache_text then Some seen_cache
       else None;
     py_repr := fun _ => "<object>";
     py_int := fun v =>
       match v with
       | JNum n => inr n
       | JStr s => if String.eqb s "0" then inr 0
                   else inl (Exn ValueError "invalid literal for int()")
       | _ => inl (Exn TypeError "int() argument")
       end;
     format_thousands := fun n => if n =? 0 then "0" else "<number>";
     strftime := fun _ => inr "2024-01-01 00:00";
     soup_scripts := fun _ => [];
     re_shared_data := fun _ => None;
     soup_post_links := fun html =>
       if String.eqb html "<a href=/p/Cxyz123/>" then ["/p/Cxyz123/"] else [];
     re_shortcode := fun href =>
       if String.eqb href "/p/Cxyz123/" then Some "Cxyz123" else None;
     soup_media_links := fun html =>
       if String.eqb html "<a href=/media/123>" then ["/media/123"] else [];
     re_media_id := fun href =>
       if String.eqb href "/media/123" then Some "123" else None;
     soup_first_jpg := fun _ => None |}.

Definition refused {A} : res A := inl (Exn ConnectionError "connection refused").

(** Nothing configured, no network, no cache file. *)
Definition offline : world :=
  {| DISCORD_WEBHOOK_URL := None;
     DISCORD_LOG_WEBHOOK_URL := None;
     DISCORD_USER_ID := None;
     YOUTUBE_API_KEY := None;
     GITHUB_ACTIONS := None;
     import_googleapiclient := None;
     requests_get := fun _ _ _ _ => refused;
     requests_post := fun _ _ _ _ => refused;
     youtube_build := fun _ _ => None;
     youtube_search := fun _ _ => refused;
     youtube_videos := fun _ _ => refused;
     open_read := fun _ _ => inl (Exn FileNotFoundError "cache.json");
     open_write := fun _ _ _ => None |}.

(** Changing one part of a world. *)
Definition with_get (W : world)
    (get : list event -> string -> headers -> Z -> res response) : world :=
  {| DISCORD_WEBHOOK_URL := DISCORD_WEBHOOK_URL W;
     DISCORD_LOG_WEBHOOK_URL := DISCORD_LOG_WEBHOOK_URL W;
     DISCORD_USER_ID := DISCORD_USER_ID W;
     YOUTUBE_API_KEY := YOUTUBE_API_KEY W;
     GITHUB_ACTIONS := GITHUB_ACTIONS W;
     import_googleapiclient := import_googleapiclient W;
     requests_get := get;
     requests_post := requests_post W;
     youtube_build := youtube_build W;
     youtube_search := youtube_search W;
     youtube_videos := youtube_videos W;
     open_read := open_read W;
     open_write := open_write W |}.

Definition with_post (W : world)
    (post : list event -> string -> jval -> Z -> res response) : world :=
  {| DISCORD_WEBHOOK_URL := DISCORD_WEBHOOK_URL W;
     DISCORD_LOG_WEBHOOK_URL := DISCORD_LOG_WEBHOOK_URL W;
     DISCORD_USER_ID := DISCORD_USER_ID W;
     YOUTUBE_API_KEY := YOUTUBE_API_KEY W;
     GITHUB_ACTIONS := GITHUB_ACTIONS W;
     import_googleapiclient := import_googleapiclient W;
     requests_get := requests_get W;
     requests_post := post;
     youtube_build := youtube_build W;
     youtube_search := youtube_search W;
     youtube_videos := youtube_videos W;
     open_read := open_read W;
     open_write := open_write W |}.

Definition with_files (W : world)
    (read : list event -> string -> res string)
    (write : list event -> string -> jval -> option exn) : world :=
  {| DISCORD_WEBHOOK_URL := DISCORD_WEBHOOK_URL W;
     DISCORD_LOG_WEBHOOK_URL := DISCORD_LOG_WEBHOOK_URL W;
     DISCORD_USER_ID := DISCORD_USER_ID W;
     YOUTUBE_API_KEY := YOUTUBE_API_KEY W;
     GITHUB_ACTIONS := GITHUB_ACTIONS W;
     import_googleapiclient := import_googleapiclient W;
     requests_get := requests_get W;
     requests_post := requests_post W;
     youtube_build := youtube_build W;
     youtube_search := youtube_search W;
     youtube_videos := youtube_videos W;
     open_read := read;
     open_write := write |}.

(** Every GET is answered with status 404. *)
Definition always_404 : world :=
  with_get offline (fun _ _ _ _ => inr {| status_code := 404; text := "" |}).

(** [requests.get] fails outside the [requests] exception classes. *)
Definition broken_get : world :=
  with_get offline (fun _ _ _ _ => inl (Exn ValueError "bad header value")).

(** The cache file is there and is not JSON. *)
Definition corrupt_cache : world :=
  with_files offline (fun _ _ => inr "not json") (fun _ _ _ => None).

(** The cache file cannot be read. *)
Definition unreadable_cache : world :=
  with_files offline (fun _ _ => inl (Exn OSError "permission denied"))
    (fun _ _ _ => None).

(** The cache file holds an empty dict. *)
Definition empty_cache_file : world :=
  with_files offline (fun _ _ => inr "{}") (fun _ _ _ => None).

(** The Google API client library is not installed. *)
Definition no_google_client : world :=
  {| DISCORD_WEBHOOK_URL := None;
     DISCORD_LOG_WEBHOOK_URL := None;
     DISCORD_USER_ID := None;
     YOUTUBE_API_KEY := Some "key";
     GITHUB_ACTIONS := None;
     import_googleapiclient :=
       Some (Exn ImportError "No module named 'googleapiclient'");
     requests_get := fun _ _ _ _ => refused;
     requests_post := fun _ _ _ _ => refused;
     youtube_build := fun _ _ => None;
     youtube_search := fun _ _ => refused;
     youtube_videos := fun _ _ => refused;
     open_read := fun _ _ => inl (Exn FileNotFoundError "cache.json");
     open_write := fun _ _ _ => None |}.

(** A post whose caption is the empty string. *)
Definition post_with_empty_caption : jval :=
  JObj [("shortcode", JStr "Cxyz123");
        ("edge_media_to_caption",
         JObj [("edges", JList [JObj [("node", JObj [("text", JStr "")])]])])].

(** Replies of the YouTube API: the newest video of the channel, and the
    details of a video. *)
Definition search_reply (video_id title : string) : jval :=
  JObj [("items",
         JList [JObj [("id", JObj [("videoId", JStr video_id)]);
                      ("snippet",
                       JObj [("title", JStr title);
                             ("publishedAt", JStr "2024-05-01T12:00:00Z");
                             ("description", JStr "a video")])]])].

Definition videos_reply (title : string) : jval :=
  JObj [("items",
         JList [JObj [("snippet",
                       JObj [("title", JStr title);
                             ("description", JStr "a video");
                             ("thumbnails",
                              JObj [("high",
                                     JObj [("url", JStr "https://i.ytimg.com/hq.jpg")])])]);
                      ("statistics", JObj [("viewCount", JStr "0")])]])].

Definition no_content : res response :=
  inr {| status_code := 204; text := "" |}.

(** The cache file names video [abc123]; the API key and both webhooks are
    set; the channel's newest video is [newest]; webhooks answer 204;
    Instagram and its mirror cannot be reached. *)
Definition youtube_world (newest title : string) : world :=
  {| DISCORD_WEBHOOK_URL := Some "https://discord.test/hook";
     DISCORD_LOG_WEBHOOK_URL := Some "https://discord.test/log";
     DISCORD_USER_ID := None;
     YOUTUBE_API_KEY := Some "key";
     GITHUB_ACTIONS := None;
     import_googleapiclient := None;
     requests_get := fun _ _ _ _ => refused;
     requests_post := fun _ _ _ _ => no_content;
     youtube_build := fun _ _ => None;
     youtube_search := fun _ _ => inr (search_reply newest title);
     youtube_videos := fun _ _ => inr (videos_reply title);
     open_read := fun _ _ => inr seen_cache_text;
     open_write := fun _ _ _ => None |}.

(** The monitor once [__init__] has loaded [seen_cache]. *)
Definition seen_state : state :=
  {| cache := seen_cache; trace := [EvRead CACHE_FILE (inr seen_cache_text)] |}.

(** As [youtube_world], with webhooks that answer 500. *)
Definition failing_hook_world (newest title : string) : world :=
  with_post (youtube_world newest title)
    (fun _ _ _ _ => inr {| status_code := 500; text := "" |}).

(** The monitor with the cache [{"youtube_last_video": "abc123"}]. *)
Definition abc123_state : state :=
  {| cache := JObj [("youtube_last_video", JStr "abc123")]; trace := [] |}.

(** The JSON endpoint and the mirror cannot be reached; the profile page
    shows a link to the post [Cxyz123]; the primary webhook answers 204. *)
Definition profile_page_world : world :=
  {| DISCORD_WEBHOOK_URL := Some "https://discord.test/hook";
     DISCORD_LOG_WEBHOOK_URL := None;
     DISCORD_USER_ID := None;
     YOUTUBE_API_KEY := None;
     GITHUB_ACTIONS := None;
     import_googleapiclient := None;
     requests_get := fun _ url _ _ =>
       if String.eqb url profile_url
       then inr {| status_code := 200; text := "<a href=/p/Cxyz123/>" |}
       else refused;
     requests_post := fun _ _ _ _ => no_content;
     youtube_build := fun _ _ => None;
     youtube_search := fun _ _ => refused;
     youtube_videos := fun _ _ => refused;
     open_read := fun _ _ => inl (Exn FileNotFoundError "cache.json");
     open_write := fun _ _ _ => None |}.

(** The monitor with an empty cache. *)
Definition empty_state : state := {| cache := JObj []; trace := [] |}.


(** ** Further statements *)

(** The webhook POSTs in a history. *)
Definition posts (evs : list event) : list event := filter is_post evs.

(** The waits between attempts in a history. *)
Definition is_backoff (ev : event) : bool :=
  match ev with
  | EvBackoff => true
  | _ => false
  end.

Definition backoffs (evs : list event) : nat :=
  List.length (filter is_backoff evs).

Definition is_log (ev : event) : bool :=
  match ev with
  | EvLog _ _ => true
  | _ => false
  end.

(** What the notifier returns for the answer to its POST. *)
Definition delivered (out : res response) : bool :=
  match out with
  | inr r => status_ok r
  | inl _ => false
  end.

(** The states of the video checker up to the search. *)
Definition youtube_channel : string := "UCs_d8-5LTWCRtsuWsfscBWg".

Definition youtube_started (s : state) : state :=
  {| cache := cache s;
     trace := EvLog INFO "checking youtube for new content..." :: trace s |}.

Definition youtube_asking (key : string) (s : state) : state :=
  {| cache := cache s;
     trace := EvLog INFO ("using channel id: " ++ youtube_channel)
              :: EvYoutubeBuild key None :: trace (youtube_started s) |}.

Definition youtube_searched (key : string) (out : res jval) (s : state)
  : state :=
  {| cache := cache s;
     trace := EvYoutubeSearch youtube_channel out
              :: trace (youtube_asking key s) |}.

(** The client library loads, the key is set and the client is built. *)
Definition youtube_ready (W : world) (key : string) (s : state) : Prop :=
  import_googleapiclient W = None
  /\ YOUTUBE_API_KEY W = Some key
  /\ key <> ""
  /\ youtube_build W (trace (youtube_started s)) key = None.

(** Lines 130-133: the video of a details reply. *)
Definition detailed_video (video_details : jval) : res jval :=
  let? items := py_item video_details "items" in
  py_first items.

(** The state in which the notifier is called with [payload] for [url], and
    the state after its POST. *)
Definition notifying (L : pylib) (url : string) (payload : jval) (s : state)
  : state :=
  {| cache := cache s;
     trace := EvLog INFO ("payload: " ++ py_repr L payload)
              :: EvLog INFO ("sending discord webhook to: " ++ url)
              :: trace s |}.

Definition notified_state (W : world) (L : pylib) (url : string)
    (payload : jval) (s : state) : state :=
  let s1 := notifying L url payload s in
  let out := requests_post W (trace s1) url payload 30 in
  {| cache := cache s;
     trace := EvLog (if delivered out then INFO else ERROR)
                (match attempt_result out with
                 | inr _ => "discord message sent successfully!"
                 | inl e => "failed to send discord webhook: " ++ msg e
                 end)
              :: EvPost url payload 30 out :: trace s1 |}.

(** The answer that the notifier gets when called in [s]. *)
Definition notifier_answer (W : world) (L : pylib) (url : string)
    (payload : jval) (s : state) : res response :=
  requests_post W (trace (notifying L url payload s)) url payload 30.

(** The state after the details of the video [video_id] were asked for. *)
Definition youtube_detailed (key : string) (resp video_id : jval)
    (out : res jval) (s : state) : state :=
  {| cache := cache s;
     trace := EvYoutubeVideos video_id out
              :: trace (youtube_searched key (inr resp) s) |}.

(** The search of the video checker in [s] finds the video [video_id], which
    is not the one cached in the dict [d]. *)
Definition youtube_finds (W : world) (key : string) (s : state)
    (resp video_id : jval) (d : list (string * jval)) : Prop :=
  youtube_ready W key s
  /\ youtube_search W (trace (youtube_asking key s)) youtube_channel
     = inr resp
  /\ (exists latest, newest_video resp = inr (latest, video_id))
  /\ cache s = JObj d
  /\ py_eq (cached_value youtube_cache_key d) video_id = false.

(** The state that a run leaves after the line [l] is logged in [s]. *)
Definition logged (l : level) (m : string) (s : state) : state :=
  {| cache := cache s; trace := EvLog l m :: trace s |}.

(** Changing the YouTube API of a world. *)
Definition with_youtube (W : world)
    (search : list event -> string -> res jval)
    (videos : list event -> jval -> res jval) : world :=
  {| DISCORD_WEBHOOK_URL := DISCORD_WEBHOOK_URL W;
     DISCORD_LOG_WEBHOOK_URL := DISCORD_LOG_WEBHOOK_URL W;
     DISCORD_USER_ID := DISCORD_USER_ID W;
     YOUTUBE_API_KEY := YOUTUBE_API_KEY W;
     GITHUB_ACTIONS := GITHUB_ACTIONS W;
     import_googleapiclient := import_googleapiclient W;
     requests_get := requests_get W;
     requests_post := requests_post W;
     youtube_build := youtube_build W;
     youtube_search := search;
     youtube_videos := videos;
     open_read := open_read W;
     open_write := open_write W |}.

(** The channel has no video. *)
Definition empty_channel_world : world :=
  with_youtube (youtube_world "xyz789" "Hello")
    (fun _ _ => inr (JObj [("items", JList [])]))
    (fun _ _ => refused).

(** The search quota is used up. *)
Definition quota_world : world :=
  with_youtube (youtube_world "xyz789" "Hello")
    (fun _ _ => inl (Exn OtherException "quotaExceeded"))
    (fun _ _ => refused).

(** The newest video is [xyz789], and its details come without a
    thumbnail. *)
Definition no_thumbnail_world : world :=
  with_youtube (youtube_world "xyz789" "Hello")
    (fun _ _ => inr (search_reply "xyz789" "Hello"))
    (fun _ _ =>
       inr (JObj [("items",
                   JList [JObj [("snippet",
                                 JObj [("title", JStr "Hello");
                                       ("description", JStr "a video")])]])])).

(** The post [post_data] has the identifier [post_id], which is not the one
    cached in the dict [d]. *)
Definition instagram_finds (s : state) (post_data post_id : jval)
    (d : list (string * jval)) : Prop :=
  py_get post_data "shortcode" (JStr "") = inr post_id
  /\ py_truthy post_id = true
  /\ cache s = JObj d
  /\ py_eq (cached_value instagram_cache_key d) post_id = false.

(** The state after the post pipeline has caught [e] in [s]. *)
Definition post_failed (e : exn) (s : state) : state :=
  logged ERROR ("instagram post processing error: " ++ type_name (kind e)
                ++ ": " ++ msg e) s.

(** A post whose caption is [null]. *)
Definition post_with_null_caption : jval :=
  JObj [("shortcode", JStr "Cxyz123");
        ("edge_media_to_caption",
         JObj [("edges", JList [JObj [("node", JObj [("text", JNull)])]])])].

(** Lines 291-294: the text that the loop over the script tags takes from a
    script, if any. *)
Definition script_json (L : pylib) (script : option string) : option string :=
  match script with
  | Some str =>
      if negb (String.eqb str "")
         && str_contains "edge_owner_to_timeline_media" str
      then re_shared_data L str
      else None
  | None => None
  end.

(** The script has no such text, or one that is not JSON. *)
Definition script_unusable (L : pylib) (script : option string) : Prop :=
  match script_json L script with
  | Some json_text => json_loads L json_text = None
  | None => True
  end.


(** The state in which the web method makes its first request. *)
Definition web_delayed (s : state) : state :=
  {| cache := cache s; trace := EvSleep :: trace s |}.

Definition json_api_headers : headers :=
  (web_headers ++ [("X-IG-App-ID", "936619743392459")])%list.

(** The handler of the web method. *)
Definition web_failed (e : exn) : M (option bool) :=
  (log ERROR ("instagram web scraping error: " ++ type_name (kind e)
              ++ ": " ++ msg e);;
   ret None)%monad.




(** The JSON endpoint answers 200 with [{}]; the profile page and the mirror
    cannot be reached. *)
Definition empty_json_world : world :=
  with_get profile_page_world
    (fun _ url _ _ =>
       if String.eqb url json_api_url
       then inr {| status_code := 200; text := "{}" |}
       else refused).

(** The mirror shows the post [123]; Instagram cannot be reached; the
    primary webhook answers [answer]. *)
Definition mirror_world (answer : res response) : world :=
  with_post
    (with_get profile_page_world
       (fun _ url _ _ =>
          if String.eqb url mirror_url
          then inr {| status_code := 200; text := "<a href=/media/123>" |}
          else refused))
    (fun _ _ _ _ => answer).

(** ** Where a run goes

    The event, when it is a request, goes to one of the addresses [gets]
    with timeout 15, to one of the webhooks [hooks] with timeout 30, to the
    YouTube API for the program's channel when [youtube] is set, or to the
    cache file when [files] is set. *)
Definition reaches (gets : list string) (hooks : list (option string))
    (youtube files : bool) (ev : event) : Prop :=
  match ev with
  | EvGet url _ t _ => In url gets /\ t = 15
  | EvPost url _ t _ => In (Some url) hooks /\ t = 30
  | EvYoutubeBuild _ _ | EvYoutubeVideos _ _ => youtube = true
  | EvYoutubeSearch channel _ => youtube = true /\ channel = youtube_channel
  | EvRead file _ | EvWrite file _ _ => files = true /\ file = CACHE_FILE
  | EvLog _ _ | EvSleep | EvBackoff => True
  end.

Definition destinations (gets : list string) (hooks : list (option string))
    (youtube files : bool) : policy :=
  {| cache_rel := fun _ _ => True;
     allowed := reaches gets hooks youtube files;
     cache_rel_refl := fun _ => I; cache_rel_trans := fun _ _ _ _ _ => I;
     log_ok := fun _ _ => I; sleep_ok := I; backoff_ok := I |}.

Definition instagram_addresses : list string :=
  [json_api_url; profile_url; mirror_url].

(** Lines 410-422: the lines of the summary of a run in which the checkers
    returned [b1] and [b2]. *)
Definition summary_lines (W : world) (b1 b2 : bool) : list string :=
  let run_type :=
    if match GITHUB_ACTIONS W with
       | Some v => String.eqb v "true"
       | None => false
       end
    then "automatic (github actions)" else "manual (local)" in
  app ["**gattycord monitor run summary**";
       "run type: " ++ run_type;
       "";
       "results:";
       "> youtube: " ++ status_of b1;
       "> instagram: " ++ status_of b2]
      match DISCORD_USER_ID W with
      | Some u => if String.eqb u "" then [] else ["<@" ++ u ++ ">"]
      | None => []
      end.




(** As [youtube_world] with nothing new, on a file system that cannot be
    written. *)
Definition readonly_world : world :=
  with_files (youtube_world "abc123" "Hello")
    (fun _ _ => inr seen_cache_text)
    (fun _ _ _ => Some (Exn OSError "read-only file system")).

(** * Proofs *)

Create HintDb keeps.

Section Keeps.

Variable P : policy.

Lemma within_refl s : within P s s.
Proof.
  split; [apply cache_rel_refl|]. exists []. split; [reflexivity|constructor].
Qed.

Lemma within_trans s1 s2 s3 :
  within P s1 s2 -> within P s2 s3 -> within P s1 s3.
Proof.
  intros [C1 [e1 [T1 K1]]] [C2 [e2 [T2 K2]]]. split.
  - eapply cache_rel_trans; eassumption.
  - exists (e2 ++ e1)%list. split.
    + rewrite T2, T1. apply app_assoc.
    + apply Forall_app; split; assumption.
Qed.

Lemma within_emit ev s :
  allowed P ev -> within P s (snd (emit ev s)).
Proof.
  intros H. split; [apply cache_rel_refl|].
  exists [ev]. split; [reflexivity|]. constructor; [exact H | constructor].
Qed.

Lemma keeps_ret {A} (a : A) : keeps P (ret a).
Proof. intros s. apply within_refl. Qed.

Lemma keeps_raise {A} (e : exn) : keeps P (@raise A e).
Proof. intros s. apply within_refl. Qed.

Lemma keeps_lift {A} (r : res A) : keeps P (lift r).
Proof. intros s. apply within_refl. Qed.

Lemma keeps_bind_lift {A B} (r : res A) (f : A -> M B) :
  (forall a, r = inr a -> keeps P (f a)) -> keeps P (bind (lift r) f).
Proof.
  intros Hf s. unfold bind, lift. destruct r as [e | a]; simpl.
  - apply within_refl.
  - apply Hf. reflexivity.
Qed.

Lemma keeps_bind {A B} (m : M A) (f : A -> M B) :
  keeps P m -> (forall a, keeps P (f a)) -> keeps P (bind m f).
Proof.
  intros Hm Hf s. unfold bind. specialize (Hm s).
  destruct (m s) as [[e | a] s']; simpl in *; [assumption|].
  eapply within_trans; [eassumption | apply Hf].
Qed.

Lemma keeps_try_catch {A} (m : M A) (h : exn -> M A) :
  keeps P m -> (forall e, keeps P (h e)) -> keeps P (try_catch m h).
Proof.
  intros Hm Hh s. unfold try_catch. specialize (Hm s).
  destruct (m s) as [[e | a] s']; simpl in *; [|assumption].
  eapply within_trans; [eassumption | apply Hh].
Qed.

Lemma keeps_emit ev : allowed P ev -> keeps P (emit ev).
Proof. intros H s. apply within_emit; apply H. Qed.

Lemma keeps_log l m : keeps P (log l m).
Proof. apply keeps_emit; apply log_ok. Qed.

Lemma keeps_cache_get k : keeps P (cache_get k).
Proof. intros s. apply within_refl. Qed.

Lemma keeps_cache_set k v : allows_set P k -> keeps P (cache_set k v).
Proof.
  intros H s. unfold cache_set.
  destruct (cache s) eqn:E; try apply within_refl.
  split; simpl.
  - rewrite E. apply H.
  - exists []. split; [reflexivity | constructor].
Qed.

Lemma keeps_raise_for_status r : keeps P (raise_for_status r).
Proof.
  unfold raise_for_status.
  destruct (_ && _); [apply keeps_raise | apply keeps_ret].
Qed.

Lemma keeps_retrying {A} n (body : M A) :
  keeps P body -> keeps P (retrying n body).
Proof.
  intros Hb. induction n as [|n IH]; simpl.
  - apply keeps_try_catch; [assumption|]. intros e.
    destruct (is_request_exception e); apply keeps_raise.
  - apply keeps_try_catch; [assumption|]. intros e.
    destruct (is_request_exception e); [|apply keeps_raise].
    apply keeps_bind; [apply keeps_emit; apply backoff_ok | intros _; exact IH].
Qed.

End Keeps.

(** One step of a [keeps] proof: follow the structure of the program. *)
Ltac keeps_step :=
  match goal with
  | |- keeps _ (bind (lift _) _) => apply keeps_bind_lift; intros ? ?
  | |- keeps _ (bind _ _) => apply keeps_bind; [|intro]
  | |- keeps _ (try_catch _ _) => apply keeps_try_catch; [|intro]
  | |- keeps _ (ret _) => apply keeps_ret
  | |- keeps _ (raise _) => apply keeps_raise
  | |- keeps _ (lift _) => apply keeps_lift
  | |- keeps _ (log _ _) => apply keeps_log
  | |- keeps _ (cache_get _) => apply keeps_cache_get
  | |- keeps _ (raise_for_status _) => apply keeps_raise_for_status
  | |- keeps _ (emit EvSleep) => apply keeps_emit; apply sleep_ok
  | |- keeps _ (if ?b then _ else _) => destruct b
  | |- keeps _ (match ?x with _ => _ end) =>
      tryif is_var x then destruct x else destruct x eqn:?
  end.

Ltac keeps_auto := repeat (keeps_step || assumption || eauto with keeps).

Lemma assoc_set_other k k' v d :
  k' <> k -> assoc k' (assoc_set k v d) = assoc k' d.
Proof.
  intros Hk. induction d as [|[k0 v0] d IH]; simpl.
  - destruct (String.eqb_spec k' k); [contradiction | reflexivity].
  - destruct (String.eqb_spec k k0) as [-> | Hne]; simpl.
    + destruct (String.eqb_spec k' k0); [contradiction | reflexivity].
    + destruct (String.eqb_spec k' k0); [reflexivity | exact IH].
Qed.

Lemma assoc_set_same k v d : assoc k (assoc_set k v d) = Some v.
Proof.
  induction d as [|[k0 v0] d IH]; simpl.
  - rewrite String.eqb_refl. reflexivity.
  - destruct (String.eqb_spec k k0) as [-> | Hne]; simpl.
    + rewrite String.eqb_refl. reflexivity.
    + destruct (String.eqb_spec k k0); [contradiction | exact IH].
Qed.

Lemma frame_allows_set ks k : In k ks -> allows_set (frame ks) k.
Proof.
  intros Hin d v. split.
  - right. eauto.
  - intros k' Hk. simpl. apply assoc_set_other. intros ->. contradiction.
Qed.

Lemma frame_allows_post ks : allows_post (frame ks).
Proof. intros ? ? ? ?. exact I. Qed.

Lemma frame_allows_get ks url : allows_get (frame ks) url.
Proof. intros ? ? ?. exact I. Qed.

Lemma frame_allows_youtube ks : allows_youtube (frame ks).
Proof. repeat split. Qed.

Section KeepsProgram.

Context (W : world) (L : pylib) (P : policy).

Lemma keeps_requests_post_call url payload t :
  allows_payload P payload -> keeps P (requests_post_call W url payload t).
Proof.
  intros H s. unfold requests_post_call.
  apply keeps_bind.
  - apply keeps_emit; apply H.
  - intros _. apply keeps_lift.
Qed.

Lemma keeps_send_discord_webhook content embed lg mention :
  allows_payload P (webhook_payload W content embed mention) ->
  keeps P (send_discord_webhook W L content embed lg mention).
Proof.
  intros H. unfold send_discord_webhook.
  keeps_auto. apply keeps_requests_post_call; apply H.
Qed.

Lemma keeps_request_attempt url h t :
  allows_get P url -> keeps P (request_attempt W url h t).
Proof.
  intros H s. unfold request_attempt.
  apply keeps_bind; [apply keeps_emit; apply H|]. intros _. keeps_auto.
Qed.

Lemma keeps_make_request url h t :
  allows_get P url -> keeps P (_make_request W url h t).
Proof. intros H. apply keeps_retrying; apply keeps_request_attempt; apply H. Qed.

Lemma keeps_response_json r : keeps P (response_json L r).
Proof. unfold response_json. keeps_auto. Qed.

Lemma keeps_youtube_search_call c :
  allows_youtube P -> keeps P (youtube_search_call W c).
Proof.
  intros H s. unfold youtube_search_call.
  apply keeps_bind; [apply keeps_emit; apply H | intros _; apply keeps_lift].
Qed.

Lemma keeps_youtube_videos_call i :
  allows_youtube P -> keeps P (youtube_videos_call W i).
Proof.
  intros H s. unfold youtube_videos_call.
  apply keeps_bind; [apply keeps_emit; apply H | intros _; apply keeps_lift].
Qed.

Lemma keeps_youtube_build_call k :
  allows_youtube P -> keeps P (youtube_build_call W k).
Proof.
  intros H s. unfold youtube_build_call.
  apply keeps_bind; [apply keeps_emit; apply H | intros _; keeps_auto].
Qed.

Lemma keeps_youtube_nothing_new latest video_id :
  keeps P (youtube_nothing_new L latest video_id).
Proof. unfold youtube_nothing_new. keeps_auto. Qed.

Lemma allows_post_youtube_cards : allows_post P -> allows_youtube_cards W L P.
Proof. intros H ? ? ? ? ? _. apply H. Qed.

Lemma allows_post_instagram_cards :
  allows_post P -> allows_instagram_cards W L P.
Proof. intros H ? ? ? ? ? _. apply H. Qed.

Lemma allows_post_rss_cards : allows_post P -> allows_rss_cards W P.
Proof. intros H ? ? ? ? _. apply H. Qed.

Lemma keeps_youtube_announce video_id :
  allows_youtube P -> allows_youtube_cards W L P ->
  allows_set P youtube_cache_key ->
  keeps P (youtube_announce W L video_id).
Proof.
  intros Hy Hp Hs. unfold youtube_announce.
  keeps_auto;
    eauto using keeps_youtube_videos_call, keeps_send_discord_webhook,
                keeps_cache_set.
Qed.

Lemma keeps_check_youtube_impl :
  allows_youtube P -> allows_youtube_cards W L P ->
  allows_set P youtube_cache_key ->
  keeps P (_check_youtube_impl W L).
Proof.
  intros Hy Hp Hs. unfold _check_youtube_impl.
  keeps_auto;
    auto using keeps_youtube_build_call, keeps_youtube_search_call,
               keeps_youtube_nothing_new, keeps_youtube_announce.
Qed.

Lemma keeps_check_youtube :
  allows_youtube P -> allows_youtube_cards W L P ->
  allows_set P youtube_cache_key ->
  keeps P (check_youtube W L).
Proof.
  intros Hy Hp Hs. unfold check_youtube.
  keeps_auto. apply keeps_check_youtube_impl; assumption.
Qed.

Lemma keeps_instagram_nothing_new post_id post_data :
  keeps P (instagram_nothing_new L post_id post_data).
Proof. unfold instagram_nothing_new. keeps_auto. Qed.

Lemma keeps_process_instagram_post post_data :
  allows_instagram_cards W L P -> allows_set P instagram_cache_key ->
  keeps P (_process_instagram_post W L post_data).
Proof.
  intros Hp Hs. unfold _process_instagram_post.
  keeps_auto;
    eauto using keeps_instagram_nothing_new, keeps_send_discord_webhook,
                keeps_cache_set.
Qed.

Lemma keeps_process_instagram_json data :
  allows_instagram_cards W L P -> allows_set P instagram_cache_key ->
  keeps P (_process_instagram_json W L data).
Proof.
  intros Hp Hs. unfold _process_instagram_json.
  keeps_auto; auto using keeps_process_instagram_post.
Qed.

Lemma keeps_shared_data_posts json_text :
  allows_instagram_cards W L P -> allows_set P instagram_cache_key ->
  keeps P (shared_data_posts W L json_text).
Proof.
  intros Hp Hs. unfold shared_data_posts.
  keeps_auto; auto using keeps_process_instagram_post.
Qed.

Lemma keeps_scan_scripts scripts :
  allows_instagram_cards W L P -> allows_set P instagram_cache_key ->
  keeps P (scan_scripts W L scripts).
Proof.
  intros Hp Hs. induction scripts as [|script rest IH]; simpl.
  - apply keeps_ret.
  - keeps_auto; auto using keeps_shared_data_posts.
Qed.

Lemma keeps_process_instagram_html html :
  allows_instagram_cards W L P -> allows_set P instagram_cache_key ->
  keeps P (_process_instagram_html W L html).
Proof.
  intros Hp Hs. unfold _process_instagram_html.
  keeps_auto; auto using keeps_scan_scripts, keeps_process_instagram_post.
Qed.

Lemma keeps_instagram_json_api :
  allows_get P json_api_url -> allows_instagram_cards W L P ->
  allows_set P instagram_cache_key ->
  keeps P (instagram_json_api W L).
Proof.
  intros Hg Hp Hs. unfold instagram_json_api, instagram_json_api_body.
  keeps_auto;
    auto using keeps_make_request, keeps_response_json,
               keeps_process_instagram_json.
Qed.

Lemma keeps_instagram_profile_page :
  allows_get P profile_url -> allows_instagram_cards W L P ->
  allows_set P instagram_cache_key ->
  keeps P (instagram_profile_page W L).
Proof.
  intros Hg Hp Hs. unfold instagram_profile_page.
  keeps_auto; auto using keeps_make_request, keeps_process_instagram_html.
Qed.

Lemma keeps_check_instagram_web :
  allows_get P json_api_url -> allows_get P profile_url -> allows_instagram_cards W L P ->
  allows_set P instagram_cache_key ->
  keeps P (_check_instagram_web W L).
Proof.
  intros Hj Hg Hp Hs. unfold _check_instagram_web.
  keeps_auto;
    auto using keeps_instagram_json_api, keeps_instagram_profile_page.
Qed.

Lemma keeps_check_instagram_rss :
  allows_get P mirror_url -> allows_rss_cards W P ->
  allows_set P instagram_cache_key ->
  keeps P (_check_instagram_rss W L).
Proof.
  intros Hg Hp Hs. unfold _check_instagram_rss.
  keeps_auto;
    eauto using keeps_make_request, keeps_send_discord_webhook,
                keeps_cache_set.
Qed.

Lemma keeps_try_methods methods :
  Forall (fun nm => keeps P (snd nm)) methods ->
  keeps P (try_methods methods).
Proof.
  induction 1 as [|[name m] rest Hm _ IH]; simpl; keeps_auto.
Qed.

Lemma keeps_check_instagram :
  allows_get P json_api_url -> allows_get P profile_url ->
  allows_get P mirror_url -> allows_instagram_cards W L P ->
  allows_rss_cards W P -> allows_set P instagram_cache_key ->
  keeps P (check_instagram W L).
Proof.
  intros Hj Hg Hm Hp Hr Hs. unfold check_instagram.
  keeps_auto. apply keeps_try_methods.
  apply Forall_cons; [|apply Forall_cons; [|apply Forall_nil]]; simpl.
  - apply keeps_check_instagram_web; assumption.
  - apply keeps_check_instagram_rss; assumption.
Qed.

End KeepsProgram.

(** ** The HTTP fetcher *)

Section Fetcher.

Context (W : world) (url : string) (h : headers) (t : Z).

Lemma request_attempt_run s :
  request_attempt W url h t s
  = (attempt_result (requests_get W (trace s) url h t),
     after_attempt W url h t s).
Proof.
  unfold request_attempt, after_attempt, attempt_result, bind, emit, lift,
    raise_for_status, status_ok.
  simpl. destruct (requests_get W (trace s) url h t) as [e | r]; simpl;
    [reflexivity|].
  destruct ((400 <=? status_code r) && (status_code r <? 600)); reflexivity.
Qed.

Lemma attempt_result_retryable out :
  retryable out = true ->
  exists e, attempt_result out = inl e /\ is_request_exception e = true.
Proof.
  destruct out as [e | r]; simpl; intros H.
  - exists e. auto.
  - destruct (status_ok r); [discriminate|]. eexists. split; reflexivity.
Qed.

Lemma attempt_result_final out :
  retryable out = false ->
  match attempt_result out with
  | inl e => is_request_exception e = false
  | inr _ => True
  end.
Proof.
  destruct out as [e | r]; simpl; intros H; [exact H|].
  destruct (status_ok r); [exact I | discriminate].
Qed.

(** An attempt whose answer is not retried ends the call. *)
Lemma retrying_final n s :
  retryable (requests_get W (trace s) url h t) = false ->
  retrying n (request_attempt W url h t) s
  = (attempt_result (requests_get W (trace s) url h t),
     after_attempt W url h t s).
Proof.
  intros H. apply attempt_result_final in H.
  destruct n; simpl; unfold try_catch; rewrite request_attempt_run;
    destruct (attempt_result _) as [e | r]; try reflexivity;
    rewrite H; reflexivity.
Qed.

(** An attempt whose answer is retried, with attempts left. *)
Lemma retrying_again n s :
  retryable (requests_get W (trace s) url h t) = true ->
  retrying (S n) (request_attempt W url h t) s
  = retrying n (request_attempt W url h t)
      (backed_off (after_attempt W url h t s)).
Proof.
  intros H. apply attempt_result_retryable in H as [e [He Hr]].
  simpl. unfold try_catch at 1. rewrite request_attempt_run, He, Hr.
  reflexivity.
Qed.

(** An attempt whose answer is retried, with no attempt left. *)
Lemma retrying_exhausted s :
  retryable (requests_get W (trace s) url h t) = true ->
  retrying 0 (request_attempt W url h t) s
  = (inl (Exn RetryError "RetryError"), after_attempt W url h t s).
Proof.
  intros H. apply attempt_result_retryable in H as [e [He Hr]].
  simpl. unfold try_catch. rewrite request_attempt_run, He, Hr.
  reflexivity.
Qed.

End Fetcher.

Lemma gets_after_attempt W url h t s :
  gets (trace (after_attempt W url h t s)) = S (gets (trace s)).
Proof. reflexivity. Qed.

Lemma gets_backed_off s : gets (trace (backed_off s)) = gets (trace s).
Proof. reflexivity. Qed.

Ltac gets_norm :=
  repeat (rewrite gets_after_attempt || rewrite gets_backed_off).

(** C3, as amended.  [_make_request] retries every failure that is a
    [requests.RequestException]: a connection error or a timeout, and also
    the [HTTPError] that [raise_for_status] raises for a 4xx or 5xx status.
    It makes at most 3 attempts; when the third one fails in that way the
    failure is surfaced as [RetryError].  A failure of any other class is
    surfaced at once, by the attempt that met it, and an answer whose status
    is not 4xx or 5xx is returned at once. *)
Theorem make_request_retries_request_exceptions
    (W : world) (url : string) (h : headers) (t : Z) (s : state) :
  let out := fun s => requests_get W (trace s) url h t in
  let s1 := backed_off (after_attempt W url h t s) in
  let s2 := backed_off (after_attempt W url h t s1) in
  let final := run_state (_make_request W url h t) s in
  (forall e, out s = inl e -> is_request_exception e = false ->
     _make_request W url h t s = (inl e, after_attempt W url h t s))
  /\ (forall r, out s = inr r -> status_ok r = true ->
        _make_request W url h t s = (inr r, after_attempt W url h t s))
  /\ (forall r, out s = inr r ->
        400 <= status_code r < 600 -> retryable (out s) = true)
  /\ (forall e, out s = inl e ->
        In (kind e) [HTTPError; ConnectionError; Timeout; RequestException] ->
        retryable (out s) = true)
  /\ (retryable (out s) = true -> retryable (out s1) = false ->
        _make_request W url h t s
        = (attempt_result (out s1), after_attempt W url h t s1))
  /\ (retryable (out s) = true -> retryable (out s1) = true ->
      retryable (out s2) = false ->
        _make_request W url h t s
        = (attempt_result (out s2), after_attempt W url h t s2))
  /\ (retryable (out s) = true -> retryable (out s1) = true ->
      retryable (out s2) = true ->
        _make_request W url h t s
        = (inl (Exn RetryError "RetryError"), after_attempt W url h t s2))
  /\ (1 <= gets (trace final) - gets (trace s) <= 3)%nat.
Proof.
  intros out s1 s2 final. unfold _make_request in *.
  repeat split.
  - intros e He Hr. rewrite retrying_final; unfold out in He; rewrite He;
      simpl; auto.
  - intros r He Hr. rewrite retrying_final; unfold out in He; rewrite He;
      simpl; rewrite Hr; reflexivity.
  - intros r He [Hlo Hhi]. unfold out in *. rewrite He. simpl.
    unfold status_ok. apply Z.leb_le in Hlo. apply Z.ltb_lt in Hhi.
    rewrite Hlo, Hhi. reflexivity.
  - intros e He Hk. unfold out in *. rewrite He. simpl.
    unfold is_request_exception.
    destruct Hk as [<- | [<- | [<- | [<- | []]]]]; reflexivity.
  - intros H0 H1. rewrite retrying_again by exact H0.
    apply retrying_final. exact H1.
  - intros H0 H1 H2. rewrite retrying_again by exact H0.
    rewrite retrying_again by exact H1. apply retrying_final. exact H2.
  - intros H0 H1 H2. rewrite retrying_again by exact H0.
    rewrite retrying_again by exact H1. apply retrying_exhausted. exact H2.
  - unfold final, run_state.
    destruct (retryable (out s)) eqn:H0.
    + rewrite retrying_again by exact H0.
      destruct (retryable (out s1)) eqn:H1.
      * rewrite retrying_again by exact H1.
        destruct (retryable (out s2)) eqn:H2.
        -- rewrite retrying_exhausted by exact H2. cbn [snd]; gets_norm; lia.
        -- rewrite retrying_final by exact H2. cbn [snd]; gets_norm; lia.
      * rewrite retrying_final by exact H1. cbn [snd]; gets_norm; lia.
    + rewrite retrying_final by exact H0. cbn [snd]; gets_norm; lia.
  - unfold final, run_state.
    destruct (retryable (out s)) eqn:H0.
    + rewrite retrying_again by exact H0.
      destruct (retryable (out s1)) eqn:H1.
      * rewrite retrying_again by exact H1.
        destruct (retryable (out s2)) eqn:H2.
        -- rewrite retrying_exhausted by exact H2. cbn [snd]; gets_norm; lia.
        -- rewrite retrying_final by exact H2. cbn [snd]; gets_norm; lia.
      * rewrite retrying_final by exact H1. cbn [snd]; gets_norm; lia.
    + rewrite retrying_final by exact H0. cbn [snd]; gets_norm; lia.
Qed.

(** The rule at work: three answers with status 404 give three GETs and
    [RetryError]; a [ValueError] from [requests.get] is raised by the first
    attempt. *)
Lemma make_request_retries_request_exceptions_witness :
  _make_request always_404 mirror_url rss_headers 15 boot
  = (inl (Exn RetryError "RetryError"),
     after_attempt always_404 mirror_url rss_headers 15
       (backed_off (after_attempt always_404 mirror_url rss_headers 15
         (backed_off (after_attempt always_404 mirror_url rss_headers 15
            boot)))))
  /\ _make_request broken_get mirror_url rss_headers 15 boot
     = (inl (Exn ValueError "bad header value"),
        after_attempt broken_get mirror_url rss_headers 15 boot).
Proof.
  split.
  - apply (make_request_retries_request_exceptions
             always_404 mirror_url rss_headers 15 boot); reflexivity.
  - apply (make_request_retries_request_exceptions
             broken_get mirror_url rss_headers 15 boot); reflexivity.
Defined.

(** C3, as stated, fails: an answer with status 404 is not surfaced by the
    attempt that received it; the request is made again. *)
Lemma make_request_retries_http_error_status :
  ~ (forall (W : world) (url : string) (h : headers) (t : Z) (s : state)
            (r : response),
       requests_get W (trace s) url h t = inr r ->
       (status_code r <? 200) || (300 <=? status_code r) = true ->
       exists e,
         _make_request W url h t s = (inl e, after_attempt W url h t s)).
Proof.
  intros H.
  destruct (H always_404 mirror_url rss_headers 15 boot
              {| status_code := 404; text := "" |} eq_refl eq_refl)
    as [e He].
  apply (f_equal (fun p => gets (trace (snd p)))) in He.
  vm_compute in He. discriminate He.
Qed.

(** ** Cards *)

Lemma str_take_length n s :
  (n <= String.length s)%nat -> String.length (str_take n s) = n.
Proof.
  revert s. induction n as [|n IH]; intros s H.
  - destruct s; reflexivity.
  - destruct s as [|c s]; simpl in *; [lia|].
    rewrite IH by lia. reflexivity.
Qed.

Lemma str_take_prefix n s : String.prefix (str_take n s) s = true.
Proof.
  revert s. induction n as [|n IH]; intros s.
  - destruct s; reflexivity.
  - destruct s as [|c s]; [reflexivity|].
    cbn [str_take String.prefix].
    destruct (Ascii.ascii_dec c c); [apply IH | contradiction].
Qed.

Ltac rbind_step H :=
  match type of H with
  | rbind ?r _ = inr _ =>
      let E := fresh "E" in
      destruct r eqn:E; cbn [rbind] in H; [discriminate H|]
  end.

Lemma youtube_description_str d :
  youtube_description (JStr d)
  = inr (JStr (if (200 <? String.length d)%nat
               then str_take 200 d ++ "..." else d)).
Proof.
  unfold youtube_description. cbn [py_len rbind].
  destruct (Nat.ltb_spec 200 (String.length d)) as [H | H].
  - replace (Z.of_nat (String.length d) >? 200) with true
      by (symmetry; apply Z.gtb_lt; lia).
    reflexivity.
  - replace (Z.of_nat (String.length d) >? 200) with false
      by (symmetry; rewrite Z.gtb_ltb; apply Z.ltb_ge; lia).
    reflexivity.
Qed.

Lemma instagram_description_str c :
  instagram_description (JStr c)
  = inr (JStr (if (300 <? String.length c)%nat
               then str_take 300 c ++ "..."
               else if String.eqb c "" then "New Instagram post" else c)).
Proof.
  unfold instagram_description. cbn [py_len rbind].
  destruct (Nat.ltb_spec 300 (String.length c)) as [H | H].
  - replace (Z.of_nat (String.length c) >? 300) with true
      by (symmetry; apply Z.gtb_lt; lia).
    reflexivity.
  - replace (Z.of_nat (String.length c) >? 300) with false
      by (symmetry; rewrite Z.gtb_ltb; apply Z.ltb_ge; lia).
    cbn [py_truthy]. destruct (String.eqb c ""); reflexivity.
Qed.

Lemma youtube_card_fields L video_id video title embed content :
  youtube_card L video_id video = inr (title, embed, content) ->
  exists snippet description shown thumbnail views,
    py_item video "snippet" = inr snippet
    /\ py_item snippet "title" = inr title
    /\ py_item snippet "description" = inr description
    /\ youtube_description description = inr shown
    /\ embed
       = JObj [("title", title);
               ("url", JStr (youtube_url L video_id));
               ("color", JNum 16711680);
               ("image", JObj [("url", thumbnail)]);
               ("description", shown);
               ("fields", JList [JObj [("name", JStr "Views");
                                       ("value", JStr views);
                                       ("inline", JBool true)]])]
    /\ content
       = "new video on youtube! " ++ nl ++ dquote ++ py_str L title ++ dquote
         ++ nl ++ youtube_url L video_id.
Proof.
  unfold youtube_card. intros H.
  repeat rbind_step H.
  injection H as <- <- <-.
  repeat eexists; eassumption.
Qed.

Lemma instagram_card_fields L post_id post_data post_type embed content :
  instagram_card L post_id post_data = inr (post_type, embed, content) ->
  exists is_video image_url caption shown,
    py_get post_data "is_video" (JBool false) = inr is_video
    /\ py_get post_data "display_url" JNull = inr image_url
    /\ instagram_caption post_data = inr caption
    /\ instagram_description caption = inr shown
    /\ post_type = instagram_post_type is_video
    /\ embed
       = JObj ([("title", JStr ("Instagram " ++ py_title post_type));
                ("url", JStr (instagram_url (py_str L post_id)));
                ("color", instagram_color);
                ("description", shown);
                ("author", instagram_author)]
               ++ if py_truthy image_url
                  then [("image", JObj [("url", image_url)])] else [])%list
    /\ content
       = "new " ++ post_type ++ " on instagram!" ++ nl
         ++ instagram_url (py_str L post_id).
Proof.
  unfold instagram_card. intros H.
  repeat rbind_step H.
  injection H as <- <- <-.
  do 4 eexists. repeat split; try eassumption.
  match goal with |- context [py_truthy ?x] => destruct (py_truthy x) end;
    reflexivity.
Qed.

(** C4, as amended.  In every rendered card a video description longer than
    200 characters is cut to its first 200 characters followed by ["..."],
    and a caption longer than 300 characters to its first 300 characters
    followed by ["..."]; a description of at most 200 characters and a
    caption of at most 300 characters that is not empty are passed through
    unmodified.  An empty caption is rendered as the default text. *)
Theorem card_text_truncation (L : pylib) :
  (forall video_id video title embed content,
     youtube_card L video_id video = inr (title, embed, content) ->
     exists snippet description shown,
       py_item video "snippet" = inr snippet
       /\ py_item snippet "description" = inr description
       /\ youtube_description description = inr shown
       /\ py_item embed "description" = inr shown)
  /\ (forall post_id post_data post_type embed content,
        instagram_card L post_id post_data = inr (post_type, embed, content) ->
        exists caption shown,
          instagram_caption post_data = inr caption
          /\ instagram_description caption = inr shown
          /\ py_item embed "description" = inr shown)
  /\ (forall d, (200 < String.length d)%nat ->
        youtube_description (JStr d) = inr (JStr (str_take 200 d ++ "...")))
  /\ (forall d, (String.length d <= 200)%nat ->
        youtube_description (JStr d) = inr (JStr d))
  /\ (forall c, (300 < String.length c)%nat ->
        instagram_description (JStr c) = inr (JStr (str_take 300 c ++ "...")))
  /\ (forall c, (String.length c <= 300)%nat -> c <> "" ->
        instagram_description (JStr c) = inr (JStr c))
  /\ instagram_description (JStr "") = inr (JStr "New Instagram post")
  /\ (forall n s, (n <= String.length s)%nat ->
        String.length (str_take n s) = n
        /\ String.prefix (str_take n s) s = true).
Proof.
  repeat apply conj.
  - intros video_id video title embed content H.
    apply youtube_card_fields in H
      as (snippet & description & shown & thumbnail & views
          & Hs & _ & Hd & Hshown & -> & _).
    exists snippet, description, shown. auto.
  - intros post_id post_data post_type embed content H.
    apply instagram_card_fields in H
      as (is_video & image_url & caption & shown
          & _ & _ & Hc & Hshown & _ & -> & _).
    exists caption, shown. auto.
  - intros d H. rewrite youtube_description_str.
    apply Nat.ltb_lt in H. rewrite H. reflexivity.
  - intros d H. rewrite youtube_description_str.
    replace (200 <? String.length d)%nat with false
      by (symmetry; apply Nat.ltb_ge; exact H).
    reflexivity.
  - intros c H. rewrite instagram_description_str.
    apply Nat.ltb_lt in H. rewrite H. reflexivity.
  - intros c H Hne. rewrite instagram_description_str.
    replace (300 <? String.length c)%nat with false
      by (symmetry; apply Nat.ltb_ge; exact H).
    destruct (String.eqb_spec c ""); [contradiction | reflexivity].
  - reflexivity.
  - intros n s H. split; [apply str_take_length, H | apply str_take_prefix].
Qed.

(** The rule on short texts: a description and a caption under the limit. *)
Lemma card_text_truncation_witness :
  youtube_description (JStr "hello") = inr (JStr "hello")
  /\ instagram_description (JStr "hello") = inr (JStr "hello")
  /\ (String.length (str_take 3 "hello") = 3%nat
      /\ String.prefix (str_take 3 "hello") "hello" = true).
Proof.
  pose proof (card_text_truncation demo_lib)
    as (_ & _ & _ & Hy & _ & Hi & _ & Ht).
  split; [|split].
  - apply Hy. simpl. lia.
  - apply Hi; [simpl; lia | discriminate].
  - apply Ht. simpl. lia.
Defined.

(** C4, as stated, fails: a caption of length 0 is at or under the limit of
    300 characters, and the card does not carry it. *)
Lemma empty_caption_is_not_passed_through :
  ~ (forall (L : pylib) (post_id post_data : jval) (caption : string)
            (post_type : string) (embed : jval) (content : string),
       instagram_caption post_data = inr (JStr caption) ->
       (String.length caption <= 300)%nat ->
       instagram_card L post_id post_data = inr (post_type, embed, content) ->
       py_item embed "description" = inr (JStr caption)).
Proof.
  intros H.
  specialize (H demo_lib (JStr "Cxyz123") post_with_empty_caption ""
                "post" _ _ eq_refl (Nat.le_0_l 300) eq_refl).
  vm_compute in H. discriminate H.
Qed.

(** ** Missing configuration and the cache file *)

(** C5.  Without an API key ([YOUTUBE_API_KEY] unset or empty) the video
    checker returns [False], leaves the cache alone and does nothing on the
    network; without the webhook URL it resolves, the notifier logs an error
    and returns [False], and that log line is all it does. *)
Theorem missing_config_degrades (W : world) (L : pylib) (s : state) :
  (opt_truthy (YOUTUBE_API_KEY W) = false ->
     run_result (check_youtube W L) s = inr false
     /\ exists evs,
          run_state (check_youtube W L) s
          = {| cache := cache s; trace := (evs ++ trace s)%list |}
          /\ Forall (fun ev => is_network ev = false) evs)
  /\ (forall content embed (log_channel mention_on_error : bool),
        opt_truthy (if log_channel then DISCORD_LOG_WEBHOOK_URL W
                    else DISCORD_WEBHOOK_URL W) = false ->
        send_discord_webhook W L content embed log_channel mention_on_error s
        = (inr false,
           {| cache := cache s;
              trace := EvLog ERROR "discord webhook url not configured"
                       :: trace s |})).
Proof.
  split.
  - intros Hkey.
    unfold run_result, run_state, check_youtube, _check_youtube_impl.
    destruct (import_googleapiclient W) as [e|].
    + split; [reflexivity|].
      eexists [_; _]. split; [reflexivity|]. repeat constructor.
    + rewrite Hkey. split; [reflexivity|].
      eexists [_; _]. split; [reflexivity|]. repeat constructor.
  - intros content embed log_channel mention_on_error Hurl.
    unfold send_discord_webhook. rewrite Hurl. reflexivity.
Qed.

(** With nothing configured: the checker and the notifier in the world
    [offline]. *)
Lemma missing_config_degrades_witness :
  (run_result (check_youtube offline demo_lib) boot = inr false
   /\ exists evs,
        run_state (check_youtube offline demo_lib) boot
        = {| cache := cache boot; trace := (evs ++ trace boot)%list |}
        /\ Forall (fun ev => is_network ev = false) evs)
  /\ send_discord_webhook offline demo_lib "hello" None false false boot
     = (inr false,
        {| cache := cache boot;
           trace := EvLog ERROR "discord webhook url not configured"
                    :: trace boot |}).
Proof.
  split.
  - apply (missing_config_degrades offline demo_lib boot). reflexivity.
  - apply (missing_config_degrades offline demo_lib boot). reflexivity.
Defined.

(** The state after [open(CACHE_FILE, 'r')] and the read. *)
Lemma load_cache_run W L s :
  load_cache W L s
  = (match open_read W (trace s) CACHE_FILE with
     | inl e => match kind e with
                | FileNotFoundError => inr (JObj [])
                | _ => inl e
                end
     | inr f => match json_loads L f with
                | Some v => inr v
                | None => inl (Exn JSONDecodeError "invalid JSON")
                end
     end,
     {| cache := cache s;
        trace := EvRead CACHE_FILE (open_read W (trace s) CACHE_FILE)
                 :: trace s |}).
Proof.
  unfold load_cache, try_catch, bind, emit, lift, ret, raise. simpl.
  destruct (open_read W (trace s) CACHE_FILE) as [e | f]; simpl.
  - destruct e as [k m]; destruct k; reflexivity.
  - destruct (json_loads L f); reflexivity.
Qed.

(** C9.  [load_cache] returns the empty dict when the file is missing; any
    other failure to read it is raised, and so is the failure to decode a
    file that is there and is not valid JSON: it leaves [load_cache], the
    constructor and the program, and the read is all that has happened. *)
Theorem load_cache_tolerates_only_missing_file
    (W : world) (L : pylib) (s : state) :
  let out := open_read W (trace s) CACHE_FILE in
  let s' := {| cache := cache s; trace := EvRead CACHE_FILE out :: trace s |} in
  (forall e, out = inl e -> kind e = FileNotFoundError ->
     load_cache W L s = (inr (JObj []), s'))
  /\ (forall e, out = inl e -> kind e <> FileNotFoundError ->
        load_cache W L s = (inl e, s')
        /\ init W L s = (inl e, s')
        /\ main W L s = (inl e, s'))
  /\ (forall f, out = inr f -> json_loads L f = None ->
        exists e,
          kind e = JSONDecodeError
          /\ load_cache W L s = (inl e, s')
          /\ init W L s = (inl e, s')
          /\ main W L s = (inl e, s'))
  /\ (forall f v, out = inr f -> json_loads L f = Some v ->
        load_cache W L s = (inr v, s')).
Proof.
  intros out s'. unfold main, init, bind. rewrite load_cache_run.
  fold out. fold s'. repeat apply conj.
  - intros e -> Hk. rewrite Hk. reflexivity.
  - intros e -> Hk.
    assert (match kind e with
            | FileNotFoundError => inr (JObj [])
            | _ => inl e
            end = inl e) as ->
      by (destruct (kind e); try reflexivity; contradiction).
    repeat split.
  - intros f -> Hj. rewrite Hj.
    exists (Exn JSONDecodeError "invalid JSON"). repeat split.
  - intros f v -> Hj. rewrite Hj. reflexivity.
Qed.

(** Loading in four worlds: no file, an unreadable file, a file that is not
    JSON, a file with an empty dict. *)
Lemma load_cache_tolerates_only_missing_file_witness :
  load_cache offline demo_lib boot
  = (inr (JObj []),
     {| cache := JNull;
        trace := [EvRead CACHE_FILE (inl (Exn FileNotFoundError "cache.json"))] |})
  /\ main unreadable_cache demo_lib boot
     = (inl (Exn OSError "permission denied"),
        {| cache := JNull;
           trace := [EvRead CACHE_FILE (inl (Exn OSError "permission denied"))] |})
  /\ (exists e,
        kind e = JSONDecodeError
        /\ main corrupt_cache demo_lib boot
           = (inl e,
              {| cache := JNull;
                 trace := [EvRead CACHE_FILE (inr "not json")] |}))
  /\ load_cache empty_cache_file demo_lib boot
     = (inr (JObj []),
        {| cache := JNull; trace := [EvRead CACHE_FILE (inr "{}")] |}).
Proof.
  repeat apply conj.
  - pose proof (load_cache_tolerates_only_missing_file offline demo_lib boot)
      as H; cbv zeta in H.
    apply (proj1 H (Exn FileNotFoundError "cache.json")); reflexivity.
  - pose proof (load_cache_tolerates_only_missing_file unreadable_cache
                  demo_lib boot) as H; cbv zeta in H.
    apply (proj1 (proj2 H) (Exn OSError "permission denied"));
      [reflexivity | discriminate].
  - pose proof (load_cache_tolerates_only_missing_file corrupt_cache
                  demo_lib boot) as H; cbv zeta in H.
    destruct (proj1 (proj2 (proj2 H)) "not json" eq_refl eq_refl)
      as (e & Hk & _ & _ & Hm).
    exists e. split; assumption.
  - pose proof (load_cache_tolerates_only_missing_file empty_cache_file
                  demo_lib boot) as H; cbv zeta in H.
    apply (proj2 (proj2 (proj2 H)) "{}" (JObj [])); reflexivity.
Defined.

(** ** The boundary of the checkers *)

Lemma total_ret {A} (a : A) : total (ret a).
Proof. intros s. exists a. reflexivity. Qed.

Lemma total_emit ev : total (emit ev).
Proof. intros s. exists tt. reflexivity. Qed.

Lemma total_bind {A B} (m : M A) (f : A -> M B) :
  total m -> (forall a, total (f a)) -> total (bind m f).
Proof.
  intros Hm Hf s. unfold bind. destruct (Hm s) as [a Ha].
  destruct (m s) as [[e | a'] s']; simpl in Ha; [discriminate|].
  apply Hf.
Qed.

Lemma total_try_catch {A} (m : M A) (h : exn -> M A) :
  (forall e, total (h e)) -> total (try_catch m h).
Proof.
  intros Hh s. unfold try_catch.
  destruct (m s) as [[e | a] s']; [apply Hh | exists a; reflexivity].
Qed.

Lemma bind_emit {B} ev (k : unit -> M B) s :
  bind (emit ev) k s = k tt {| cache := cache s; trace := ev :: trace s |}.
Proof. reflexivity. Qed.

Lemma bind_assoc {A B C} (m : M A) (f : A -> M B) (g : B -> M C) s :
  bind (bind m f) g s = bind m (fun a => bind (f a) g) s.
Proof.
  unfold bind. destruct (m s) as [[e | a] s']; reflexivity.
Qed.

Lemma bind_ret {A B} (a : A) (f : A -> M B) s : bind (ret a) f s = f a s.
Proof. reflexivity. Qed.

Lemma save_cache_run W s :
  save_cache W s
  = (match open_write W (trace s) CACHE_FILE (cache s) with
     | Some e => inl e
     | None => inr tt
     end,
     {| cache := cache s;
        trace := EvWrite CACHE_FILE (cache s)
                   (open_write W (trace s) CACHE_FILE (cache s))
                 :: trace s |}).
Proof.
  unfold save_cache. rewrite bind_emit.
  destruct (open_write W (trace s) CACHE_FILE (cache s)); reflexivity.
Qed.

Ltac total_step :=
  match goal with
  | |- total (bind _ _) => apply total_bind; [|intro]
  | |- total (try_catch _ _) => apply total_try_catch; intro
  | |- total (ret _) => apply total_ret
  | |- total (log _ _) => apply total_emit
  | |- total (emit _) => apply total_emit
  | |- total (if ?b then _ else _) => destruct b
  | |- total (match ?x with _ => _ end) => destruct x
  end.

Lemma total_send_discord_webhook W L content embed lg mention :
  total (send_discord_webhook W L content embed lg mention).
Proof. unfold send_discord_webhook. repeat total_step. Qed.

Lemma total_check_youtube W L : total (check_youtube W L).
Proof. unfold check_youtube. repeat total_step. Qed.

Lemma total_try_methods methods : total (try_methods methods).
Proof.
  induction methods as [|[name m] rest IH]; simpl; repeat total_step.
  exact IH.
Qed.

Lemma total_check_instagram W L : total (check_instagram W L).
Proof.
  unfold check_instagram. total_step; [total_step|].
  apply total_try_methods.
Qed.

(** The steps of [run_all_checks] from the summary log lines on. *)
Lemma run_all_checks_run W L s :
  let y := check_youtube W L (snd (log INFO "starting social media monitoring..." s)) in
  let i := check_instagram W L (snd y) in
  exists b1 b2,
    fst y = inr b1 /\ fst i = inr b2
    /\ run_all_checks W L s
       = (let results := [("YouTube", status_of b1);
                          ("Instagram", status_of b2)] in
          log INFO "";;
          log INFO "social media monitoring completed";;
          log INFO "results summary:";;
          log_results results;;
          save_cache W;;
          send_discord_webhook W L (run_summary W results []) None true false;;
          ret tt) (snd i).
Proof.
  intros y i.
  destruct (total_check_youtube W L
              (snd (log INFO "starting social media monitoring..." s)))
    as [b1 Hy].
  destruct (total_check_instagram W L (snd y)) as [b2 Hi].
  fold y in Hy. fold i in Hi.
  exists b1, b2. repeat split; try assumption.
  unfold run_all_checks, platforms.
  unfold bind at 1. cbn [log emit fst snd].
  unfold bind at 1. cbn [run_platforms].
  unfold bind at 1. unfold try_catch at 1. unfold bind at 1.
  change (check_youtube W L _) with y.
  destruct y as [[e | b] sy]; simpl in Hy; [discriminate|].
  injection Hy as ->. cbn [ret fst snd app].
  unfold bind at 1. unfold try_catch at 1. unfold bind at 1.
  change (check_instagram W L sy) with i.
  destruct i as [[e | b] si]; simpl in Hi; [discriminate|].
  injection Hi as ->. reflexivity.
Qed.

(** What a run of [run_all_checks] does, step by step. *)
Lemma run_all_checks_outcome (W : world) (L : pylib) (s : state) :
  let s0 := {| cache := cache s;
               trace := EvLog INFO "starting social media monitoring..."
                        :: trace s |} in
  let sy := run_state (check_youtube W L) s0 in
  let si := run_state (check_instagram W L) sy in
  exists b1 b2,
    run_result (check_youtube W L) s0 = inr b1
    /\ run_result (check_instagram W L) sy = inr b2
    /\ let results := [("YouTube", status_of b1);
                       ("Instagram", status_of b2)] in
       let s1 :=
         {| cache := cache si;
            trace := EvLog INFO ("  Instagram: " ++ status_of b2)
                     :: EvLog INFO ("  YouTube: " ++ status_of b1)
                     :: EvLog INFO "results summary:"
                     :: EvLog INFO "social media monitoring completed"
                     :: EvLog INFO ""
                     :: trace si |} in
       let out := open_write W (trace s1) CACHE_FILE (cache s1) in
       let s2 :=
         {| cache := cache s1;
            trace := EvWrite CACHE_FILE (cache s1) out :: trace s1 |} in
       run_all_checks W L s
       = match out with
         | Some e => (inl e, s2)
         | None =>
             (inr tt,
              run_state
                (send_discord_webhook W L (run_summary W results [])
                   None true false) s2)
         end.
Proof.
  intros s0 sy si.
  destruct (run_all_checks_run W L s) as (b1 & b2 & Hy & Hi & Hrun).
  exists b1, b2. split; [exact Hy|]. split; [exact Hi|].
  intros results s1 out s2. rewrite Hrun.
  change (snd (check_instagram W L
                 (snd (check_youtube W L
                    (snd (log INFO "starting social media monitoring..." s))))))
    with si.
  assert (Hsend : forall s', exists b s'',
             send_discord_webhook W L (run_summary W results []) None true
               false s' = (inr b, s'')).
  { intros s'.
    destruct (total_send_discord_webhook W L (run_summary W results []) None
                true false s') as [b Hb].
    destruct (send_discord_webhook W L (run_summary W results []) None true
                false s') as [[e | b'] s'']; simpl in Hb; [discriminate|].
    eauto. }
  cbn [log_results]. unfold log. rewrite !bind_emit. cbn [cache trace].
  rewrite bind_assoc, bind_emit, bind_assoc, bind_emit, bind_ret.
  cbn [cache trace].
  unfold bind at 1. rewrite save_cache_run. cbn [cache trace].
  change (open_write W _ CACHE_FILE (cache si)) with out.
  destruct out as [e|] eqn:Eout; [reflexivity|].
  unfold run_state, bind.
  change (send_discord_webhook W L _ None true false _)
    with (send_discord_webhook W L (run_summary W results []) None true
            false s2).
  destruct (Hsend s2) as (b & s3 & ->). reflexivity.
Qed.

(** C8, as amended.  [check_youtube] and [check_instagram] return a boolean
    from every state in every world: no exception passes their boundary (an
    exception that leaves [_check_youtube_impl] is logged and turned into
    [False]; a method of the Instagram checker that raises is logged and
    skipped).  So a run of [run_all_checks] never enters the orchestrator's
    [except] branch: it runs both checkers, logs the two results, and always
    reaches [save_cache], called with the cache the checkers left.  It
    reaches the summary notification whenever the write of the cache file
    does not raise: then the summary (with no error section) is sent to the
    log channel.  A write that raises ends the run at the write. *)
Theorem checkers_never_raise (W : world) (L : pylib) (s : state) :
  (exists b, run_result (check_youtube W L) s = inr b)
  /\ (exists b, run_result (check_instagram W L) s = inr b)
  /\ (forall e s',
        _check_youtube_impl W L
          {| cache := cache s;
             trace := EvLog INFO "checking youtube for new content..."
                      :: trace s |} = (inl e, s') ->
        check_youtube W L s
        = (inr false,
           {| cache := cache s';
              trace := EvLog ERROR ("youtube check failed: " ++ msg e)
                       :: trace s' |}))
  /\ (forall name method rest e s',
        method s = (inl e, s') ->
        try_methods ((name, method) :: rest) s
        = try_methods rest
            {| cache := cache s';
               trace := EvLog WARNING ("instagram method " ++ name
                                       ++ " failed: " ++ msg e)
                        :: trace s' |})
  /\ (let s0 := {| cache := cache s;
                   trace := EvLog INFO "starting social media monitoring..."
                            :: trace s |} in
      let sy := run_state (check_youtube W L) s0 in
      let si := run_state (check_instagram W L) sy in
      exists b1 b2,
        run_result (check_youtube W L) s0 = inr b1
        /\ run_result (check_instagram W L) sy = inr b2
        /\ let results := [("YouTube", status_of b1);
                           ("Instagram", status_of b2)] in
           let s1 :=
             {| cache := cache si;
                trace := EvLog INFO ("  Instagram: " ++ status_of b2)
                         :: EvLog INFO ("  YouTube: " ++ status_of b1)
                         :: EvLog INFO "results summary:"
                         :: EvLog INFO "social media monitoring completed"
                         :: EvLog INFO ""
                         :: trace si |} in
           let out := open_write W (trace s1) CACHE_FILE (cache s1) in
           let s2 :=
             {| cache := cache s1;
                trace := EvWrite CACHE_FILE (cache s1) out :: trace s1 |} in
           run_all_checks W L s
           = match out with
             | Some e => (inl e, s2)
             | None =>
                 (inr tt,
                  run_state
                    (send_discord_webhook W L (run_summary W results [])
                       None true false) s2)
             end).
Proof.
  split; [apply total_check_youtube|].
  split; [apply total_check_instagram|].
  split.
  { intros e s' H. unfold check_youtube, log. rewrite bind_emit.
    unfold try_catch. rewrite H. reflexivity. }
  split.
  { intros name method rest e s' H. cbn [try_methods].
    unfold bind at 1. unfold try_catch. rewrite H. reflexivity. }
  apply run_all_checks_outcome.
Qed.

(** Without the client library the import in [_check_youtube_impl] raises,
    and [check_youtube] returns [False]; a method that raises is skipped. *)
Lemma checkers_never_raise_witness :
  check_youtube no_google_client demo_lib boot
  = (inr false,
     {| cache := JNull;
        trace := [EvLog ERROR
                    "youtube check failed: No module named 'googleapiclient'";
                  EvLog INFO "checking youtube for new content..."] |})
  /\ try_methods [("broken", raise (Exn KeyError "data"))] boot
     = try_methods []
         {| cache := JNull;
            trace := [EvLog WARNING "instagram method broken failed: data"] |}.
Proof.
  split.
  - exact (proj1 (proj2 (proj2
             (checkers_never_raise no_google_client demo_lib boot)))
             (Exn ImportError "No module named 'googleapiclient'") _ eq_refl).
  - exact (proj1 (proj2 (proj2 (proj2
             (checkers_never_raise offline demo_lib boot))))
             "broken" (raise (Exn KeyError "data")) [] _ _ eq_refl).
Defined.

(** C8, as stated, fails: the orchestrator does not always reach the summary
    notification.  On a file system that cannot be written, with the log
    webhook configured and both checkers returning [False], the write of
    the cache file raises: the run ends with that exception, the write is
    the last thing it did, and no POST was made. *)
Lemma failed_write_ends_run_before_summary :
  let run := run_all_checks readonly_world demo_lib abc123_state in
  fst run = inl (Exn OSError "read-only file system")
  /\ DISCORD_LOG_WEBHOOK_URL readonly_world = Some "https://discord.test/log"
  /\ hd_error (trace (snd run))
     = Some (EvWrite CACHE_FILE (cache abc123_state)
               (Some (Exn OSError "read-only file system")))
  /\ existsb is_post (trace (snd run)) = false.
Proof. vm_compute. repeat split. Qed.

(** ** Which cache entries a checker touches *)

Section Frame.

Context (W : world) (L : pylib).

Lemma frame_check_youtube ks :
  In youtube_cache_key ks -> keeps (frame ks) (check_youtube W L).
Proof.
  intros Hin. apply keeps_check_youtube.
  - apply frame_allows_youtube.
  - apply allows_post_youtube_cards, frame_allows_post.
  - apply frame_allows_set, Hin.
Qed.

Lemma frame_process_instagram_post ks post_data :
  In instagram_cache_key ks ->
  keeps (frame ks) (_process_instagram_post W L post_data).
Proof.
  intros Hin. apply keeps_process_instagram_post.
  - apply allows_post_instagram_cards, frame_allows_post.
  - apply frame_allows_set, Hin.
Qed.

Lemma frame_check_instagram_web ks :
  In instagram_cache_key ks -> keeps (frame ks) (_check_instagram_web W L).
Proof.
  intros Hin. apply keeps_check_instagram_web.
  - apply frame_allows_get.
  - apply frame_allows_get.
  - apply allows_post_instagram_cards, frame_allows_post.
  - apply frame_allows_set, Hin.
Qed.

Lemma frame_check_instagram_rss ks :
  In instagram_cache_key ks -> keeps (frame ks) (_check_instagram_rss W L).
Proof.
  intros Hin. apply keeps_check_instagram_rss.
  - apply frame_allows_get.
  - apply allows_post_rss_cards, frame_allows_post.
  - apply frame_allows_set, Hin.
Qed.

Lemma frame_check_instagram ks :
  In instagram_cache_key ks -> keeps (frame ks) (check_instagram W L).
Proof.
  intros Hin. apply keeps_check_instagram.
  - apply frame_allows_get.
  - apply frame_allows_get.
  - apply frame_allows_get.
  - apply allows_post_instagram_cards, frame_allows_post.
  - apply allows_post_rss_cards, frame_allows_post.
  - apply frame_allows_set, Hin.
Qed.

Lemma no_write_allows_post : allows_post no_write.
Proof. intros ? ? ? ?. reflexivity. Qed.

Lemma no_write_allows_get url : allows_get no_write url.
Proof. intros ? ? ?. reflexivity. Qed.

Lemma no_write_allows_youtube : allows_youtube no_write.
Proof. repeat split. Qed.

Lemma no_write_allows_set k : allows_set no_write k.
Proof. intros ? ?. exact I. Qed.

Lemma no_write_check_youtube : keeps no_write (check_youtube W L).
Proof.
  apply keeps_check_youtube.
  - apply no_write_allows_youtube.
  - apply allows_post_youtube_cards, no_write_allows_post.
  - apply no_write_allows_set.
Qed.

Lemma no_write_check_instagram : keeps no_write (check_instagram W L).
Proof.
  apply keeps_check_instagram;
    try apply no_write_allows_get; try apply no_write_allows_set.
  - apply allows_post_instagram_cards, no_write_allows_post.
  - apply allows_post_rss_cards, no_write_allows_post.
Qed.

Lemma no_write_send_discord_webhook content embed lg mention :
  keeps no_write (send_discord_webhook W L content embed lg mention).
Proof. apply keeps_send_discord_webhook, no_write_allows_post. Qed.

End Frame.

Lemma writes_app evs1 evs2 : writes (evs1 ++ evs2) = (writes evs1 ++ writes evs2)%list.
Proof. apply filter_app. Qed.

Lemma writes_none evs :
  Forall (fun ev => is_write ev = false) evs -> writes evs = [].
Proof.
  induction 1 as [|ev evs H _ IH]; [reflexivity|].
  unfold writes in *. simpl. rewrite H. exact IH.
Qed.

Lemma within_no_write s s' :
  within no_write s s' ->
  exists evs, trace s' = (evs ++ trace s)%list /\ writes evs = [].
Proof.
  intros [_ [evs [Ht Hc]]]. exists evs. split; [exact Ht|].
  apply writes_none, Hc.
Qed.

Lemma frame_rel_lookup ks c c' k :
  frame_rel ks c c' -> ~ In k ks -> cache_lookup k c' = cache_lookup k c.
Proof. intros [_ H] Hk. apply H, Hk. Qed.

(** The one write of a run and what it writes. *)
Lemma run_all_checks_write W L s :
  exists written out evs,
    trace (run_state (run_all_checks W L) s) = (evs ++ trace s)%list
    /\ writes evs = [EvWrite CACHE_FILE written out]
    /\ frame_rel [youtube_cache_key; instagram_cache_key] (cache s) written.
Proof.
  destruct (run_all_checks_outcome W L s) as (b1 & b2 & _ & _ & Hrun).
  cbv zeta in Hrun.
  set (ks := [youtube_cache_key; instagram_cache_key]).
  set (s0 := {| cache := cache s;
                trace := EvLog INFO "starting social media monitoring..."
                         :: trace s |}) in *.
  set (sy := run_state (check_youtube W L) s0) in *.
  set (si := run_state (check_instagram W L) sy) in *.
  assert (Hfy : within (frame ks) s0 sy)
    by (apply frame_check_youtube; simpl; auto).
  assert (Hfi : within (frame ks) sy si)
    by (apply frame_check_instagram; simpl; auto).
  destruct (within_no_write _ _ (no_write_check_youtube W L s0))
    as (e1 & Ht1 & Hw1).
  destruct (within_no_write _ _ (no_write_check_instagram W L sy))
    as (e2 & Ht2 & Hw2).
  change (snd (check_youtube W L s0)) with sy in Ht1.
  change (snd (check_instagram W L sy)) with si in Ht2.
  assert (Hframe : frame_rel ks (cache s) (cache si)).
  { apply (cache_rel_trans (frame ks)) with (b := cache sy).
    - exact (proj1 Hfy).
    - exact (proj1 Hfi). }
  set (logs := [EvLog INFO ("  Instagram: " ++ status_of b2);
                EvLog INFO ("  YouTube: " ++ status_of b1);
                EvLog INFO "results summary:";
                EvLog INFO "social media monitoring completed";
                EvLog INFO ""]).
  set (s1 := {| cache := cache si; trace := _ |}) in Hrun.
  set (out := open_write W (trace s1) CACHE_FILE (cache s1)) in Hrun.
  set (s2 := {| cache := cache s1; trace := _ |}) in Hrun.
  set (before := (logs ++ e2 ++ e1
                  ++ [EvLog INFO "starting social media monitoring..."])%list).
  assert (Hs2 : trace s2
                = ((EvWrite CACHE_FILE (cache si) out :: before) ++ trace s)%list).
  { unfold s2, s1, before, logs. cbn [trace cache]. rewrite Ht2, Ht1.
    unfold s0. cbn [trace app]. do 6 f_equal.
    rewrite <- !app_assoc. reflexivity. }
  assert (Hwb : writes before = []).
  { unfold before. rewrite !writes_app, Hw1, Hw2. reflexivity. }
  unfold run_state. rewrite Hrun.
  destruct out as [e|] eqn:Eout.
  - exists (cache si), (Some e), (EvWrite CACHE_FILE (cache si) (Some e) :: before).
    cbn [snd]. split; [exact Hs2|]. split; [|exact Hframe].
    change (writes (EvWrite CACHE_FILE (cache si) (Some e) :: before))
      with (EvWrite CACHE_FILE (cache si) (Some e) :: writes before).
    rewrite Hwb. reflexivity.
  - cbn [snd].
    destruct (within_no_write _ _
                (no_write_send_discord_webhook W L
                   (run_summary W [("YouTube", status_of b1);
                                   ("Instagram", status_of b2)] [])
                   None true false s2)) as (e3 & Ht3 & Hw3).
    exists (cache si), None,
      (e3 ++ EvWrite CACHE_FILE (cache si) None :: before)%list.
    split; [|split; [|exact Hframe]].
    + unfold run_state. rewrite Ht3, Hs2. rewrite <- app_assoc. reflexivity.
    + rewrite writes_app, Hw3.
      change (writes (EvWrite CACHE_FILE (cache si) None :: before))
        with (EvWrite CACHE_FILE (cache si) None :: writes before).
      rewrite Hwb. reflexivity.
Qed.

(** ** Which cache entries a checker reads *)

Section Blind.

Variable k : string.

Lemma blind_ret {A} (a : A) : blind k (ret a).
Proof. intros s1 s2 H. split; [reflexivity | exact H]. Qed.

Lemma blind_raise {A} (e : exn) : blind k (@raise A e).
Proof. intros s1 s2 H. split; [reflexivity | exact H]. Qed.

Lemma blind_lift {A} (r : res A) : blind k (lift r).
Proof. intros s1 s2 H. split; [reflexivity | exact H]. Qed.

Lemma blind_emit ev : blind k (emit ev).
Proof.
  intros s1 s2 [Ht Hv]. split; [reflexivity|].
  split; simpl; [rewrite Ht; reflexivity | exact Hv].
Qed.

Lemma blind_log l m : blind k (log l m).
Proof. apply blind_emit. Qed.

Lemma blind_bind {A B} (m : M A) (f : A -> M B) :
  blind k m -> (forall a, blind k (f a)) -> blind k (bind m f).
Proof.
  intros Hm Hf s1 s2 H. unfold bind. destruct (Hm s1 s2 H) as [Hr Hs].
  destruct (m s1) as [[e1 | a1] s1'], (m s2) as [[e2 | a2] s2'];
    simpl in Hr, Hs; try discriminate Hr.
  - injection Hr as ->. split; [reflexivity | exact Hs].
  - injection Hr as ->. apply Hf, Hs.
Qed.

Lemma blind_try_catch {A} (m : M A) (h : exn -> M A) :
  blind k m -> (forall e, blind k (h e)) -> blind k (try_catch m h).
Proof.
  intros Hm Hh s1 s2 H. unfold try_catch. destruct (Hm s1 s2 H) as [Hr Hs].
  destruct (m s1) as [[e1 | a1] s1'], (m s2) as [[e2 | a2] s2'];
    simpl in Hr, Hs; try discriminate Hr.
  - injection Hr as ->. apply Hh, Hs.
  - injection Hr as ->. split; [reflexivity | exact Hs].
Qed.

(** A request to the outside world: the answer depends on the history. *)
Lemma blind_ask {A B} (ask : list event -> B) (f : B -> M A) :
  (forall b, blind k (f b)) -> blind k (fun s => f (ask (trace s)) s).
Proof.
  intros Hf s1 s2 H. rewrite (proj1 H). apply Hf, H.
Qed.

Lemma blind_cache_get : blind k (cache_get k).
Proof.
  intros s1 s2 [Ht Hv]. unfold cache_get. simpl. split; [|split; assumption].
  destruct (cache s1), (cache s2); simpl in *; try discriminate Hv;
    try reflexivity.
  injection Hv as ->. reflexivity.
Qed.

Lemma blind_cache_set v : blind k (cache_set k v).
Proof.
  intros s1 s2 [Ht Hv]. unfold cache_set.
  destruct (cache s1) eqn:E1, (cache s2) eqn:E2; simpl in *;
    try discriminate Hv;
    try (split; [reflexivity | split; [exact Ht | rewrite E1, E2; exact Hv]]).
  split; [reflexivity|]. split; simpl; [exact Ht|].
  rewrite !assoc_set_same. reflexivity.
Qed.

Lemma blind_raise_for_status r : blind k (raise_for_status r).
Proof.
  unfold raise_for_status.
  destruct (_ && _); [apply blind_raise | apply blind_ret].
Qed.

Lemma blind_retrying {A} n (body : M A) :
  blind k body -> blind k (retrying n body).
Proof.
  intros Hb. induction n as [|n IH]; simpl.
  - apply blind_try_catch; [assumption|]. intros e.
    destruct (is_request_exception e); apply blind_raise.
  - apply blind_try_catch; [assumption|]. intros e.
    destruct (is_request_exception e); [|apply blind_raise].
    apply blind_bind; [apply blind_emit | intros _; exact IH].
Qed.

End Blind.

Ltac blind_step :=
  match goal with
  | |- blind _ (bind _ _) => apply blind_bind; [|intro]
  | |- blind _ (try_catch _ _) => apply blind_try_catch; [|intro]
  | |- blind _ (ret _) => apply blind_ret
  | |- blind _ (raise _) => apply blind_raise
  | |- blind _ (lift _) => apply blind_lift
  | |- blind _ (log _ _) => apply blind_log
  | |- blind _ (emit _) => apply blind_emit
  | |- blind ?k (cache_get ?k) => apply blind_cache_get
  | |- blind ?k (cache_set ?k _) => apply blind_cache_set
  | |- blind _ (raise_for_status _) => apply blind_raise_for_status
  | |- blind _ (if ?b then _ else _) => destruct b
  | |- blind _ (match ?x with _ => _ end) => destruct x
  end.

Ltac blind_auto := repeat blind_step.

Section BlindProgram.

Context (W : world) (L : pylib) (k : string).

Lemma blind_requests_post_call url payload t :
  blind k (requests_post_call W url payload t).
Proof.
  apply (blind_ask k (fun tr => requests_post W tr url payload t)
           (fun out => emit (EvPost url payload t out);; lift out)).
  intros out. blind_auto.
Qed.

Lemma blind_send_discord_webhook content embed lg mention :
  blind k (send_discord_webhook W L content embed lg mention).
Proof.
  unfold send_discord_webhook. blind_auto. apply blind_requests_post_call.
Qed.

Lemma blind_request_attempt url h t : blind k (request_attempt W url h t).
Proof.
  apply (blind_ask k (fun tr => requests_get W tr url h t)
           (fun out => emit (EvGet url h t out);;
                       response <- lift out;;
                       raise_for_status response;; ret response)).
  intros out. blind_auto.
Qed.

Lemma blind_make_request url h t : blind k (_make_request W url h t).
Proof. apply blind_retrying, blind_request_attempt. Qed.

Lemma blind_response_json r : blind k (response_json L r).
Proof. unfold response_json. blind_auto. Qed.

Lemma blind_youtube_search_call c : blind k (youtube_search_call W c).
Proof.
  apply (blind_ask k (fun tr => youtube_search W tr c)
           (fun out => emit (EvYoutubeSearch c out);; lift out)).
  intros out. blind_auto.
Qed.

Lemma blind_youtube_videos_call i : blind k (youtube_videos_call W i).
Proof.
  apply (blind_ask k (fun tr => youtube_videos W tr i)
           (fun out => emit (EvYoutubeVideos i out);; lift out)).
  intros out. blind_auto.
Qed.

Lemma blind_youtube_build_call key : blind k (youtube_build_call W key).
Proof.
  apply (blind_ask k (fun tr => youtube_build W tr key)
           (fun out => emit (EvYoutubeBuild key out);;
                       match out with
                       | Some e => raise e
                       | None => ret tt
                       end)).
  intros out. blind_auto.
Qed.

Lemma blind_youtube_nothing_new latest video_id :
  blind k (youtube_nothing_new L latest video_id).
Proof. unfold youtube_nothing_new. blind_auto. Qed.

Lemma blind_instagram_nothing_new post_id post_data :
  blind k (instagram_nothing_new L post_id post_data).
Proof. unfold instagram_nothing_new. blind_auto. Qed.

End BlindProgram.

Section BlindCheckers.

Context (W : world) (L : pylib).

Lemma blind_youtube_announce video_id :
  blind youtube_cache_key (youtube_announce W L video_id).
Proof.
  unfold youtube_announce.
  blind_auto;
    auto using blind_youtube_videos_call, blind_send_discord_webhook.
Qed.

Lemma blind_check_youtube_impl :
  blind youtube_cache_key (_check_youtube_impl W L).
Proof.
  unfold _check_youtube_impl.
  blind_auto;
    auto using blind_youtube_build_call, blind_youtube_search_call,
               blind_youtube_nothing_new, blind_youtube_announce.
Qed.

Lemma blind_check_youtube : blind youtube_cache_key (check_youtube W L).
Proof.
  unfold check_youtube. blind_auto. apply blind_check_youtube_impl.
Qed.

Lemma blind_process_instagram_post post_data :
  blind instagram_cache_key (_process_instagram_post W L post_data).
Proof.
  unfold _process_instagram_post.
  blind_auto;
    auto using blind_instagram_nothing_new, blind_send_discord_webhook.
Qed.

Lemma blind_process_instagram_json data :
  blind instagram_cache_key (_process_instagram_json W L data).
Proof.
  unfold _process_instagram_json.
  blind_auto; auto using blind_process_instagram_post.
Qed.

Lemma blind_shared_data_posts json_text :
  blind instagram_cache_key (shared_data_posts W L json_text).
Proof.
  unfold shared_data_posts.
  blind_auto; auto using blind_process_instagram_post.
Qed.

Lemma blind_scan_scripts scripts :
  blind instagram_cache_key (scan_scripts W L scripts).
Proof.
  induction scripts as [|script rest IH]; simpl.
  - apply blind_ret.
  - blind_auto; auto using blind_shared_data_posts.
Qed.

Lemma blind_process_instagram_html html :
  blind instagram_cache_key (_process_instagram_html W L html).
Proof.
  unfold _process_instagram_html.
  blind_auto; auto using blind_scan_scripts, blind_process_instagram_post.
Qed.

Lemma blind_check_instagram_web :
  blind instagram_cache_key (_check_instagram_web W L).
Proof.
  unfold _check_instagram_web, instagram_json_api, instagram_json_api_body,
    instagram_profile_page.
  blind_auto;
    auto using blind_make_request, blind_response_json,
               blind_process_instagram_json, blind_process_instagram_html.
Qed.

Lemma blind_check_instagram_rss :
  blind instagram_cache_key (_check_instagram_rss W L).
Proof.
  unfold _check_instagram_rss.
  blind_auto; auto using blind_make_request, blind_send_discord_webhook.
Qed.

Lemma blind_try_methods key methods :
  Forall (fun nm => blind key (snd nm)) methods ->
  blind key (try_methods methods).
Proof.
  induction 1 as [|[name m] rest Hm _ IH]; simpl; blind_auto; assumption.
Qed.

Lemma blind_check_instagram :
  blind instagram_cache_key (check_instagram W L).
Proof.
  unfold check_instagram. blind_auto. apply blind_try_methods.
  apply Forall_cons; [|apply Forall_cons; [|apply Forall_nil]]; simpl.
  - apply blind_check_instagram_web.
  - apply blind_check_instagram_rss.
Qed.

End BlindCheckers.

(** C10.  Each checker reads and writes at most its own cache entry: the
    video checker the entry ["youtube_last_video"], the Instagram checker and
    each of its strategies the entry ["instagram_last_post"].  Every other
    entry is left as it was, and nothing else of the cache influences what a
    checker returns or does.  So the one write of the cache file in a run
    carries, under every other key, the value that was loaded from the file
    at startup. *)
Theorem checkers_use_only_their_cache_entry (W : world) (L : pylib) :
  (forall s k, k <> youtube_cache_key ->
     cache_lookup k (cache (run_state (check_youtube W L) s))
     = cache_lookup k (cache s))
  /\ (forall s k, k <> instagram_cache_key ->
        cache_lookup k (cache (run_state (check_instagram W L) s))
        = cache_lookup k (cache s))
  /\ (forall s k, k <> instagram_cache_key ->
        cache_lookup k (cache (run_state (_check_instagram_web W L) s))
        = cache_lookup k (cache s))
  /\ (forall s k, k <> instagram_cache_key ->
        cache_lookup k (cache (run_state (_check_instagram_rss W L) s))
        = cache_lookup k (cache s))
  /\ (forall post_data s k, k <> instagram_cache_key ->
        cache_lookup k
          (cache (run_state (_process_instagram_post W L post_data) s))
        = cache_lookup k (cache s))
  /\ (forall s1 s2,
        trace s1 = trace s2 ->
        entry_view youtube_cache_key (cache s1)
        = entry_view youtube_cache_key (cache s2) ->
        run_result (check_youtube W L) s1 = run_result (check_youtube W L) s2
        /\ trace (run_state (check_youtube W L) s1)
           = trace (run_state (check_youtube W L) s2)
        /\ entry_view youtube_cache_key
             (cache (run_state (check_youtube W L) s1))
           = entry_view youtube_cache_key
               (cache (run_state (check_youtube W L) s2)))
  /\ (forall s1 s2,
        trace s1 = trace s2 ->
        entry_view instagram_cache_key (cache s1)
        = entry_view instagram_cache_key (cache s2) ->
        run_result (check_instagram W L) s1
        = run_result (check_instagram W L) s2
        /\ trace (run_state (check_instagram W L) s1)
           = trace (run_state (check_instagram W L) s2)
        /\ entry_view instagram_cache_key
             (cache (run_state (check_instagram W L) s1))
           = entry_view instagram_cache_key
               (cache (run_state (check_instagram W L) s2)))
  /\ (forall s,
        exists written out evs,
          trace (run_state (run_all_checks W L) s) = (evs ++ trace s)%list
          /\ writes evs = [EvWrite CACHE_FILE written out]
          /\ (written = cache s
              \/ exists d d', cache s = JObj d /\ written = JObj d')
          /\ forall k, k <> youtube_cache_key -> k <> instagram_cache_key ->
               cache_lookup k written = cache_lookup k (cache s))
  /\ (forall s0,
        init W L boot = (inr tt, s0) ->
        run_result (load_cache W L) boot = inr (cache s0)
        /\ exists written out,
             writes (trace (run_state (main W L) boot))
             = [EvWrite CACHE_FILE written out]
             /\ forall k,
                  k <> youtube_cache_key -> k <> instagram_cache_key ->
                  cache_lookup k written = cache_lookup k (cache s0)).
Proof.
  assert (Hone : forall (k k' : string), k <> k' -> ~ In k [k'])
    by (intros k k' Hk [-> | []]; contradiction).
  repeat apply conj.
  - intros s k Hk.
    apply (frame_rel_lookup [youtube_cache_key]); [|apply Hone, Hk].
    apply (frame_check_youtube W L); simpl; auto.
  - intros s k Hk.
    apply (frame_rel_lookup [instagram_cache_key]); [|apply Hone, Hk].
    apply (frame_check_instagram W L); simpl; auto.
  - intros s k Hk.
    apply (frame_rel_lookup [instagram_cache_key]); [|apply Hone, Hk].
    apply (frame_check_instagram_web W L); simpl; auto.
  - intros s k Hk.
    apply (frame_rel_lookup [instagram_cache_key]); [|apply Hone, Hk].
    apply (frame_check_instagram_rss W L); simpl; auto.
  - intros post_data s k Hk.
    apply (frame_rel_lookup [instagram_cache_key]); [|apply Hone, Hk].
    apply (frame_process_instagram_post W L); simpl; auto.
  - intros s1 s2 Ht Hv.
    destruct (blind_check_youtube W L s1 s2 (conj Ht Hv)) as [Hr [Ht' Hv']].
    auto.
  - intros s1 s2 Ht Hv.
    destruct (blind_check_instagram W L s1 s2 (conj Ht Hv)) as [Hr [Ht' Hv']].
    auto.
  - intros s.
    destruct (run_all_checks_write W L s)
      as (written & out & evs & Ht & Hw & Hshape & Hkeep).
    exists written, out, evs. repeat split; try assumption.
    intros k Hy Hi. apply Hkeep. intros [<- | [<- | []]]; contradiction.
  - intros s0 Hinit. unfold init, bind in Hinit.
    destruct (load_cache W L boot) as [[e | loaded] sl] eqn:Hload;
      [discriminate|].
    injection Hinit as <-. cbn [cache]. unfold run_result.
    rewrite Hload. split; [reflexivity|].
    assert (Htl : trace sl = [EvRead CACHE_FILE (open_read W [] CACHE_FILE)]).
    { rewrite load_cache_run in Hload. injection Hload as _ <-. reflexivity. }
    destruct (run_all_checks_write W L {| cache := loaded; trace := trace sl |})
      as (written & out & evs & Ht & Hw & _ & Hkeep).
    exists written, out. split.
    + unfold main, init, run_state, bind. rewrite Hload.
      unfold run_state in Ht. rewrite Ht. cbn [trace].
      rewrite writes_app, Hw, Htl. reflexivity.
    + intros k Hy Hi. apply Hkeep. intros [<- | [<- | []]]; contradiction.
Qed.

(** A run that announces a new video: the file had
    [{"theme": "dark", "youtube_last_video": "abc123"}], the file written
    keeps ["theme"]; and the video checker does the same whatever the entry
    ["theme"] is. *)
Lemma checkers_use_only_their_cache_entry_witness :
  (run_result (load_cache (youtube_world "xyz789" "Hello") demo_lib) boot
   = inr seen_cache
   /\ exists written out,
        writes (trace (run_state (main (youtube_world "xyz789" "Hello")
                                    demo_lib) boot))
        = [EvWrite CACHE_FILE written out]
        /\ forall k,
             k <> youtube_cache_key -> k <> instagram_cache_key ->
             cache_lookup k written = cache_lookup k seen_cache)
  /\ cache_lookup "theme"
       (cache (run_state (check_youtube (youtube_world "xyz789" "Hello")
                            demo_lib) seen_state))
     = Some (JStr "dark")
  /\ run_result (check_youtube (youtube_world "xyz789" "Hello") demo_lib)
       seen_state
     = run_result (check_youtube (youtube_world "xyz789" "Hello") demo_lib)
         {| cache := JObj [("youtube_last_video", JStr "abc123");
                           ("theme", JStr "light")];
            trace := trace seen_state |}.
Proof.
  pose proof (checkers_use_only_their_cache_entry
                (youtube_world "xyz789" "Hello") demo_lib)
    as (Hy & _ & _ & _ & _ & Hblind & _ & _ & Hmain).
  split; [|split].
  - apply (Hmain seen_state). reflexivity.
  - apply (Hy seen_state "theme"). discriminate.
  - apply (Hblind seen_state
             {| cache := JObj [("youtube_last_video", JStr "abc123");
                               ("theme", JStr "light")];
                trace := trace seen_state |}); reflexivity.
Defined.

(** ** Notification and cache update *)

Lemma unchanged_run_within s s' :
  unchanged_run s s' <-> within no_notification s s'.
Proof.
  unfold unchanged_run, within. simpl. split.
  - intros [Hc He]. split; [symmetry; exact Hc | exact He].
  - intros [Hc He]. split; [symmetry; exact Hc | exact He].
Qed.

Lemma no_notification_allows_get url : allows_get no_notification url.
Proof. intros ? ? ?. reflexivity. Qed.

Lemma no_notification_allows_youtube : allows_youtube no_notification.
Proof. repeat split. Qed.

Lemma requests_post_call_run W url payload t s :
  requests_post_call W url payload t s
  = (requests_post W (trace s) url payload t,
     {| cache := cache s;
        trace := EvPost url payload t (requests_post W (trace s) url payload t)
                 :: trace s |}).
Proof. reflexivity. Qed.

(** What [send_discord_webhook] does, step by step. *)
Lemma send_discord_webhook_run W L content embed (lg mention : bool) s :
  let webhook_url :=
    if lg then DISCORD_LOG_WEBHOOK_URL W else DISCORD_WEBHOOK_URL W in
  let url := match webhook_url with Some u => u | None => "" end in
  let payload := webhook_payload W content embed mention in
  let s1 :=
    {| cache := cache s;
       trace := EvLog INFO ("payload: " ++ py_repr L payload)
                :: EvLog INFO ("sending discord webhook to: " ++ url)
                :: trace s |} in
  let out := requests_post W (trace s1) url payload 30 in
  let s2 :=
    {| cache := cache s; trace := EvPost url payload 30 out :: trace s1 |} in
  send_discord_webhook W L content embed lg mention s
  = if opt_truthy webhook_url then
      match attempt_result out with
      | inr _ =>
          (inr true,
           {| cache := cache s;
              trace := EvLog INFO "discord message sent successfully!"
                       :: trace s2 |})
      | inl e =>
          (inr false,
           {| cache := cache s;
              trace := EvLog ERROR ("failed to send discord webhook: "
                                    ++ msg e) :: trace s2 |})
      end
    else
      (inr false,
       {| cache := cache s;
          trace := EvLog ERROR "discord webhook url not configured"
                   :: trace s |}).
Proof.
  intros webhook_url url payload s1 out s2.
  unfold send_discord_webhook. fold webhook_url.
  destruct (opt_truthy webhook_url); [|reflexivity].
  fold url. fold payload. unfold log. rewrite !bind_emit.
  cbn [cache trace]. fold s1.
  unfold try_catch. unfold bind at 1. rewrite requests_post_call_run.
  fold out. cbn [cache]. fold s2.
  unfold attempt_result, raise_for_status, status_ok.
  destruct out as [e | r]; [reflexivity|].
  unfold bind.
  destruct ((400 <=? status_code r) && (status_code r <? 600)); reflexivity.
Qed.

Section UpdateRule.

Context (W : world) (L : pylib) (k : string) (url_of : jval -> string).

Lemma unchanged_run_refl s : unchanged_run s s.
Proof. split; [reflexivity|]. exists []. split; [reflexivity | constructor]. Qed.

Lemma unchanged_run_trans s1 s2 s3 :
  unchanged_run s1 s2 -> unchanged_run s2 s3 -> unchanged_run s1 s3.
Proof.
  rewrite !unchanged_run_within. apply within_trans.
Qed.

Lemma unchanged_then_announced s1 s2 s3 :
  unchanged_run s1 s2 -> announced_run W k url_of s2 s3 ->
  announced_run W k url_of s1 s3.
Proof.
  intros [Hc [evs [Ht Hq]]]
         (d & id & hook & payload & r & before & after
          & Hd & Hne & Hc3 & Ht3 & Hok & Hhook & Hann & Hb & Ha).
  exists d, id, hook, payload, r, (before ++ evs)%list, after.
  repeat split; try assumption.
  - rewrite <- Hc. exact Hd.
  - rewrite Ht3, Ht, <- app_assoc. reflexivity.
  - apply Forall_app. split; assumption.
Qed.

Lemma rule_quiet {A} (yes : A) pre (m : M A) :
  keeps no_notification m -> update_rule W k url_of yes pre m.
Proof.
  intros Hm s _. left. apply unchanged_run_within, Hm.
Qed.

Lemma rule_weaken {A} (yes : A) (pre pre' : jval -> Prop) (m : M A) :
  (forall c, pre' c -> pre c) ->
  update_rule W k url_of yes pre m -> update_rule W k url_of yes pre' m.
Proof. intros Hp Hm s Hs. apply Hm, Hp, Hs. Qed.

Lemma rule_bind {A B} (yes : A) (yes' : B) pre (m : M A) (f : A -> M B) :
  update_rule W k url_of yes pre m ->
  f yes = ret yes' ->
  (forall a, update_rule W k url_of yes' pre (f a)) ->
  update_rule W k url_of yes' pre (bind m f).
Proof.
  intros Hm Hyes Hf s Hs. unfold bind.
  destruct (Hm s Hs) as [Hq | [Ha Hr]].
  - destruct (m s) as [[e | a] s1]; simpl in Hq; [left; exact Hq|].
    assert (Hs1 : pre (cache s1)) by (rewrite (proj1 Hq); exact Hs).
    destruct (Hf a s1 Hs1) as [Hq' | [Ha' Hr']].
    + left. eapply unchanged_run_trans; eassumption.
    + right. split; [|exact Hr'].
      eapply unchanged_then_announced; eassumption.
  - destruct (m s) as [[e | a] s1]; simpl in Ha, Hr; [discriminate|].
    injection Hr as ->. rewrite Hyes. right. split; [exact Ha | reflexivity].
Qed.

Lemma rule_bind_quiet {A B} (yes : B) pre (m : M A) (f : A -> M B) :
  keeps no_notification m ->
  (forall a, update_rule W k url_of yes pre (f a)) ->
  update_rule W k url_of yes pre (bind m f).
Proof.
  intros Hm Hf s Hs. unfold bind.
  pose proof (proj2 (unchanged_run_within _ _) (Hm s)) as Hq.
  destruct (m s) as [[e | a] s1]; simpl in Hq; [left; exact Hq|].
  assert (Hs1 : pre (cache s1)) by (rewrite (proj1 Hq); exact Hs).
  destruct (Hf a s1 Hs1) as [Hq' | [Ha' Hr']].
  - left. eapply unchanged_run_trans; eassumption.
  - right. split; [|exact Hr'].
    eapply unchanged_then_announced; eassumption.
Qed.

Lemma rule_bind_lift {A B} (yes : B) pre (r : res A) (f : A -> M B) :
  (forall a, r = inr a -> update_rule W k url_of yes pre (f a)) ->
  update_rule W k url_of yes pre (bind (lift r) f).
Proof.
  intros Hf s Hs. unfold bind, lift. destruct r as [e | a].
  - left. apply unchanged_run_refl.
  - apply (Hf a eq_refl s Hs).
Qed.

Lemma rule_try_catch {A} (yes : A) pre (m : M A) (h : exn -> M A) :
  update_rule W k url_of yes pre m ->
  (forall e, keeps no_notification (h e)) ->
  update_rule W k url_of yes pre (try_catch m h).
Proof.
  intros Hm Hh s Hs. unfold try_catch.
  destruct (Hm s Hs) as [Hq | [Ha Hr]].
  - destruct (m s) as [[e | a] s1]; simpl in Hq; [|left; exact Hq].
    left. eapply unchanged_run_trans; [exact Hq|].
    apply unchanged_run_within, Hh.
  - destruct (m s) as [[e | a] s1]; simpl in Ha, Hr; [discriminate|].
    right. split; assumption.
Qed.

Lemma rule_cache_get {A} (yes : A) pre (f : jval -> M A) :
  (forall v, update_rule W k url_of yes (cached_is k v) (f v)) ->
  update_rule W k url_of yes pre (bind (cache_get k) f).
Proof.
  intros Hf s _. unfold bind, cache_get, py_get.
  destruct (cache s) as [ | b | n | str | l | d] eqn:Hc;
    try (left; apply unchanged_run_refl).
  apply Hf. exists d. split; [exact Hc | reflexivity].
Qed.

Lemma attempt_result_ok out r :
  attempt_result out = inr r -> out = inr r /\ status_ok r = true.
Proof.
  destruct out as [e | r']; simpl; [discriminate|].
  destruct (status_ok r') eqn:E; [|discriminate].
  intros [= <-]. auto.
Qed.

Lemma attempt_result_failed out e :
  attempt_result out = inl e ->
  forall url payload t, notified (EvPost url payload t out) = false.
Proof.
  destruct out as [e' | r]; simpl; [reflexivity|].
  destruct (status_ok r); [discriminate | reflexivity].
Qed.

(** Lines 151-154, 255-258 and 371-374: notify, then set the entry. *)
Lemma rule_announce {A} (yes : A) v id content embed (after otherwise : M A) :
  py_eq v id = false ->
  py_item embed "url" = inr (JStr (url_of id)) ->
  py_truthy embed = true ->
  (forall s, fst (after s) = inr yes /\ unchanged_run s (snd (after s))) ->
  keeps no_notification otherwise ->
  update_rule W k url_of yes (cached_is k v)
    (sent <- send_discord_webhook W L content (Some embed) false false;;
     if sent then cache_set k id;; after else otherwise).
Proof.
  intros Hne Hurl Htruthy Hafter Hother s (d & Hc & Hv).
  unfold bind. rewrite send_discord_webhook_run. cbv zeta.
  set (url := match DISCORD_WEBHOOK_URL W with Some u => u | None => "" end).
  set (payload := webhook_payload W content (Some embed) false).
  set (s1 := {| cache := cache s; trace := _ :: _ :: trace s |}).
  set (out := requests_post W (trace s1) url payload 30).
  destruct (opt_truthy (DISCORD_WEBHOOK_URL W)) eqn:Hhook.
  - destruct (attempt_result out) as [e | r] eqn:Hout.
    + left. apply unchanged_run_within.
      eapply within_trans; [|apply Hother].
      split; [reflexivity|]. cbn [trace cache].
      eexists [_; _; _; _]. split; [reflexivity|].
      repeat constructor.
      apply (attempt_result_failed _ _ Hout).
    + right. apply attempt_result_ok in Hout as [Hout Hok].
      unfold cache_set. cbn [cache trace]. rewrite Hc.
      set (s3 := {| cache := JObj (assoc_set k id d); trace := _ |}).
      destruct (Hafter s3) as [Hr [Hc4 (evs & Ht4 & Hq4)]].
      split; [|exact Hr].
      exists d, id, url, payload, r,
        [EvLog INFO ("payload: " ++ py_repr L payload);
         EvLog INFO ("sending discord webhook to: " ++ url)],
        (evs ++ [EvLog INFO "discord message sent successfully!"])%list.
      repeat split.
      * exact Hc.
      * rewrite Hv. exact Hne.
      * rewrite Hc4. reflexivity.
      * rewrite Ht4. unfold s3. cbn [trace]. rewrite Hout.
        rewrite <- app_assoc. reflexivity.
      * exact Hok.
      * unfold url. destruct (DISCORD_WEBHOOK_URL W); [reflexivity|].
        discriminate Hhook.
      * exists content, embed. split; [|exact Hurl].
        unfold payload, webhook_payload. rewrite Htruthy. reflexivity.
      * repeat constructor.
      * apply Forall_app. split; [exact Hq4 | repeat constructor].
  - left. apply unchanged_run_within.
    eapply within_trans; [|apply Hother].
    split; [reflexivity|]. cbn [trace cache].
    eexists [_]. split; [reflexivity|]. repeat constructor.
Qed.

End UpdateRule.

Ltac quiet_side :=
  solve [ keeps_auto;
          eauto using keeps_youtube_videos_call, keeps_youtube_search_call,
                      keeps_youtube_build_call, keeps_youtube_nothing_new,
                      keeps_instagram_nothing_new, keeps_make_request,
                      keeps_response_json, no_notification_allows_get,
                      no_notification_allows_youtube ].

Ltac rule_step :=
  match goal with
  | |- update_rule _ _ _ _ _ (bind (lift _) _) =>
      apply rule_bind_lift; intros ? ?
  | |- update_rule _ ?k _ _ _ (bind (cache_get ?k) _) =>
      apply rule_cache_get; intro
  | |- update_rule _ _ _ _ _ (try_catch _ _) =>
      apply rule_try_catch; [|intro; quiet_side]
  | |- update_rule _ _ _ _ _ (bind _ _) =>
      apply rule_bind_quiet; [quiet_side | intro]
  | |- update_rule _ _ _ _ _ (if ?b then _ else _) => destruct b eqn:?
  | |- update_rule _ _ _ _ _ (match ?x with _ => _ end) =>
      tryif is_var x then destruct x else destruct x eqn:?
  | |- update_rule _ _ _ _ _ _ => apply rule_quiet; quiet_side
  end.

Section UpdateRuleProgram.

Context (W : world) (L : pylib).

Lemma log_then_ret {A} (yes : A) l m s :
  fst ((log l m;; ret yes) s) = inr yes
  /\ unchanged_run s (snd ((log l m;; ret yes) s)).
Proof.
  split; [reflexivity|]. split; [reflexivity|].
  exists [EvLog l m]. split; [reflexivity | repeat constructor].
Qed.

Lemma rule_youtube_announce v video_id :
  py_eq v video_id = false ->
  update_rule W youtube_cache_key (youtube_url L) true
    (cached_is youtube_cache_key v) (youtube_announce W L video_id).
Proof.
  intros Hne. unfold youtube_announce. repeat rule_step.
  match goal with
  | H : youtube_card _ _ _ = inr _ |- _ =>
      apply youtube_card_fields in H
        as (snippet & description & shown & thumbnail & views
            & _ & _ & _ & _ & -> & _)
  end.
  apply rule_announce; try assumption; try reflexivity.
  - intros st. apply log_then_ret.
  - apply keeps_ret.
Qed.

Lemma rule_check_youtube_impl pre :
  update_rule W youtube_cache_key (youtube_url L) true pre
    (_check_youtube_impl W L).
Proof.
  unfold _check_youtube_impl. repeat rule_step.
  eapply rule_weaken; [|apply rule_youtube_announce; eassumption].
  auto.
Qed.

Lemma rule_check_youtube pre :
  update_rule W youtube_cache_key (youtube_url L) true pre
    (check_youtube W L).
Proof.
  unfold check_youtube. repeat rule_step.
  apply rule_check_youtube_impl.
Qed.

Local Abbreviation ig_rule yes pre m :=
  (update_rule W instagram_cache_key (instagram_url_of L) yes pre m).

Lemma rule_process_instagram_post pre post_data :
  ig_rule true pre (_process_instagram_post W L post_data).
Proof.
  unfold _process_instagram_post. repeat rule_step.
  match goal with
  | H : instagram_card _ _ _ = inr _ |- _ =>
      apply instagram_card_fields in H
        as (is_video & image_url & caption & shown
            & _ & _ & _ & _ & _ & -> & _)
  end.
  apply rule_announce.
  - assumption.
  - destruct (py_truthy image_url); reflexivity.
  - destruct (py_truthy image_url); reflexivity.
  - intros st. apply log_then_ret.
  - apply keeps_ret.
Qed.

Lemma rule_process_instagram_json pre data :
  ig_rule (Some true) pre (_process_instagram_json W L data).
Proof.
  unfold _process_instagram_json. repeat rule_step.
  apply rule_bind with (yes := true).
  - apply rule_process_instagram_post.
  - reflexivity.
  - intro. repeat rule_step.
Qed.

Lemma rule_shared_data_posts pre json_text :
  ig_rule (Some true) pre (shared_data_posts W L json_text).
Proof.
  unfold shared_data_posts. repeat rule_step.
  apply rule_bind with (yes := true).
  - apply rule_process_instagram_post.
  - reflexivity.
  - intro. repeat rule_step.
Qed.

Lemma rule_scan_scripts pre scripts :
  ig_rule (Some true) pre (scan_scripts W L scripts).
Proof.
  induction scripts as [|script rest IH]; simpl.
  - repeat rule_step.
  - repeat rule_step; try exact IH.
    apply rule_bind with (yes := Some true).
    + apply rule_try_catch; [apply rule_shared_data_posts|].
      intro; quiet_side.
    + reflexivity.
    + intros [b|]; [repeat rule_step | exact IH].
Qed.

Lemma rule_process_instagram_html pre html :
  ig_rule (Some true) pre (_process_instagram_html W L html).
Proof.
  unfold _process_instagram_html. repeat rule_step.
  apply rule_bind with (yes := Some true).
  - apply rule_scan_scripts.
  - reflexivity.
  - intros [b|]; repeat rule_step.
    apply rule_bind with (yes := true).
    + apply rule_process_instagram_post.
    + reflexivity.
    + intro. repeat rule_step.
Qed.

Lemma rule_instagram_json_api pre :
  ig_rule (Some (Some true)) pre (instagram_json_api W L).
Proof.
  unfold instagram_json_api, instagram_json_api_body. repeat rule_step.
  apply rule_bind with (yes := Some true).
  - apply rule_process_instagram_json.
  - reflexivity.
  - intro. repeat rule_step.
Qed.

Lemma rule_instagram_profile_page pre :
  ig_rule (Some true) pre (instagram_profile_page W L).
Proof.
  unfold instagram_profile_page. repeat rule_step.
  apply rule_process_instagram_html.
Qed.

Lemma rule_check_instagram_web pre :
  ig_rule (Some true) pre (_check_instagram_web W L).
Proof.
  unfold _check_instagram_web. repeat rule_step.
  apply rule_bind with (yes := Some (Some true)).
  - apply rule_instagram_json_api.
  - reflexivity.
  - intros [r|]; [repeat rule_step | apply rule_instagram_profile_page].
Qed.

Lemma rule_check_instagram_rss pre :
  ig_rule (Some true) pre (_check_instagram_rss W L).
Proof.
  unfold _check_instagram_rss. repeat rule_step.
  match goal with
  | H : rss_card _ _ = (_, _) |- _ =>
      unfold rss_card in H; injection H as <- <-
  end.
  apply rule_announce.
  - assumption.
  - destruct (opt_truthy _); reflexivity.
  - destruct (opt_truthy _); reflexivity.
  - intros st. apply log_then_ret.
  - apply keeps_ret.
Qed.

Lemma rule_try_methods pre methods :
  Forall (fun nm => forall pre, ig_rule (Some true) pre (snd nm)) methods ->
  ig_rule true pre (try_methods methods).
Proof.
  induction 1 as [|[name m] rest Hm _ IH]; simpl.
  - repeat rule_step.
  - apply rule_bind with (yes := Some true).
    + apply rule_try_catch; [apply Hm|]. intro; quiet_side.
    + reflexivity.
    + intros [b|]; [repeat rule_step | exact IH].
Qed.

Lemma rule_check_instagram pre :
  ig_rule true pre (check_instagram W L).
Proof.
  unfold check_instagram. repeat rule_step. apply rule_try_methods.
  apply Forall_cons; [|apply Forall_cons; [|apply Forall_nil]]; simpl; intro.
  - apply rule_check_instagram_web.
  - apply rule_check_instagram_rss.
Qed.

End UpdateRuleProgram.

(** Induction on a JSON value, with the property for the elements of a list
    and for the values of a dict. *)
Lemma jval_nested_ind (P : jval -> Prop) :
  P JNull -> (forall b, P (JBool b)) -> (forall n, P (JNum n)) ->
  (forall s, P (JStr s)) ->
  (forall l, Forall P l -> P (JList l)) ->
  (forall d, Forall (fun entry => P (snd entry)) d -> P (JObj d)) ->
  forall v, P v.
Proof.
  intros Hnull Hbool Hnum Hstr Hlist Hobj.
  fix IH 1. intros [ | b | n | s | l | d].
  - exact Hnull.
  - apply Hbool.
  - apply Hnum.
  - apply Hstr.
  - apply Hlist. induction l as [|a l IHl]; constructor; [apply IH | exact IHl].
  - apply Hobj.
    induction d as [|[key a] d IHd]; constructor; [apply IH | exact IHd].
Qed.

Lemma py_eq_refl : forall v, py_eq v v = true.
Proof.
  induction v as [ | b | n | s | l IHl | d IHd] using jval_nested_ind;
    cbn [py_eq].
  - reflexivity.
  - destruct b; reflexivity.
  - apply Z.eqb_refl.
  - apply String.eqb_refl.
  - induction IHl as [|a l Ha _ IH]; [reflexivity|].
    rewrite Ha. exact IH.
  - rewrite Nat.eqb_refl. cbn [andb].
    apply forallb_forall. intros [k a] Hin.
    apply existsb_exists. exists (k, a). split; [exact Hin|].
    rewrite String.eqb_refl.
    rewrite Forall_forall in IHd. exact (IHd (k, a) Hin).
Qed.

(** The order of the entries of a dict does not matter. *)
Lemma py_eq_dict_order :
  py_eq (JObj [("a", JNum 1); ("b", JNum 2)])
        (JObj [("b", JNum 2); ("a", JNum 1)]) = true
  /\ py_eq (JObj [("a", JNum 1); ("b", JNum 2)])
           (JObj [("b", JNum 2); ("a", JNum 3)]) = false.
Proof. split; reflexivity. Qed.

Lemma announced_run_changes W k url_of s s' :
  announced_run W k url_of s s' -> cache s' <> cache s.
Proof.
  intros (d & id & hook & payload & r & before & after
          & Hd & Hne & Hc & _) Heq.
  rewrite Hc, Hd in Heq. injection Heq as Heq.
  assert (Hk : cached_value k d = id).
  { unfold cached_value. rewrite <- Heq at 1. rewrite assoc_set_same.
    reflexivity. }
  rewrite Hk, py_eq_refl in Hne. discriminate Hne.
Qed.

(** The cache changes exactly when a notification was reported as sent. *)
Lemma update_rule_iff {A} W k url_of (yes : A) (m : M A) s evs :
  update_rule W k url_of yes any_cache m ->
  trace (snd (m s)) = (evs ++ trace s)%list ->
  (cache (snd (m s)) <> cache s
   <-> Exists (fun ev => notified ev = true) evs).
Proof.
  intros Hm Ht. destruct (Hm s I) as [[Hc (evs0 & Ht0 & Hq)] | [Ha _]].
  - rewrite Ht in Ht0. apply app_inv_tail in Ht0. subst evs0. split.
    + intros Hne. contradiction.
    + intros Hex. apply Exists_exists in Hex as (ev & Hin & Hev).
      rewrite Forall_forall in Hq. rewrite (Hq ev Hin) in Hev.
      discriminate Hev.
  - split; [|intros _; eapply announced_run_changes; exact Ha].
    intros _.
    destruct Ha as (d & id & hook & payload & r & before & after
                    & _ & _ & _ & Ht' & Hok & _).
    rewrite Ht in Ht'. rewrite app_comm_cons, app_assoc in Ht'.
    apply app_inv_tail in Ht'. subst evs.
    apply Exists_app. right. apply Exists_cons_hd. exact Hok.
Qed.

(** C1.  In every run of a checker the cache entry is updated if and only if
    the notifier reported the notification as sent in that run.  Either no
    notification is reported as sent (none was attempted, or it failed) and
    the cache is left as it was; or one notification was sent, for an item
    that differs from the cached one, the checker's entry is then set to
    that item's identifier, and the checker returns [True]. *)
Theorem cache_updated_iff_notified (W : world) (L : pylib) (s : state) :
  let sy := run_state (check_youtube W L) s in
  let si := run_state (check_instagram W L) s in
  (unchanged_run s sy
   \/ (announced_run W youtube_cache_key (youtube_url L) s sy
       /\ run_result (check_youtube W L) s = inr true))
  /\ (forall evs, trace sy = (evs ++ trace s)%list ->
        (cache sy <> cache s <-> Exists (fun ev => notified ev = true) evs))
  /\ (unchanged_run s si
      \/ (announced_run W instagram_cache_key (instagram_url_of L) s si
          /\ run_result (check_instagram W L) s = inr true))
  /\ (forall evs, trace si = (evs ++ trace s)%list ->
        (cache si <> cache s <-> Exists (fun ev => notified ev = true) evs)).
Proof.
  intros sy si. repeat apply conj.
  - apply (rule_check_youtube W L any_cache s I).
  - intros evs Ht.
    apply (update_rule_iff W youtube_cache_key (youtube_url L) true
             (check_youtube W L) s evs);
      [apply rule_check_youtube | exact Ht].
  - apply (rule_check_instagram W L any_cache s I).
  - intros evs Ht.
    apply (update_rule_iff W instagram_cache_key (instagram_url_of L) true
             (check_instagram W L) s evs);
      [apply rule_check_instagram | exact Ht].
Qed.

(** A new video with a webhook that answers 204: the notification is sent
    and the cache changes.  With a webhook that answers 500 no notification
    is reported as sent and the cache does not change. *)
Lemma cache_updated_iff_notified_witness :
  cache (run_state (check_youtube (youtube_world "xyz789" "Hello") demo_lib)
           seen_state) <> cache seen_state
  /\ ~ (cache (run_state (check_youtube (failing_hook_world "xyz789" "Hello")
                            demo_lib) seen_state) <> cache seen_state).
Proof.
  split.
  - pose proof (cache_updated_iff_notified (youtube_world "xyz789" "Hello")
                  demo_lib seen_state) as H; cbv zeta in H.
    apply (proj1 (proj2 H)
             (firstn 10 (trace (run_state
                (check_youtube (youtube_world "xyz789" "Hello") demo_lib)
                seen_state))) eq_refl).
    vm_compute. do 2 apply Exists_cons_tl. apply Exists_cons_hd. reflexivity.
  - pose proof (cache_updated_iff_notified
                  (failing_hook_world "xyz789" "Hello") demo_lib seen_state)
      as H; cbv zeta in H.
    intros Hne.
    apply (proj1 (proj2 H)
             (firstn 9 (trace (run_state
                (check_youtube (failing_hook_world "xyz789" "Hello") demo_lib)
                seen_state))) eq_refl) in Hne.
    vm_compute in Hne.
    repeat match goal with
           | H : Exists _ (_ :: _) |- _ =>
               apply Exists_cons in H; destruct H as [H | H];
               [discriminate H|]
           | H : Exists _ [] |- _ => inversion H
           end.
Defined.

(** ** Nothing new *)

Lemma yields_ret {A} (v : A) : yields v (ret v).
Proof. intros s a H. simpl in H. injection H as <-. reflexivity. Qed.

Lemma yields_raise {A} (v : A) e : yields v (raise e).
Proof. intros s a H. discriminate H. Qed.

Lemma yields_bind {A B} (v : B) (m : M A) (f : A -> M B) :
  (forall a, yields v (f a)) -> yields v (bind m f).
Proof.
  intros Hf s b. unfold bind.
  destruct (m s) as [[e | a] s']; [discriminate|]. apply Hf.
Qed.

Lemma yields_try_catch {A} (v : A) (m : M A) (h : exn -> M A) :
  yields v m -> (forall e, yields v (h e)) -> yields v (try_catch m h).
Proof.
  intros Hm Hh s a. unfold try_catch. specialize (Hm s).
  destruct (m s) as [[e | a'] s']; [apply Hh | exact (Hm a)].
Qed.

Ltac yields_step :=
  match goal with
  | |- yields _ (bind _ _) => apply yields_bind; intro
  | |- yields _ (try_catch _ _) => apply yields_try_catch; [|intro]
  | |- yields _ (ret _) => apply yields_ret
  | |- yields _ (raise _) => apply yields_raise
  | |- yields _ (if ?b then _ else _) => destruct b
  | |- yields _ (match ?x with _ => _ end) => destruct x
  end.


Lemma yields_instagram_nothing_new L post_id post_data :
  yields false (instagram_nothing_new L post_id post_data).
Proof. unfold instagram_nothing_new. repeat yields_step. Qed.

(** A piece that yields [False] and stays within [P], under a handler that
    logs and returns [False]. *)
Lemma nothing_new_outcome P (m : M bool) (h : exn -> M bool) s :
  yields false m -> keeps P m ->
  (forall e, yields false (h e)) -> (forall e, total (h e)) ->
  (forall e, keeps P (h e)) ->
  fst (try_catch m h s) = inr false /\ within P s (snd (try_catch m h s)).
Proof.
  intros Hy Hk Hhy Hht Hhk.
  assert (Hkt : keeps P (try_catch m h))
    by (apply keeps_try_catch; assumption).
  assert (Hyt : yields false (try_catch m h))
    by (apply yields_try_catch; assumption).
  assert (Htt : total (try_catch m h))
    by (apply total_try_catch; assumption).
  destruct (Htt s) as [b Hb]. split; [|apply Hkt].
  rewrite Hb. f_equal. apply (Hyt s b Hb).
Qed.

Lemma within_no_post s s' :
  within no_post s s' ->
  cache s' = cache s
  /\ exists evs,
       trace s' = (evs ++ trace s)%list
       /\ Forall (fun ev => is_post ev = false) evs.
Proof. intros [Hc He]. split; [symmetry; exact Hc | exact He]. Qed.


Lemma newest_video_items resp latest video_id :
  newest_video resp = inr (latest, video_id) ->
  exists items id,
    py_get resp "items" JNull = inr items
    /\ py_truthy items = true
    /\ py_item resp "items" = inr items
    /\ py_first items = inr latest
    /\ py_item latest "id" = inr id
    /\ py_item id "videoId" = inr video_id.
Proof.
  unfold newest_video. intros H. repeat rbind_step H.
  injection H as <- <-.
  match goal with
  | H1 : py_item resp "items" = inr ?i, H2 : py_first ?i = inr _ |- _ =>
      exists i; eexists; repeat split; try eassumption
  end.
  - destruct resp; try discriminate. simpl in *.
    destruct (assoc "items" d); [assumption | discriminate].
  - match goal with
    | H2 : py_first ?i = inr _ |- _ =>
        destruct i as [ | | | [|c str] | [|x l] | ]; try discriminate H2;
        reflexivity
    end.
Qed.

Lemma no_post_allows_get url : allows_get no_post url.
Proof. intros ? ? ?. reflexivity. Qed.

(** Running the monad's plumbing. *)
Ltac run_steps :=
  cbv [bind try_catch emit lift ret raise log];
  cbn [cache trace fst snd negb].

Section NothingNew.

Context (W : world) (L : pylib).


(** Lines 318-340 when the post is the cached one. *)
Lemma process_instagram_post_nothing_new s post_data post_id cached :
  py_get post_data "shortcode" (JStr "") = inr post_id ->
  py_truthy post_id = true ->
  py_get (cache s) instagram_cache_key JNull = inr cached ->
  py_eq cached post_id = true ->
  fst (_process_instagram_post W L post_data s) = inr false
  /\ cache (snd (_process_instagram_post W L post_data s)) = cache s
  /\ exists evs,
       trace (snd (_process_instagram_post W L post_data s))
       = (evs ++ trace s)%list
       /\ Forall (fun ev => is_post ev = false) evs.
Proof.
  intros Hid Htruthy Hcached Heq.
  assert (Hrun :
    _process_instagram_post W L post_data s
    = try_catch (instagram_nothing_new L post_id post_data)
        (fun e =>
           log ERROR ("instagram post processing error: "
                      ++ type_name (kind e) ++ ": " ++ msg e);;
           ret false) s).
  { unfold _process_instagram_post, cache_get. run_steps.
    rewrite Hid. run_steps. rewrite Htruthy. run_steps.
    rewrite Hcached. run_steps. rewrite Heq. reflexivity. }
  rewrite Hrun.
  match goal with
  | |- context [try_catch ?m ?h ?st] =>
      destruct (nothing_new_outcome no_post m h st) as (Hr & Hw)
  end.
  - apply yields_instagram_nothing_new.
  - apply keeps_instagram_nothing_new.
  - intro. repeat yields_step.
  - intro. repeat total_step.
  - intro. keeps_auto.
  - split; [exact Hr | apply within_no_post, Hw].
Qed.




Lemma check_instagram_rss_decides s s1 b s2 :
  _check_instagram_web W L (instagram_started s) = (inr None, s1) ->
  _check_instagram_rss W L s1 = (inr (Some b), s2) ->
  check_instagram W L s = (inr b, s2).
Proof.
  intros Hweb Hrss. unfold check_instagram, try_methods. run_steps.
  fold (instagram_started s). rewrite Hweb. run_steps. rewrite Hrss.
  reflexivity.
Qed.

Lemma check_instagram_inconclusive s s1 s2 :
  _check_instagram_web W L (instagram_started s) = (inr None, s1) ->
  _check_instagram_rss W L s1 = (inr None, s2) ->
  check_instagram W L s
  = (inr false,
     {| cache := cache s2;
        trace := EvLog ERROR "all instagram scraping methods failed"
                 :: trace s2 |}).
Proof.
  intros Hweb Hrss. unfold check_instagram, try_methods. run_steps.
  fold (instagram_started s). rewrite Hweb. run_steps. rewrite Hrss.
  reflexivity.
Qed.



(** *** A strategy that makes a POST is decided *)






End NothingNew.



Section Decided.

Context (W : world) (L : pylib).









End Decided.




(** ** Runs of the notifier, the fetcher and the post pipeline in one
    equation *)

Lemma delivered_attempt_result out :
  delivered out = match attempt_result out with
                  | inr _ => true
                  | inl _ => false
                  end.
Proof.
  destruct out as [e | r]; simpl; [reflexivity|].
  destruct (status_ok r); reflexivity.
Qed.

(** The notifier with a configured URL, in one equation. *)
Lemma send_discord_webhook_configured W L content embed (lg mention : bool)
    url s :
  (if lg then DISCORD_LOG_WEBHOOK_URL W else DISCORD_WEBHOOK_URL W)
  = Some url ->
  url <> "" ->
  send_discord_webhook W L content embed lg mention s
  = (inr (delivered
            (notifier_answer W L url (webhook_payload W content embed mention)
               s)),
     notified_state W L url (webhook_payload W content embed mention) s).
Proof.
  intros Hurl Hne. rewrite send_discord_webhook_run. cbv zeta.
  rewrite Hurl. cbn [opt_truthy].
  destruct (String.eqb_spec url ""); [contradiction|]. cbn [negb].
  unfold notified_state, notifier_answer, notifying. cbn [trace cache].
  rewrite delivered_attempt_result.
  destruct (attempt_result _); reflexivity.
Qed.

Section Shared.

Context (W : world) (L : pylib).

Lemma send_discord_webhook_cache content embed (lg mention : bool) s :
  cache (snd (send_discord_webhook W L content embed lg mention s)) = cache s.
Proof.
  rewrite send_discord_webhook_run. cbv zeta.
  destruct (opt_truthy _); [|reflexivity].
  destruct (attempt_result _); reflexivity.
Qed.

Lemma make_request_cache url h t s :
  cache (snd (_make_request W url h t s)) = cache s.
Proof.
  destruct (keeps_make_request W no_post url h t (no_post_allows_get url) s)
    as [Hc _].
  symmetry. exact Hc.
Qed.

Lemma scan_scripts_skip script rest s :
  script_unusable L script ->
  scan_scripts W L (script :: rest) s = scan_scripts W L rest s.
Proof.
  unfold script_unusable, script_json. cbn [scan_scripts].
  destruct script as [str|]; [|reflexivity].
  destruct (negb (String.eqb str "") && _); [|reflexivity].
  destruct (re_shared_data L str) as [json_text|]; [|reflexivity].
  intros Hj. unfold shared_data_posts. run_steps. rewrite Hj. reflexivity.
Qed.

Lemma scan_scripts_app skipped rest s :
  Forall (script_unusable L) skipped ->
  scan_scripts W L (skipped ++ rest) s = scan_scripts W L rest s.
Proof.
  induction 1 as [|script skipped Hscript _ IH]; [reflexivity|].
  rewrite <- app_comm_cons, scan_scripts_skip by exact Hscript. exact IH.
Qed.

(** Lines 342-380 for a post that is not the cached one. *)
Lemma process_instagram_post_announce (s : state) (post_data post_id : jval)
    (d : list (string * jval)) (post_type : string) (embed : jval)
    (content url : string) :
  instagram_finds s post_data post_id d ->
  instagram_card L post_id post_data = inr (post_type, embed, content) ->
  DISCORD_WEBHOOK_URL W = Some url ->
  url <> "" ->
  let payload := webhook_payload W content (Some embed) false in
  let out := notifier_answer W L url payload s in
  let s' := notified_state W L url payload s in
  _process_instagram_post W L post_data s
  = if delivered out
    then (inr true,
          {| cache := JObj (assoc_set instagram_cache_key post_id d);
             trace := EvLog INFO ("posted new instagram " ++ post_type ++ ": "
                                  ++ py_str L post_id) :: trace s' |})
    else (inr false, s').
Proof.
  intros (Hid & Htruthy & Hcache & Hneq) Hcard Hurl Hne payload out s'.
  unfold cached_value in Hneq.
  unfold _process_instagram_post, cache_get. run_steps.
  rewrite Hid. run_steps. rewrite Htruthy. run_steps.
  rewrite Hcache. cbn [py_get]. rewrite Hneq. run_steps.
  rewrite Hcard. run_steps.
  rewrite (send_discord_webhook_configured W L content (Some embed) false
             false url s Hurl Hne).
  fold payload. fold out. fold s'.
  destruct (delivered out); [|reflexivity].
  unfold cache_set. run_steps.
  change (cache s') with (cache s). rewrite Hcache. reflexivity.
Qed.

End Shared.

(** ** The order of the Instagram strategies *)

Section Fallback.

Context (W : world) (L : pylib).










End Fallback.




(** ** The cards of the Instagram strategies *)

Section InstagramCards.

Context (W : world) (L : pylib).





End InstagramCards.




(** * Further properties

    ** The notifier *)

(** X1.  With its webhook URL configured the notifier makes exactly one
    POST, to that URL, with the payload of lines 57-61 and timeout 30, and
    no retry; besides it only logs.  It never raises and never touches the
    cache.  It returns [True] exactly when the POST was answered with a
    status that is not 4xx or 5xx. *)
Theorem notifier_posts_once (W : world) (L : pylib) (content : string)
    (embed : option jval) (lg mention : bool) (url : string) (s : state) :
  (if lg then DISCORD_LOG_WEBHOOK_URL W else DISCORD_WEBHOOK_URL W)
  = Some url ->
  url <> "" ->
  let payload := webhook_payload W content embed mention in
  let run := send_discord_webhook W L content embed lg mention s in
  let out := notifier_answer W L url payload s in
  exists evs,
    snd run = {| cache := cache s; trace := (evs ++ trace s)%list |}
    /\ posts evs = [EvPost url payload 30 out]
    /\ Forall (fun ev => is_post ev = true \/ is_log ev = true) evs
    /\ fst run = inr (delivered out)
    /\ (fst run = inr true
        <-> exists r, out = inr r
                      /\ ~ (400 <= status_code r < 600)).
Proof.
  intros Hurl Hne payload run out. unfold run.
  rewrite (send_discord_webhook_configured W L content embed lg mention url s
             Hurl Hne).
  fold payload. fold out.
  eexists [_; EvPost url payload 30 out; _; _].
  cbn [fst snd]. repeat split.
  - repeat (apply Forall_cons;
            [first [left; reflexivity | right; reflexivity]|]).
    apply Forall_nil.
  - intros [= H]. destruct out as [e | r]; simpl in H; [discriminate|].
    exists r. split; [reflexivity|]. unfold status_ok in H.
    intros [Hlo Hhi]. apply Z.leb_le in Hlo. apply Z.ltb_lt in Hhi.
    rewrite Hlo, Hhi in H. discriminate H.
  - intros (r & -> & Hr). simpl. f_equal. unfold status_ok.
    destruct (Z.leb_spec 400 (status_code r));
      destruct (Z.ltb_spec (status_code r) 600); try reflexivity.
    exfalso. apply Hr. lia.
Qed.

(** The notifier in a world whose webhooks answer 204, and in one whose
    webhooks answer 500. *)
Lemma notifier_posts_once_witness :
  fst (send_discord_webhook (youtube_world "xyz789" "Hello") demo_lib "hi"
         None true false boot) = inr true
  /\ ~ (fst (send_discord_webhook (failing_hook_world "xyz789" "Hello")
               demo_lib "hi" None false false boot) = inr true).
Proof.
  split.
  - destruct (notifier_posts_once (youtube_world "xyz789" "Hello") demo_lib
                "hi" None true false "https://discord.test/log" boot
                eq_refl) as (evs & _ & _ & _ & Hr & _);
      [discriminate|].
    rewrite Hr. reflexivity.
  - destruct (notifier_posts_once (failing_hook_world "xyz789" "Hello")
                demo_lib "hi" None false false "https://discord.test/hook"
                boot eq_refl) as (evs & _ & _ & _ & Hr & _);
      [discriminate|].
    rewrite Hr. discriminate.
Defined.

(** ** The fetcher's effects *)

(** X2.  A call of [_make_request] does nothing but GET the requested URL
    (with the given headers and timeout), one to three times, and wait
    between two attempts: one wait less than there are GETs.  It leaves the
    cache alone.  A response that it returns is the answer to its last GET
    and never has a 4xx or 5xx status. *)
Theorem make_request_effects (W : world) (url : string) (h : headers) (t : Z)
    (s : state) :
  let run := _make_request W url h t s in
  exists evs,
    snd run = {| cache := cache s; trace := (evs ++ trace s)%list |}
    /\ Forall (fun ev => ev = EvBackoff \/ exists out, ev = EvGet url h t out)
         evs
    /\ gets evs = S (backoffs evs)
    /\ (gets evs <= 3)%nat
    /\ (forall r, fst run = inr r ->
          status_ok r = true
          /\ exists rest, evs = EvGet url h t (inr r) :: rest).
Proof.
  intros run. unfold run, _make_request.
  set (out := fun st => requests_get W (trace st) url h t).
  set (s1 := backed_off (after_attempt W url h t s)).
  set (s2 := backed_off (after_attempt W url h t s1)).
  assert (Hfinal : forall st r,
            attempt_result (out st) = inr r ->
            status_ok r = true /\ out st = inr r).
  { intros st r Hr. apply attempt_result_ok in Hr. tauto. }
  assert (Hparts : forall evs (res : res response) last,
            Forall (fun ev => ev = EvBackoff
                              \/ exists o, ev = EvGet url h t o) evs ->
            gets evs = S (backoffs evs) -> (gets evs <= 3)%nat ->
            (forall r, res = inr r ->
               status_ok r = true
               /\ exists rest, evs = EvGet url h t (inr r) :: rest) ->
            last = {| cache := cache s; trace := (evs ++ trace s)%list |} ->
            exists evs',
              snd (res, last)
              = {| cache := cache s; trace := (evs' ++ trace s)%list |}
              /\ Forall (fun ev => ev = EvBackoff
                                   \/ exists o, ev = EvGet url h t o) evs'
              /\ gets evs' = S (backoffs evs')
              /\ (gets evs' <= 3)%nat
              /\ (forall r, fst (res, last) = inr r ->
                    status_ok r = true
                    /\ exists rest, evs' = EvGet url h t (inr r) :: rest)).
  { intros evs res last Hf Hg Hb Hr ->. exists evs. cbn [fst snd]. auto. }
  assert (Hlast : forall st rest r,
            attempt_result (out st) = inr r ->
            status_ok r = true
            /\ exists rest', EvGet url h t (out st) :: rest
                             = EvGet url h t (inr r) :: rest').
  { intros st rest r Hr. destruct (Hfinal st r Hr) as [Hok Ho].
    split; [exact Hok|]. rewrite Ho. eauto. }
  destruct (retryable (out s)) eqn:H0.
  - rewrite retrying_again by exact H0. fold s1.
    destruct (retryable (out s1)) eqn:H1.
    + rewrite retrying_again by exact H1. fold s2.
      destruct (retryable (out s2)) eqn:H2.
      * rewrite retrying_exhausted by exact H2.
        apply (Hparts [EvGet url h t (out s2); EvBackoff;
                       EvGet url h t (out s1); EvBackoff;
                       EvGet url h t (out s)]);
          try reflexivity; try (cbv; lia).
        -- repeat (constructor; [first [left; reflexivity | right; eauto]|]).
           constructor.
        -- intros r [=].
      * rewrite retrying_final by exact H2.
        apply (Hparts [EvGet url h t (out s2); EvBackoff;
                       EvGet url h t (out s1); EvBackoff;
                       EvGet url h t (out s)]);
          try reflexivity; try (cbv; lia).
        -- repeat (constructor; [first [left; reflexivity | right; eauto]|]).
           constructor.
        -- intros r Hr. apply (Hlast s2 _ r Hr).
    + rewrite retrying_final by exact H1.
      apply (Hparts [EvGet url h t (out s1); EvBackoff;
                     EvGet url h t (out s)]);
        try reflexivity; try (cbv; lia).
      * repeat (constructor; [first [left; reflexivity | right; eauto]|]).
        constructor.
      * intros r Hr. apply (Hlast s1 _ r Hr).
  - rewrite retrying_final by exact H0.
    apply (Hparts [EvGet url h t (out s)]);
      try reflexivity; try (cbv; lia).
    + repeat (constructor; [first [left; reflexivity | right; eauto]|]).
      constructor.
    + intros r Hr. apply (Hlast s _ r Hr).
Qed.

(** The profile page answered with status 200 at the first attempt. *)
Lemma make_request_effects_witness :
  status_ok {| status_code := 200; text := "<a href=/p/Cxyz123/>" |} = true.
Proof.
  destruct (make_request_effects profile_page_world profile_url web_headers 15
              boot) as (evs & _ & _ & _ & _ & Hr).
  apply (Hr {| status_code := 200; text := "<a href=/p/Cxyz123/>" |} eq_refl).
Defined.

(** ** Bounds on the text of a card *)

Lemma length_append a b :
  String.length (a ++ b) = (String.length a + String.length b)%nat.
Proof.
  induction a as [|c a IH]; simpl; [reflexivity|]. rewrite IH. reflexivity.
Qed.

Lemma str_take_length_le n s : (String.length (str_take n s) <= n)%nat.
Proof.
  revert s. induction n as [|n IH]; intros s.
  - destruct s; simpl; lia.
  - destruct s as [|c s]; simpl; [lia|]. specialize (IH s). lia.
Qed.

(** X3.  The description of a video card has at most 203 characters and the
    description of a post card at most 303, whatever the length of the text
    they come from; the description of a post card is never empty.  A
    description or caption that is [None], a boolean or a number raises
    [TypeError]: no card is built. *)
Theorem card_text_is_bounded :
  (forall d, exists shown,
     youtube_description (JStr d) = inr (JStr shown)
     /\ (String.length shown <= 203)%nat)
  /\ (forall c, exists shown,
        instagram_description (JStr c) = inr (JStr shown)
        /\ (0 < String.length shown <= 303)%nat)
  /\ (forall v,
        match v with
        | JNull | JBool _ | JNum _ =>
            (exists e, youtube_description v = inl e /\ kind e = TypeError)
            /\ (exists e, instagram_description v = inl e
                          /\ kind e = TypeError)
        | _ => True
        end).
Proof.
  repeat apply conj.
  - intros d. rewrite youtube_description_str. eexists. split; [reflexivity|].
    destruct (Nat.ltb_spec 200 (String.length d)) as [H | H]; [|lia].
    rewrite length_append. pose proof (str_take_length_le 200 d).
    change (String.length "...") with 3%nat. lia.
  - intros c. rewrite instagram_description_str. eexists.
    split; [reflexivity|].
    destruct (Nat.ltb_spec 300 (String.length c)) as [H | H].
    + rewrite length_append. pose proof (str_take_length_le 300 c).
      change (String.length "...") with 3%nat. lia.
    + destruct (String.eqb_spec c "") as [-> | Hne].
      * change (String.length "New Instagram post") with 18%nat. lia.
      * destruct c; [contradiction | simpl in *; lia].
  - intros [ | b | n | str | l | d]; try exact I;
      split; eexists; split; reflexivity.
Qed.

(** X16.  The card of a post that comes with its shortcode only - as the
    post found through a link of the profile page does - is the card of a
    ["post"] with the title ["Instagram Post"], the default description
    ["New Instagram post"] and no image: the keys [is_video],
    [display_url], [edge_media_preview_like] and [edge_media_to_caption] all
    have defaults, and building the card does not raise. *)
Theorem card_of_bare_post (L : pylib) (post_id : jval)
    (d : list (string * jval)) :
  assoc "is_video" d = None ->
  assoc "display_url" d = None ->
  assoc "edge_media_preview_like" d = None ->
  assoc "edge_media_to_caption" d = None ->
  instagram_card L post_id (JObj d)
  = inr ("post",
         JObj [("title", JStr "Instagram Post");
               ("url", JStr (instagram_url (py_str L post_id)));
               ("color", instagram_color);
               ("description", JStr "New Instagram post");
               ("author", instagram_author)],
         "new post on instagram!" ++ nl ++ instagram_url (py_str L post_id)).
Proof.
  intros Hv Hi Hl Hc. unfold instagram_card, instagram_caption.
  cbn [py_get py_in rbind]. rewrite Hv, Hi, Hl, Hc. reflexivity.
Qed.

(** The post of a link of the profile page. *)
Lemma card_of_bare_post_witness :
  instagram_card demo_lib (JStr "Cxyz123") (JObj [("shortcode", JStr "Cxyz123")])
  = inr ("post",
         JObj [("title", JStr "Instagram Post");
               ("url", JStr "https://www.instagram.com/p/Cxyz123/");
               ("color", JNum 14315734);
               ("description", JStr "New Instagram post");
               ("author", instagram_author)],
         "new post on instagram!" ++ nl
         ++ "https://www.instagram.com/p/Cxyz123/").
Proof.
  apply (card_of_bare_post demo_lib (JStr "Cxyz123")
           [("shortcode", JStr "Cxyz123")]); reflexivity.
Defined.

(** ** The video checker *)

Lemma opt_truthy_some key : key <> "" -> opt_truthy (Some key) = true.
Proof.
  intros Hne. simpl. destruct (String.eqb_spec key ""); [contradiction|].
  reflexivity.
Qed.

(** A reply with items has them under its key. *)
Lemma py_get_truthy_item v k items :
  py_get v k JNull = inr items -> py_truthy items = true ->
  py_item v k = inr items.
Proof.
  destruct v; try discriminate. simpl.
  destruct (assoc k d); intros [= <-]; [reflexivity | discriminate].
Qed.

Lemma py_item_get v k x dflt : py_item v k = inr x -> py_get v k dflt = inr x.
Proof.
  destruct v; try discriminate. simpl.
  destruct (assoc k d); [intros [= <-]; reflexivity | discriminate].
Qed.

Lemma py_first_truthy v x : py_first v = inr x -> py_truthy v = true.
Proof.
  destruct v as [ | | | [|c str] | [|y l] | ]; try discriminate; reflexivity.
Qed.

(** The checker up to the answer of the search. *)
Ltac youtube_prefix Hready :=
  let Himport := fresh "Himport" in
  let Hkey := fresh "Hkey" in
  let Hne := fresh "Hne" in
  let Hbuild := fresh "Hbuild" in
  destruct Hready as (Himport & Hkey & Hne & Hbuild);
  unfold youtube_searched, youtube_asking, youtube_started, youtube_channel
    in *;
  cbn [trace cache] in *;
  unfold check_youtube, _check_youtube_impl, youtube_build_call,
    youtube_search_call;
  run_steps; rewrite Himport, Hkey, (opt_truthy_some _ Hne); run_steps;
  rewrite Hbuild; run_steps.

Section ExtraYoutube.

Context (W : world) (L : pylib).

(** X4.  With the client library, a key and a client, a search that finds
    no video ends the check without a request for details and without a
    notification.  When the search raises, when its reply is not a dict, or
    when its first item lacks the video's identifier, the checker logs
    ["youtube api error: ..."] and returns [False]; when the reply has no
    items it logs ["no youtube videos found"] and returns [False].  The
    cache is as it was. *)
Theorem youtube_search_without_video (key : string) (s : state) :
  youtube_ready W key s ->
  let out := youtube_search W (trace (youtube_asking key s)) youtube_channel in
  let s3 := youtube_searched key out s in
  let failed e :=
    (@inr exn bool false, logged ERROR ("youtube api error: " ++ msg e) s3) in
  (forall e, out = inl e -> check_youtube W L s = failed e)
  /\ (forall resp e,
        out = inr resp -> py_get resp "items" JNull = inl e ->
        check_youtube W L s = failed e)
  /\ (forall resp items,
        out = inr resp -> py_get resp "items" JNull = inr items ->
        py_truthy items = false ->
        check_youtube W L s
        = (inr false, logged INFO "no youtube videos found" s3))
  /\ (forall resp items e,
        out = inr resp -> py_get resp "items" JNull = inr items ->
        py_truthy items = true -> newest_video resp = inl e ->
        check_youtube W L s = failed e).
Proof.
  intros Hready out s3 failed. unfold failed, s3, out, logged.
  repeat apply conj.
  - intros e Hout. youtube_prefix Hready. rewrite Hout. reflexivity.
  - intros resp e Hout Hget. youtube_prefix Hready. rewrite Hout. run_steps.
    rewrite Hget. reflexivity.
  - intros resp items Hout Hget Hfalse. youtube_prefix Hready.
    rewrite Hout. run_steps. rewrite Hget. run_steps. rewrite Hfalse.
    reflexivity.
  - intros resp items e Hout Hget Htrue Hnew.
    pose proof (py_get_truthy_item _ _ _ Hget Htrue) as Hitem.
    youtube_prefix Hready.
    rewrite Hout. run_steps. rewrite Hget. run_steps. rewrite Htrue.
    run_steps. rewrite Hitem. run_steps.
    unfold newest_video in Hnew. rewrite Hitem in Hnew. cbn [rbind] in Hnew.
    destruct (py_first items) as [e1 | latest]; cbn [rbind] in Hnew.
    { injection Hnew as ->. reflexivity. }
    run_steps.
    destruct (py_item latest "id") as [e1 | id]; cbn [rbind] in Hnew.
    { injection Hnew as ->. reflexivity. }
    run_steps.
    destruct (py_item id "videoId") as [e1 | video_id]; cbn [rbind] in Hnew.
    { injection Hnew as ->. reflexivity. }
    discriminate Hnew.
Qed.

End ExtraYoutube.

(** A channel without videos, and a search that raises. *)
Lemma youtube_search_without_video_witness :
  fst (check_youtube empty_channel_world demo_lib abc123_state) = inr false
  /\ snd (check_youtube quota_world demo_lib abc123_state)
     = logged ERROR "youtube api error: quotaExceeded"
         (youtube_searched "key" (inl (Exn OtherException "quotaExceeded"))
            abc123_state).
Proof.
  assert (Hready : forall W,
            import_googleapiclient W = None -> YOUTUBE_API_KEY W = Some "key" ->
            (forall t k, youtube_build W t k = None) ->
            youtube_ready W "key" abc123_state).
  { intros W H1 H2 H3. repeat split; auto. discriminate. }
  split.
  - pose proof (youtube_search_without_video empty_channel_world demo_lib "key"
                  abc123_state
                  (Hready empty_channel_world eq_refl eq_refl
                     (fun _ _ => eq_refl))) as H.
    cbv zeta in H. destruct H as (_ & _ & H & _).
    rewrite (H _ (JList []) eq_refl eq_refl eq_refl). reflexivity.
  - pose proof (youtube_search_without_video quota_world demo_lib "key"
                  abc123_state
                  (Hready quota_world eq_refl eq_refl (fun _ _ => eq_refl))) as H.
    cbv zeta in H. destruct H as (H & _).
    rewrite (H _ eq_refl). reflexivity.
Defined.

Section NewVideo.

Context (W : world) (L : pylib).

(** The checker up to the request for the details of a video that is not
    the cached one. *)
Lemma check_youtube_finds key s resp video_id d :
  youtube_finds W key s resp video_id d ->
  check_youtube W L s
  = try_catch
      (try_catch (youtube_announce W L video_id)
         (fun e => log ERROR ("youtube api error: " ++ msg e);; ret false))
      (fun e => log ERROR ("youtube check failed: " ++ msg e);; ret false)
      (youtube_searched key (inr resp) s).
Proof.
  intros (Hready & Hsearch & (latest & Hnewest) & Hcache & Hneq).
  apply newest_video_items in Hnewest
    as (items & id & Hget & Htruthy & Hitems & Hfirst & Hid & Hvid).
  unfold cached_value in Hneq.
  youtube_prefix Hready. unfold cache_get.
  rewrite Hsearch. run_steps.
  rewrite Hget. run_steps. rewrite Htruthy. run_steps.
  rewrite Hitems. run_steps. rewrite Hfirst. run_steps.
  rewrite Hid. run_steps. rewrite Hvid. run_steps.
  rewrite Hcache. cbn [py_get]. rewrite Hneq. reflexivity.
Qed.

(** X5.  A video that is not the cached one, whose details come with what
    the card needs, is announced when the primary webhook is configured: one
    POST of the card is made after the request for the details.  When the
    POST is answered with a status that is not 4xx or 5xx the checker sets
    its cache entry to the video's identifier, logs the title and returns
    [True]; otherwise it returns [False] and leaves the cache as it was. *)
Theorem new_video_is_announced (key : string) (s : state)
    (resp video_id : jval) (d : list (string * jval))
    (details video title embed : jval) (content url : string) :
  youtube_finds W key s resp video_id d ->
  youtube_videos W (trace (youtube_searched key (inr resp) s)) video_id
  = inr details ->
  detailed_video details = inr video ->
  youtube_card L video_id video = inr (title, embed, content) ->
  DISCORD_WEBHOOK_URL W = Some url ->
  url <> "" ->
  let s4 := youtube_detailed key resp video_id (inr details) s in
  let payload := webhook_payload W content (Some embed) false in
  let out := notifier_answer W L url payload s4 in
  let s5 := notified_state W L url payload s4 in
  check_youtube W L s
  = if delivered out
    then (inr true,
          {| cache := JObj (assoc_set youtube_cache_key video_id d);
             trace := EvLog INFO ("posted new youtube video: "
                                  ++ py_str L title) :: trace s5 |})
    else (inr false, s5).
Proof.
  intros Hfinds Hdetails Hvideo Hcard Hurl Hne s4 payload out s5.
  rewrite (check_youtube_finds _ _ _ _ _ Hfinds).
  destruct Hfinds as (_ & _ & _ & Hcache & _).
  unfold detailed_video in Hvideo.
  destruct (py_item details "items") as [|items] eqn:Hitems;
    [discriminate Hvideo|].
  cbn [rbind] in Hvideo.
  pose proof (py_item_get _ _ _ JNull Hitems) as Hget.
  pose proof (py_first_truthy _ _ Hvideo) as Htruthy.
  unfold youtube_announce, youtube_videos_call. run_steps.
  rewrite Hdetails. run_steps. rewrite Hget. run_steps.
  rewrite Htruthy. run_steps. rewrite Hitems. run_steps.
  rewrite Hvideo. run_steps. rewrite Hcard. run_steps.
  change {| cache := cache (youtube_searched key (inr resp) s);
            trace := EvYoutubeVideos video_id (inr details)
                     :: trace (youtube_searched key (inr resp) s) |}
    with s4.
  rewrite (send_discord_webhook_configured W L content (Some embed) false
             false url s4 Hurl Hne).
  fold payload. fold out. fold s5.
  destruct (delivered out); [|reflexivity].
  unfold cache_set. run_steps.
  change (cache s5) with (cache s). rewrite Hcache. reflexivity.
Qed.

(** X6.  A video that is not the cached one is not announced when its
    details cannot be used: when the request for the details raises, when
    the reply is not a dict or its first item cannot be taken, or when the
    card cannot be built from it, the checker logs
    ["youtube api error: ..."] and returns [False]; when the reply has no
    items it returns [False] without a word.  In each case no POST is made
    and the cache is as it was. *)
Theorem new_video_without_card (key : string) (s : state)
    (resp video_id : jval) (d : list (string * jval)) :
  youtube_finds W key s resp video_id d ->
  let out :=
    youtube_videos W (trace (youtube_searched key (inr resp) s)) video_id in
  let s4 := youtube_detailed key resp video_id out s in
  let failed e :=
    (@inr exn bool false, logged ERROR ("youtube api error: " ++ msg e) s4) in
  (forall e, out = inl e -> check_youtube W L s = failed e)
  /\ (forall details e,
        out = inr details -> py_get details "items" JNull = inl e ->
        check_youtube W L s = failed e)
  /\ (forall details items,
        out = inr details -> py_get details "items" JNull = inr items ->
        py_truthy items = false ->
        check_youtube W L s = (inr false, s4))
  /\ (forall details items e,
        out = inr details -> py_get details "items" JNull = inr items ->
        py_truthy items = true -> detailed_video details = inl e ->
        check_youtube W L s = failed e)
  /\ (forall details video e,
        out = inr details -> detailed_video details = inr video ->
        youtube_card L video_id video = inl e ->
        check_youtube W L s = failed e).
Proof.
  intros Hfinds out s4 failed.
  rewrite (check_youtube_finds _ _ _ _ _ Hfinds).
  unfold failed, s4, out, logged, youtube_detailed.
  unfold youtube_announce, youtube_videos_call.
  repeat apply conj.
  - intros e Hout. run_steps. rewrite Hout. reflexivity.
  - intros details e Hout Hget. run_steps. rewrite Hout. run_steps.
    rewrite Hget. reflexivity.
  - intros details items Hout Hget Hfalse. run_steps. rewrite Hout.
    run_steps. rewrite Hget. run_steps. rewrite Hfalse. reflexivity.
  - intros details items e Hout Hget Htrue Hvideo.
    pose proof (py_get_truthy_item _ _ _ Hget Htrue) as Hitems.
    unfold detailed_video in Hvideo. rewrite Hitems in Hvideo.
    cbn [rbind] in Hvideo.
    run_steps. rewrite Hout. run_steps. rewrite Hget. run_steps.
    rewrite Htrue. run_steps. rewrite Hitems. run_steps.
    rewrite Hvideo. reflexivity.
  - intros details video e Hout Hvideo Hcard.
    unfold detailed_video in Hvideo.
    destruct (py_item details "items") as [|items] eqn:Hitems;
      [discriminate Hvideo|].
    cbn [rbind] in Hvideo.
    pose proof (py_item_get _ _ _ JNull Hitems) as Hget.
    pose proof (py_first_truthy _ _ Hvideo) as Htruthy.
    run_steps. rewrite Hout. run_steps. rewrite Hget. run_steps.
    rewrite Htruthy. run_steps. rewrite Hitems. run_steps.
    rewrite Hvideo. run_steps. rewrite Hcard. reflexivity.
Qed.

End NewVideo.

Lemma youtube_finds_example W :
  import_googleapiclient W = None -> YOUTUBE_API_KEY W = Some "key" ->
  (forall t k, youtube_build W t k = None) ->
  (forall t c, youtube_search W t c = inr (search_reply "xyz789" "Hello")) ->
  youtube_finds W "key" abc123_state (search_reply "xyz789" "Hello")
    (JStr "xyz789") [("youtube_last_video", JStr "abc123")].
Proof.
  intros H1 H2 H3 H4. repeat split; auto.
  - discriminate.
  - eexists. reflexivity.
Qed.

(** The new video [xyz789] with a webhook that answers 204, and with one
    that answers 500. *)
Lemma new_video_is_announced_witness :
  (fst (check_youtube (youtube_world "xyz789" "Hello") demo_lib abc123_state)
   = inr true
   /\ cache (snd (check_youtube (youtube_world "xyz789" "Hello") demo_lib
                    abc123_state))
      = JObj [("youtube_last_video", JStr "xyz789")])
  /\ (fst (check_youtube (failing_hook_world "xyz789" "Hello") demo_lib
             abc123_state) = inr false
      /\ cache (snd (check_youtube (failing_hook_world "xyz789" "Hello")
                       demo_lib abc123_state))
         = cache abc123_state).
Proof.
  split.
  - pose proof (new_video_is_announced (youtube_world "xyz789" "Hello")
                  demo_lib "key" abc123_state _ _ _ _ _ _ _ _
                  "https://discord.test/hook"
                  (youtube_finds_example (youtube_world "xyz789" "Hello")
                     eq_refl eq_refl (fun _ _ => eq_refl)
                     (fun _ _ => eq_refl))
                  eq_refl eq_refl eq_refl eq_refl) as H.
    cbv zeta in H. rewrite H; [|discriminate]. split; reflexivity.
  - pose proof (new_video_is_announced (failing_hook_world "xyz789" "Hello")
                  demo_lib "key" abc123_state _ _ _ _ _ _ _ _
                  "https://discord.test/hook"
                  (youtube_finds_example (failing_hook_world "xyz789" "Hello")
                     eq_refl eq_refl (fun _ _ => eq_refl)
                     (fun _ _ => eq_refl))
                  eq_refl eq_refl eq_refl eq_refl) as H.
    cbv zeta in H. rewrite H; [|discriminate]. split; reflexivity.
Defined.

(** Details without a thumbnail: the card cannot be built and nothing is
    posted. *)
Lemma new_video_without_card_witness :
  fst (check_youtube no_thumbnail_world demo_lib abc123_state) = inr false
  /\ posts (trace (snd (check_youtube no_thumbnail_world demo_lib
                          abc123_state))) = []
  /\ cache (snd (check_youtube no_thumbnail_world demo_lib abc123_state))
     = cache abc123_state.
Proof.
  pose proof (new_video_without_card no_thumbnail_world demo_lib "key"
                abc123_state _ _ _
                (youtube_finds_example no_thumbnail_world
                   eq_refl eq_refl (fun _ _ => eq_refl)
                   (fun _ _ => eq_refl))) as H.
  cbv zeta in H. destruct H as (_ & _ & _ & _ & H).
  rewrite (H _ _ (Exn KeyError "thumbnails") eq_refl eq_refl eq_refl).
  repeat split.
Defined.

(** ** The post pipeline *)

Section ExtraPost.

Context (W : world) (L : pylib).

(** X7.  A post that is not the cached one, and for which the card can be
    built, is announced when the primary webhook is configured: one POST of
    the card is made.  When it is answered with a status that is not 4xx or
    5xx the pipeline sets the entry ["instagram_last_post"] to the post's
    identifier, logs it and returns [True]; otherwise it returns [False] and
    leaves the cache as it was. *)
Theorem new_post_is_announced (s : state) (post_data post_id : jval)
    (d : list (string * jval)) (post_type : string) (embed : jval)
    (content url : string) :
  instagram_finds s post_data post_id d ->
  instagram_card L post_id post_data = inr (post_type, embed, content) ->
  DISCORD_WEBHOOK_URL W = Some url ->
  url <> "" ->
  let payload := webhook_payload W content (Some embed) false in
  let out := notifier_answer W L url payload s in
  let s' := notified_state W L url payload s in
  _process_instagram_post W L post_data s
  = if delivered out
    then (inr true,
          {| cache := JObj (assoc_set instagram_cache_key post_id d);
             trace := EvLog INFO ("posted new instagram " ++ post_type ++ ": "
                                  ++ py_str L post_id) :: trace s' |})
    else (inr false, s').
Proof.
  intros Hfinds Hcard Hurl Hne.
  apply (process_instagram_post_announce W L s post_data post_id d post_type
           embed content url Hfinds Hcard Hurl Hne).
Qed.

(** X8.  The post pipeline never raises and announces nothing when it
    cannot identify the post or build its card.  A post without a
    shortcode, or with an empty one, gives the warning
    ["Could not extract Instagram post ID"]; a post that is not a dict, a
    cache that is not a dict, and a card that cannot be built (a caption
    that is [null], say) give the error
    ["instagram post processing error: <class>: <message>"].  The result is
    [False], no POST is made and the cache is as it was. *)
Theorem post_without_card (s : state) (post_data : jval) :
  (forall e,
     py_get post_data "shortcode" (JStr "") = inl e ->
     _process_instagram_post W L post_data s = (inr false, post_failed e s))
  /\ (forall post_id,
        py_get post_data "shortcode" (JStr "") = inr post_id ->
        py_truthy post_id = false ->
        _process_instagram_post W L post_data s
        = (inr false,
           logged WARNING "Could not extract Instagram post ID" s))
  /\ (forall post_id e,
        py_get post_data "shortcode" (JStr "") = inr post_id ->
        py_truthy post_id = true ->
        py_get (cache s) instagram_cache_key JNull = inl e ->
        _process_instagram_post W L post_data s = (inr false, post_failed e s))
  /\ (forall post_id d e,
        instagram_finds s post_data post_id d ->
        instagram_card L post_id post_data = inl e ->
        _process_instagram_post W L post_data s
        = (inr false, post_failed e s)).
Proof.
  unfold post_failed, logged. repeat apply conj.
  - intros e Hid. unfold _process_instagram_post. run_steps.
    rewrite Hid. reflexivity.
  - intros post_id Hid Hfalse. unfold _process_instagram_post. run_steps.
    rewrite Hid. run_steps. rewrite Hfalse. reflexivity.
  - intros post_id e Hid Htruthy Hcache.
    unfold _process_instagram_post, cache_get. run_steps.
    rewrite Hid. run_steps. rewrite Htruthy. run_steps.
    rewrite Hcache. reflexivity.
  - intros post_id d e (Hid & Htruthy & Hcache & Hneq) Hcard.
    unfold cached_value in Hneq.
    unfold _process_instagram_post, cache_get. run_steps.
    rewrite Hid. run_steps. rewrite Htruthy. run_steps.
    rewrite Hcache. cbn [py_get]. rewrite Hneq. run_steps.
    rewrite Hcard, <- Hcache. reflexivity.
Qed.

(** A run of the pipeline that returns [True] has set the entry to the
    post's identifier. *)
Lemma process_instagram_post_true post_data s :
  fst (_process_instagram_post W L post_data s) = inr true ->
  exists post_id d,
    py_get post_data "shortcode" (JStr "") = inr post_id
    /\ py_truthy post_id = true
    /\ cache (snd (_process_instagram_post W L post_data s))
       = JObj (assoc_set instagram_cache_key post_id d).
Proof.
  assert (Hnn : forall post_id st,
            fst (try_catch (instagram_nothing_new L post_id post_data)
                   (fun e =>
                      log ERROR ("instagram post processing error: "
                                 ++ type_name (kind e) ++ ": " ++ msg e);;
                      ret false) st) <> inr true).
  { intros post_id st H.
    assert (Hy : yields false
              (try_catch (instagram_nothing_new L post_id post_data)
                 (fun e =>
                    log ERROR ("instagram post processing error: "
                               ++ type_name (kind e) ++ ": " ++ msg e);;
                    ret false))).
    { apply yields_try_catch; [apply yields_instagram_nothing_new|].
      intro. repeat yields_step. }
    discriminate (Hy st true H). }
  unfold _process_instagram_post, cache_get. run_steps.
  destruct (py_get post_data "shortcode" (JStr "")) as [e | post_id] eqn:Hid;
    [discriminate|].
  run_steps.
  destruct (py_truthy post_id) eqn:Htruthy; run_steps; [|discriminate].
  destruct (py_get (cache s) instagram_cache_key JNull) as [e | cached]
    eqn:Hcached; [discriminate|].
  run_steps.
  destruct (py_eq cached post_id) eqn:Heq.
  { intros H. exfalso. apply (Hnn post_id s).
    unfold try_catch. exact H. }
  destruct (instagram_card L post_id post_data)
    as [e | [[post_type embed] content]]; [discriminate|].
  run_steps.
  pose proof (send_discord_webhook_cache W L content (Some embed) false false
                s)
    as Hc.
  destruct (send_discord_webhook W L content (Some embed) false false s)
    as [[e | sent] s1]; [discriminate|].
  cbn [snd] in Hc.
  destruct sent; [|discriminate].
  unfold cache_set. rewrite Hc.
  destruct (cache s) as [ | | | | | d]; try discriminate.
  run_steps. intros _. exists post_id, d. auto.
Qed.

(** X9.  A post is announced once: after a run of the pipeline that
    returned [True], the pipeline run again on the same post - at once or
    later, as long as the cache is the one that run left - returns [False],
    makes no POST and leaves the cache as it is. *)
Theorem announced_post_is_not_announced_again (post_data : jval)
    (s later : state) :
  fst (_process_instagram_post W L post_data s) = inr true ->
  cache later = cache (snd (_process_instagram_post W L post_data s)) ->
  silent_false (fst (_process_instagram_post W L post_data later)) later
    (snd (_process_instagram_post W L post_data later)).
Proof.
  intros Htrue Hlater.
  apply process_instagram_post_true in Htrue
    as (post_id & d & Hid & Htruthy & Hcache).
  rewrite Hcache in Hlater.
  apply (process_instagram_post_nothing_new W L later post_data post_id
           post_id Hid Htruthy).
  - rewrite Hlater. cbn [py_get]. rewrite assoc_set_same. reflexivity.
  - apply py_eq_refl.
Qed.

End ExtraPost.

(** The post [Cxyz123] of the profile page's link, with a webhook that
    answers 204. *)
Lemma new_post_is_announced_witness :
  fst (_process_instagram_post profile_page_world demo_lib
         (JObj [("shortcode", JStr "Cxyz123")]) empty_state) = inr true
  /\ cache (snd (_process_instagram_post profile_page_world demo_lib
                   (JObj [("shortcode", JStr "Cxyz123")]) empty_state))
     = JObj [("instagram_last_post", JStr "Cxyz123")].
Proof.
  pose proof (new_post_is_announced profile_page_world demo_lib empty_state
                (JObj [("shortcode", JStr "Cxyz123")]) (JStr "Cxyz123") []
                _ _ _ "https://discord.test/hook"
                (conj eq_refl (conj eq_refl (conj eq_refl eq_refl)))
                eq_refl eq_refl) as H.
  cbv zeta in H. rewrite H; [|discriminate]. split; reflexivity.
Defined.

(** A post without a shortcode, and a post whose caption is [null]. *)
Lemma post_without_card_witness :
  _process_instagram_post profile_page_world demo_lib (JObj []) empty_state
  = (inr false,
     logged WARNING "Could not extract Instagram post ID" empty_state)
  /\ (fst (_process_instagram_post profile_page_world demo_lib
             post_with_null_caption empty_state) = inr false
      /\ posts (trace (snd (_process_instagram_post profile_page_world
                              demo_lib post_with_null_caption empty_state)))
         = []).
Proof.
  split.
  - exact (proj1 (proj2 (post_without_card profile_page_world demo_lib
                           empty_state (JObj [])))
             (JStr "") eq_refl eq_refl).
  - rewrite (proj2 (proj2 (proj2
               (post_without_card profile_page_world demo_lib empty_state
                  post_with_null_caption)))
               (JStr "Cxyz123") [] (Exn TypeError "object has no len()")
               (conj eq_refl (conj eq_refl (conj eq_refl eq_refl)))
               eq_refl).
    split; reflexivity.
Defined.

(** The post of the profile page's link, twice. *)
Lemma announced_post_is_not_announced_again_witness :
  fst (_process_instagram_post profile_page_world demo_lib
         (JObj [("shortcode", JStr "Cxyz123")])
         (snd (_process_instagram_post profile_page_world demo_lib
                 (JObj [("shortcode", JStr "Cxyz123")]) empty_state)))
  = inr false.
Proof.
  apply (announced_post_is_not_announced_again profile_page_world demo_lib
           (JObj [("shortcode", JStr "Cxyz123")]) empty_state
           (snd (_process_instagram_post profile_page_world demo_lib
                   (JObj [("shortcode", JStr "Cxyz123")]) empty_state))
           eq_refl eq_refl).
Defined.

(** ** The web method *)

Section ExtraWeb.

Context (W : world) (L : pylib).

Lemma total_process_instagram_json data :
  total (_process_instagram_json W L data).
Proof. unfold _process_instagram_json. repeat total_step. Qed.

Lemma no_profile_make_request_json :
  keeps (no_get profile_url) (_make_request W json_api_url json_api_headers 15).
Proof. apply keeps_make_request. intros ? ? ?. reflexivity. Qed.

Lemma no_profile_process_instagram_json data :
  keeps (no_get profile_url) (_process_instagram_json W L data).
Proof.
  apply keeps_process_instagram_json.
  - apply allows_post_instagram_cards. intros ? ? ? ?. reflexivity.
  - intros ? ?. exact I.
Qed.

(** X10.  The answer of the JSON endpoint decides whether the profile page
    is fetched.  With a status other than 200 the web method goes on to the
    profile page.  With status 200 and a body that is JSON the web method
    returns what [_process_instagram_json] returns and never fetches the
    profile page - also when the data was inconclusive: without a user it
    returns [None] at once, without posts it logs
    ["No Instagram posts found in JSON data"] and returns [None]. *)
Theorem json_endpoint_answer_decides (s : state) (resp : response)
    (s2 : state) :
  _make_request W json_api_url json_api_headers 15 (web_delayed s)
  = (inr resp, s2) ->
  (status_code resp <> 200 ->
     _check_instagram_web W L s
     = try_catch (instagram_profile_page W L) web_failed s2)
  /\ (forall data,
        status_code resp = 200 -> json_loads L (text resp) = Some data ->
        (exists r,
           fst (_process_instagram_json W L data s2) = inr r
           /\ _check_instagram_web W L s
              = (inr r, snd (_process_instagram_json W L data s2)))
        /\ (exists evs,
              trace (snd (_check_instagram_web W L s)) = (evs ++ trace s)%list
              /\ Forall (fun ev => is_get_of profile_url ev = false) evs)
        /\ (forall d user_data,
              py_get data "data" (JObj []) = inr d ->
              py_get d "user" (JObj []) = inr user_data ->
              py_truthy user_data = false ->
              _check_instagram_web W L s = (inr None, s2))
        /\ (forall d user_data media posts,
              py_get data "data" (JObj []) = inr d ->
              py_get d "user" (JObj []) = inr user_data ->
              py_truthy user_data = true ->
              py_get user_data "edge_owner_to_timeline_media" (JObj [])
              = inr media ->
              py_get media "edges" (JList []) = inr posts ->
              py_truthy posts = false ->
              _check_instagram_web W L s
              = (inr None,
                 logged INFO "No Instagram posts found in JSON data" s2))).
Proof.
  intros Hreq. unfold json_api_headers, web_delayed in Hreq.
  assert (Hweb : forall data,
            status_code resp = 200 -> json_loads L (text resp) = Some data ->
            forall r s3,
              _process_instagram_json W L data s2 = (inr r, s3) ->
              _check_instagram_web W L s = (inr r, s3)).
  { intros data Hstatus Hjson r s3 Hdata.
    unfold _check_instagram_web, instagram_json_api, instagram_json_api_body,
      response_json.
    run_steps. rewrite Hreq. run_steps. rewrite Hstatus. cbn [Z.eqb Pos.eqb].
    rewrite Hjson. run_steps. rewrite Hdata. reflexivity. }
  split.
  - intros Hstatus.
    unfold _check_instagram_web, instagram_json_api, instagram_json_api_body,
      web_failed.
    run_steps. rewrite Hreq. run_steps.
    destruct (Z.eqb_spec (status_code resp) 200) as [H200 | _];
      [contradiction | reflexivity].
  - intros data Hstatus Hjson.
    destruct (total_process_instagram_json data s2) as [r Hr].
    destruct (_process_instagram_json W L data s2) as [[e | r'] s3] eqn:Hdata;
      simpl in Hr; [discriminate|].
    injection Hr as ->.
    pose proof (Hweb data Hstatus Hjson r s3 Hdata) as Hrun.
    repeat apply conj.
    + exists r. split; [reflexivity | exact Hrun].
    + rewrite Hrun. cbn [snd].
      destruct (no_profile_make_request_json (web_delayed s))
        as [_ (evs1 & Ht1 & Hq1)].
      unfold json_api_headers, web_delayed in Ht1. rewrite Hreq in Ht1.
      cbn [snd trace] in Ht1.
      destruct (no_profile_process_instagram_json data s2)
        as [_ (evs2 & Ht2 & Hq2)].
      rewrite Hdata in Ht2. cbn [snd] in Ht2.
      exists (evs2 ++ evs1 ++ [EvSleep])%list. split.
      * rewrite Ht2, Ht1, <- !app_assoc. reflexivity.
      * apply Forall_app. split; [exact Hq2|].
        apply Forall_app. split; [exact Hq1|].
        apply Forall_cons; [reflexivity | apply Forall_nil].
    + intros d user_data Hd Hu Hfalse. apply (Hweb data Hstatus Hjson).
      unfold _process_instagram_json. run_steps.
      rewrite Hd. run_steps. rewrite Hu. run_steps. rewrite Hfalse.
      reflexivity.
    + intros d user_data media posts Hd Hu Htrue Hm Hp Hfalse.
      apply (Hweb data Hstatus Hjson).
      unfold _process_instagram_json. run_steps.
      rewrite Hd. run_steps. rewrite Hu. run_steps. rewrite Htrue.
      run_steps. rewrite Hm. run_steps. rewrite Hp. run_steps.
      rewrite Hfalse. reflexivity.
Qed.

End ExtraWeb.

(** The JSON endpoint answers 200 with [{}]: the web method is inconclusive
    after its one request. *)
Lemma json_endpoint_answer_decides_witness :
  _check_instagram_web empty_json_world demo_lib empty_state
  = (inr None,
     {| cache := JObj [];
        trace := [EvGet json_api_url json_api_headers 15
                    (inr {| status_code := 200; text := "{}" |});
                  EvSleep] |}).
Proof.
  exact (proj1 (proj2 (proj2
           (proj2 (json_endpoint_answer_decides empty_json_world demo_lib
                     empty_state {| status_code := 200; text := "{}" |} _
                     eq_refl)
              (JObj []) eq_refl eq_refl)))
           (JObj []) (JObj []) eq_refl eq_refl eq_refl).
Defined.

(** ** The profile page *)

Section ExtraHtml.

Context (W : world) (L : pylib).


(** X11.  A profile page whose scripts carry no data that is JSON, and
    whose first post link (if any) gives no shortcode, is inconclusive:
    [_process_instagram_html] returns [None] and does nothing else - no log
    line, no request, no change of the cache. *)
Theorem page_without_posts (html : string) (s : state) :
  Forall (script_unusable L) (soup_scripts L html) ->
  match soup_post_links L html with
  | href :: _ => re_shortcode L href = None
  | [] => True
  end ->
  _process_instagram_html W L html s = (inr None, s).
Proof.
  intros Hscripts Hlinks.
  pose proof (scan_scripts_app W L (soup_scripts L html) [] s Hscripts) as Hscan.
  rewrite app_nil_r in Hscan. cbn [scan_scripts] in Hscan.
  unfold _process_instagram_html. run_steps. rewrite Hscan. run_steps.
  destruct (soup_post_links L html) as [|href rest]; [reflexivity|].
  rewrite Hlinks. reflexivity.
Qed.


End ExtraHtml.

(** An empty page. *)
Lemma page_without_posts_witness :
  _process_instagram_html profile_page_world demo_lib "" empty_state
  = (inr None, empty_state).
Proof.
  apply (page_without_posts profile_page_world demo_lib "" empty_state).
  - apply Forall_nil.
  - exact I.
Defined.


(** ** The mirror method *)

Section ExtraMirror.

Context (W : world) (L : pylib).

(** X13.  The mirror method announces the post of the mirror's first media
    link when it is not the cached one and the primary webhook is
    configured: one POST of the mirror's card.  When it is answered with a
    status that is not 4xx or 5xx the method sets the entry
    ["instagram_last_post"], logs the post and returns [True].  Otherwise it
    returns [None], not [False]: the Instagram checker, when the web method
    was inconclusive before, then logs
    ["all instagram scraping methods failed"] and returns [False]. *)
Theorem mirror_post_is_announced (s : state) (resp : response) (s1 : state)
    (href : string) (rest : list string) (post_id : string)
    (d : list (string * jval)) (url : string) :
  _make_request W mirror_url rss_headers 15 s = (inr resp, s1) ->
  soup_media_links L (text resp) = href :: rest ->
  re_media_id L href = Some post_id ->
  cache s = JObj d ->
  py_eq (cached_value instagram_cache_key d) (JStr post_id) = false ->
  DISCORD_WEBHOOK_URL W = Some url ->
  url <> "" ->
  let card := rss_card post_id (soup_first_jpg L (text resp)) in
  let payload := webhook_payload W (snd card) (Some (fst card)) false in
  let out := notifier_answer W L url payload s1 in
  let s2 := notified_state W L url payload s1 in
  let announced :=
    {| cache := JObj (assoc_set instagram_cache_key (JStr post_id) d);
       trace := EvLog INFO ("posted new instagram post: " ++ post_id)
                :: trace s2 |} in
  _check_instagram_rss W L s
  = (if delivered out then (inr (Some true), announced) else (inr None, s2))
  /\ (forall s0,
        _check_instagram_web W L (instagram_started s0) = (inr None, s) ->
        check_instagram W L s0
        = if delivered out then (inr true, announced)
          else (inr false,
                logged ERROR "all instagram scraping methods failed" s2)).
Proof.
  intros Hreq Hlinks Hid Hcache Hneq Hurl Hne card payload out s2 announced.
  unfold cached_value in Hneq.
  pose proof (make_request_cache W mirror_url rss_headers 15 s) as Hc.
  rewrite Hreq in Hc. cbn [snd] in Hc.
  assert (Hrss :
    _check_instagram_rss W L s
    = (if delivered out then (inr (Some true), announced)
       else (inr None, s2))).
  { unfold _check_instagram_rss, cache_get. run_steps.
    rewrite Hreq. run_steps. rewrite Hlinks, Hid. run_steps.
    rewrite Hc, Hcache. cbn [py_get]. rewrite Hneq.
    change (rss_card post_id (soup_first_jpg L (text resp))) with card.
    destruct card as [embed content] eqn:Hcard. run_steps.
    rewrite (send_discord_webhook_configured W L content (Some embed) false
               false url s1 Hurl Hne).
    cbn [fst snd] in payload. fold payload. fold out. fold s2.
    destruct (delivered out); [|reflexivity].
    unfold cache_set. run_steps.
    change (cache s2) with (cache s1). rewrite Hc, Hcache. reflexivity. }
  split; [exact Hrss|].
  intros s0 Hweb.
  destruct (delivered out).
  - apply (check_instagram_rss_decides W L s0 s true announced Hweb Hrss).
  - apply (check_instagram_inconclusive W L s0 s s2 Hweb Hrss).
Qed.

(** X14.  The mirror method is inconclusive, with no POST and the cache as
    it was, when its request fails - it then logs
    ["Instagram RSS method error: ..."] - and, without a word, when the
    mirror's page has no media link or its first media link gives no
    identifier. *)
Theorem mirror_without_post (s : state) :
  (forall e s1,
     _make_request W mirror_url rss_headers 15 s = (inl e, s1) ->
     _check_instagram_rss W L s
     = (inr None, logged ERROR ("Instagram RSS method error: " ++ msg e) s1)
     /\ cache s1 = cache s)
  /\ (forall resp s1,
        _make_request W mirror_url rss_headers 15 s = (inr resp, s1) ->
        match soup_media_links L (text resp) with
        | href :: _ => re_media_id L href = None
        | [] => True
        end ->
        _check_instagram_rss W L s = (inr None, s1) /\ cache s1 = cache s).
Proof.
  split.
  - intros e s1 Hreq.
    pose proof (make_request_cache W mirror_url rss_headers 15 s) as Hc.
    rewrite Hreq in Hc. split; [|exact Hc].
    unfold _check_instagram_rss. run_steps. rewrite Hreq. reflexivity.
  - intros resp s1 Hreq Hlinks.
    pose proof (make_request_cache W mirror_url rss_headers 15 s) as Hc.
    rewrite Hreq in Hc. split; [|exact Hc].
    unfold _check_instagram_rss. run_steps. rewrite Hreq. run_steps.
    destruct (soup_media_links L (text resp)) as [|href rest];
      [reflexivity|].
    rewrite Hlinks. reflexivity.
Qed.

End ExtraMirror.

(** The mirror shows the post [123]: with a webhook that answers 204 the
    method returns [True]; with one that answers 500 it returns [None]. *)
Lemma mirror_post_is_announced_witness :
  fst (_check_instagram_rss (mirror_world no_content) demo_lib empty_state)
  = inr (Some true)
  /\ fst (_check_instagram_rss
            (mirror_world (inr {| status_code := 500; text := "" |}))
            demo_lib empty_state)
     = inr None.
Proof.
  split.
  - pose proof (mirror_post_is_announced (mirror_world no_content) demo_lib
                  empty_state _ _ "/media/123" [] "123" []
                  "https://discord.test/hook"
                  eq_refl eq_refl eq_refl eq_refl eq_refl eq_refl) as H.
    cbv zeta in H. destruct H as [H _]; [discriminate|].
    rewrite H. reflexivity.
  - pose proof (mirror_post_is_announced
                  (mirror_world (inr {| status_code := 500; text := "" |}))
                  demo_lib empty_state _ _ "/media/123" [] "123" []
                  "https://discord.test/hook"
                  eq_refl eq_refl eq_refl eq_refl eq_refl eq_refl) as H.
    cbv zeta in H. destruct H as [H _]; [discriminate|].
    rewrite H. reflexivity.
Defined.

(** The mirror cannot be reached: three attempts, then the error line. *)
Lemma mirror_without_post_witness :
  fst (_check_instagram_rss profile_page_world demo_lib empty_state)
  = inr None
  /\ cache (snd (_make_request profile_page_world mirror_url rss_headers 15
                   empty_state)) = cache empty_state.
Proof.
  destruct (proj1 (mirror_without_post profile_page_world demo_lib
                     empty_state)
              (Exn RetryError "RetryError") _ eq_refl) as [H Hc].
  split; [rewrite H; reflexivity | exact Hc].
Defined.

(** ** Where a run goes *)

Section Destinations.

Context (W : world) (L : pylib).
Context (gets : list string) (hooks : list (option string))
        (youtube files : bool).

Local Abbreviation P := (destinations gets hooks youtube files).

Lemma dest_cache_set k v : keeps P (cache_set k v).
Proof. apply keeps_cache_set. intros ? ?. exact I. Qed.

Lemma dest_send_discord_webhook content embed (lg mention : bool) :
  In (if lg then DISCORD_LOG_WEBHOOK_URL W else DISCORD_WEBHOOK_URL W) hooks ->
  keeps P (send_discord_webhook W L content embed lg mention).
Proof.
  intros Hin s. split; [exact I|].
  rewrite send_discord_webhook_run. cbv zeta.
  destruct (if lg then DISCORD_LOG_WEBHOOK_URL W else DISCORD_WEBHOOK_URL W)
    as [url|]; cbn [opt_truthy].
  - destruct (negb (String.eqb url "")).
    + assert (Hpost : forall out, reaches gets hooks youtube files
                                    (EvPost url
                                       (webhook_payload W content embed mention)
                                       30 out))
        by (intros out; split; [exact Hin | reflexivity]).
      destruct (attempt_result _); cbn [snd trace];
        eexists [_; _; _; _]; (split; [reflexivity|]);
        repeat (apply Forall_cons; [first [exact I | apply Hpost]|]);
        apply Forall_nil.
    + eexists [_]. split; [reflexivity|].
      apply Forall_cons; [exact I | apply Forall_nil].
  - eexists [_]. split; [reflexivity|].
    apply Forall_cons; [exact I | apply Forall_nil].
Qed.

Lemma dest_make_request url h :
  In url gets -> keeps P (_make_request W url h 15).
Proof.
  intros Hin. apply keeps_retrying. intros s. unfold request_attempt.
  apply keeps_bind.
  - apply keeps_emit. split; [exact Hin | reflexivity].
  - intros _. keeps_auto.
Qed.

Lemma dest_youtube_build_call k :
  youtube = true -> keeps P (youtube_build_call W k).
Proof.
  intros Hy s. unfold youtube_build_call.
  apply keeps_bind; [apply keeps_emit; exact Hy | intros _; keeps_auto].
Qed.

Lemma dest_youtube_search_call :
  youtube = true -> keeps P (youtube_search_call W youtube_channel).
Proof.
  intros Hy s. unfold youtube_search_call.
  apply keeps_bind; [|intros _; apply keeps_lift].
  apply keeps_emit. split; [exact Hy | reflexivity].
Qed.

Lemma dest_youtube_videos_call i :
  youtube = true -> keeps P (youtube_videos_call W i).
Proof.
  intros Hy s. unfold youtube_videos_call.
  apply keeps_bind; [apply keeps_emit; exact Hy | intros _; apply keeps_lift].
Qed.

Lemma dest_check_youtube :
  In (DISCORD_WEBHOOK_URL W) hooks -> youtube = true ->
  keeps P (check_youtube W L).
Proof.
  intros Hh Hy.
  unfold check_youtube, _check_youtube_impl, youtube_announce.
  fold youtube_channel.
  keeps_auto;
    auto using dest_youtube_build_call, dest_youtube_search_call,
               dest_youtube_videos_call, keeps_youtube_nothing_new,
               dest_cache_set.
  all: apply (dest_send_discord_webhook _ _ false false); exact Hh.
Qed.

Lemma dest_process_instagram_post post_data :
  In (DISCORD_WEBHOOK_URL W) hooks ->
  keeps P (_process_instagram_post W L post_data).
Proof.
  intros Hh. unfold _process_instagram_post.
  keeps_auto; auto using keeps_instagram_nothing_new, dest_cache_set.
  all: apply (dest_send_discord_webhook _ _ false false); exact Hh.
Qed.

Lemma dest_scan_scripts scripts :
  In (DISCORD_WEBHOOK_URL W) hooks -> keeps P (scan_scripts W L scripts).
Proof.
  intros Hh. induction scripts as [|script rest IH]; simpl.
  - apply keeps_ret.
  - unfold shared_data_posts.
    keeps_auto; auto using dest_process_instagram_post.
Qed.

Lemma dest_check_instagram_web :
  In (DISCORD_WEBHOOK_URL W) hooks ->
  In json_api_url gets -> In profile_url gets ->
  keeps P (_check_instagram_web W L).
Proof.
  intros Hh Hj Hp.
  unfold _check_instagram_web, instagram_json_api, instagram_json_api_body,
    instagram_profile_page, _process_instagram_json, _process_instagram_html.
  keeps_auto;
    auto using dest_make_request, keeps_response_json,
               dest_process_instagram_post, dest_scan_scripts.
Qed.

Lemma dest_check_instagram_rss :
  In (DISCORD_WEBHOOK_URL W) hooks -> In mirror_url gets ->
  keeps P (_check_instagram_rss W L).
Proof.
  intros Hh Hm. unfold _check_instagram_rss.
  keeps_auto; auto using dest_make_request, dest_cache_set.
  all: apply (dest_send_discord_webhook _ _ false false); exact Hh.
Qed.

Lemma dest_check_instagram :
  In (DISCORD_WEBHOOK_URL W) hooks ->
  In json_api_url gets -> In profile_url gets -> In mirror_url gets ->
  keeps P (check_instagram W L).
Proof.
  intros Hh Hj Hp Hm. unfold check_instagram.
  keeps_auto. apply keeps_try_methods.
  apply Forall_cons; [|apply Forall_cons; [|apply Forall_nil]]; simpl.
  - apply dest_check_instagram_web; assumption.
  - apply dest_check_instagram_rss; assumption.
Qed.

Lemma dest_log_results results : keeps P (log_results results).
Proof.
  induction results as [|[platform status] rest IH]; simpl; keeps_auto.
Qed.

Lemma dest_save_cache : files = true -> keeps P (save_cache W).
Proof.
  intros Hf s. unfold save_cache.
  apply keeps_bind.
  - apply keeps_emit. split; [exact Hf | reflexivity].
  - intros _. keeps_auto.
Qed.

Lemma dest_init : files = true -> keeps P (init W L).
Proof.
  intros Hf. unfold init, load_cache.
  apply keeps_bind.
  - apply keeps_try_catch; [|intro; keeps_auto].
    intros s. apply keeps_bind.
    + apply keeps_emit. split; [exact Hf | reflexivity].
    + intros _. keeps_auto.
  - intros loaded s. split; [exact I|].
    exists []. split; [reflexivity | apply Forall_nil].
Qed.

Lemma dest_main :
  In (DISCORD_WEBHOOK_URL W) hooks -> In (DISCORD_LOG_WEBHOOK_URL W) hooks ->
  In json_api_url gets -> In profile_url gets -> In mirror_url gets ->
  youtube = true -> files = true ->
  keeps P (main W L).
Proof.
  intros Hh Hl Hj Hp Hm Hy Hf.
  unfold main, run_all_checks, platforms. cbn [run_platforms].
  keeps_auto;
    auto using dest_init, dest_check_youtube, dest_check_instagram,
               dest_log_results, dest_save_cache.
  all: apply (dest_send_discord_webhook _ _ true); exact Hl.
Qed.

End Destinations.

(** X15.  Where a run goes.  The video checker makes no HTTP GET: it talks
    to the YouTube API, searching the program's one channel, and POSTs only
    to the primary webhook.  The Instagram checker makes no call of the
    YouTube API: it GETs only the JSON endpoint, the profile page and the
    mirror, and POSTs only to the primary webhook.  Neither reads or writes
    a file.  A whole run of the program adds the log webhook and the cache
    file and nothing else.  Every GET has timeout 15 and every POST timeout
    30. *)
Theorem run_destinations (W : world) (L : pylib) (s : state) :
  (exists evs,
     trace (run_state (check_youtube W L) s) = (evs ++ trace s)%list
     /\ Forall (reaches [] [DISCORD_WEBHOOK_URL W] true false) evs)
  /\ (exists evs,
        trace (run_state (check_instagram W L) s) = (evs ++ trace s)%list
        /\ Forall (reaches instagram_addresses [DISCORD_WEBHOOK_URL W]
                     false false) evs)
  /\ (exists evs,
        trace (run_state (main W L) s) = (evs ++ trace s)%list
        /\ Forall (reaches instagram_addresses
                     [DISCORD_WEBHOOK_URL W; DISCORD_LOG_WEBHOOK_URL W]
                     true true) evs).
Proof.
  unfold instagram_addresses. repeat apply conj.
  - apply (dest_check_youtube W L [] [DISCORD_WEBHOOK_URL W] true false);
      simpl; auto.
  - apply (dest_check_instagram W L [json_api_url; profile_url; mirror_url]
             [DISCORD_WEBHOOK_URL W] false false); simpl; auto.
  - apply (dest_main W L [json_api_url; profile_url; mirror_url]
             [DISCORD_WEBHOOK_URL W; DISCORD_LOG_WEBHOOK_URL W] true true);
      simpl; auto.
Qed.

(** ** The summary of a run *)



